(** * flyteadmin: authorization-server metadata and the serve entrypoint

    A shallow embedding of
    - [pkg/auth/authzserver/metadata_provider.go] (module [authzserver]),
    - the [serve] command of package [entrypoints] (module [entrypoints]),
    - the userinfo fetch exercised by [TestPostToIdp] (module [auth]),
    - the task validator that follows the metadata provider in its file
      (module [validation]),
    with the library calls they make ([net/url], [net/http], [path],
    [strings], go-grpc-middleware, grpc-gateway) modelled next to them. *)

From Stdlib Require Import ZArith Ascii String List Bool Sorted.
From stdpp Require Import base option gmap strings list.

Open Scope string_scope.
Set Warnings "-register-all".

(** Go's [error] values are opaque to this development: a message. *)
Definition error := string.

(** A Go result pair [(v, err)]: exactly one side is meaningful. *)
Inductive Result (A : Type) : Type :=
| Ok (a : A)
| Err (e : error).
Arguments Ok {A} a.
Arguments Err {A} e.

Definition is_Ok {A} (r : Result A) : bool :=
  match r with Ok _ => true | Err _ => false end.

(** A call that may panic instead of returning. *)
Inductive Outcome (A : Type) : Type :=
| Done (a : A)
| Panic (msg : string).
Arguments Done {A} a.
Arguments Panic {A} msg.

Definition Outcome_bind {A B} (m : Outcome A) (k : A -> Outcome B) : Outcome B :=
  match m with
  | Done a => k a
  | Panic msg => Panic msg
  end.

Notation "'run*' x ':=' m 'in' k" := (Outcome_bind m (fun x => k))
  (at level 10, x name, m at level 100, k at level 200, only parsing).

(** [errors.Wrap(err, message)] of github.com/pkg/errors. *)
Definition Wrap (err : error) (message : string) : error :=
  message ++ ": " ++ err.

(** ** package strings *)
Module strings.

(** [strings.HasPrefix(s, prefix)]. *)
Fixpoint HasPrefix (s prefix : string) {struct prefix} : bool :=
  match prefix, s with
  | EmptyString, _ => true
  | String _ _, EmptyString => false
  | String c p', String d s' => Ascii.eqb c d && HasPrefix s' p'
  end.

(** [strings.Contains(s, substr)]: [substr] occurs at some offset of [s]. *)
Fixpoint Contains (s substr : string) : bool :=
  HasPrefix s substr ||
  match s with
  | EmptyString => false
  | String _ s' => Contains s' substr
  end.

(** The last byte of a non-empty string ([pattern[len(pattern)-1]]). *)
Fixpoint last (s : string) : option Ascii.ascii :=
  match s with
  | EmptyString => None
  | String c EmptyString => Some c
  | String _ s' => last s'
  end.

(** The first byte ([pattern[0]]). *)
Definition first (s : string) : option Ascii.ascii :=
  match s with
  | EmptyString => None
  | String c _ => Some c
  end.

(** [strings.IndexByte(s, c)]: the offset of the first [c], or -1. *)
Fixpoint IndexByte (s : string) (c : Ascii.ascii) : Z :=
  match s with
  | EmptyString => (-1)%Z
  | String a s' =>
      if Ascii.eqb a c then 0%Z
      else let i := IndexByte s' c in
           if (i =? -1)%Z then (-1)%Z else (i + 1)%Z
  end.

End strings.

(** ** package path

    [path.Clean] of the standard library, by the rules its documentation
    gives: runs of slashes count as one, [.] elements are dropped, a
    [..] element removes the element before it, a [..] at the root is
    dropped, and a [..] that has nothing to remove in a relative path is
    kept. *)
Module path.

(** The elements of a path, between its slashes. *)
Fixpoint elements (p : string) : list string :=
  match p with
  | EmptyString => [""]
  | String c p' =>
      if Ascii.eqb c "/" then "" :: elements p'
      else match elements p' with
           | e :: rest => String c e :: rest
           | [] => [String c ""]
           end
  end.

Fixpoint join (elems : list string) : string :=
  match elems with
  | [] => ""
  | [e] => e
  | e :: rest => e ++ "/" ++ join rest
  end.

(** One element read by [Clean]: [out] holds the elements written so
    far, last first, and [dotdot] how many of them are [..] elements
    that nothing can remove. *)
Definition step (rooted : bool) (st : list string * nat) (e : string)
  : list string * nat :=
  let (out, dotdot) := st in
  if String.eqb e "" then st
  else if String.eqb e "." then st
  else if String.eqb e ".." then
    if (dotdot <? List.length out)%nat then (List.tl out, dotdot)
    else if rooted then st
    else (".." :: out, S (List.length out))
  else (e :: out, dotdot).

Definition Clean (p : string) : string :=
  if String.eqb p "" then "."
  else
    let rooted := strings.HasPrefix p "/" in
    let out := fst (List.fold_left (step rooted) (elements p) ([], 0%nat)) in
    let s := join (List.rev out) in
    if rooted then "/" ++ s
    else if String.eqb s "" then "." else s.

End path.

(** ** package net/url

    [url.URL], its [String] method and [ResolveReference] belong to Go's
    standard library; the code under study only composes them, so they are
    taken as an interface. *)
Module url.

Class Lib := {
  URL : Type;
  String : URL -> string;
  ResolveReference : URL -> URL -> URL;
}.

End url.

(** ** package net/http, client side *)
Module httpclient.

(** An [*http.Response] as the caller sees it; reading [Body] to the end
    ([ioutil.ReadAll]) yields the bytes or fails. *)
Record Response := {
  Status : string;
  StatusCode : Z;
  Header : gmap string (list string);
  Body : Result string;
}.

(** What the network answers to a GET of each URL. *)
Definition Transport := string -> Result Response.

(** Code that may call out: it reads the transport and records every
    request it issues, in order. *)
Definition IO (A : Type) : Type := Transport -> A * list string.

Definition ret {A} (a : A) : IO A := fun _ => (a, []).

Definition bind {A B} (m : IO A) (k : A -> IO B) : IO B :=
  fun t => let (a, l1) := m t in let (b, l2) := k a t in (b, (l1 ++ l2)%list).

(** [http.Get(url)]. *)
Definition Get (u : string) : IO (Result Response) := fun t => (t u, [u]).

Definition ReadAll (r : Response) : Result string := Body r.

(** The value computed and the requests issued. *)
Definition value {A} (m : IO A) (t : Transport) : A := fst (m t).
Definition requests {A} (m : IO A) (t : Transport) : list string := snd (m t).

End httpclient.

Notation "'let*' x ':=' m 'in' k" := (httpclient.bind m (fun x => k))
  (at level 10, x name, m at level 100, k at level 200, only parsing).

(** ** package authConfig (pkg/auth/config) *)
Module authConfig.
Section WithUrl.
Context {U : url.Lib}.

(** Modelled from the spec: the declaration of [AuthorizationServerType]
    is declared elsewhere in the repository; the spec gives the
    authorization-server mode as [self | external]. *)
Inductive AuthorizationServerType :=
| AuthorizationServerTypeSelf
| AuthorizationServerTypeExternal.

Record FlyteClientConfig := {
  ClientID : string;
  RedirectURI : string;
  Scopes : list string;
}.

Record ThirdPartyConfigOptions := {
  FlyteClientConfig_ : FlyteClientConfig;
}.

Record ExternalAuthorizationServer := {
  BaseURL : url.URL;
}.

Record OAuth2Options := {
  AuthServerType : AuthorizationServerType;
  ExternalAuthServer : ExternalAuthorizationServer;
  ThirdParty : ThirdPartyConfigOptions;
}.

(** [UserAuth.OpenID]; its [BaseURL] field is spelled [OpenID_BaseURL]
    here, the name [BaseURL] being taken in this module. *)
Record OpenIDOptions := {
  OpenID_BaseURL : url.URL;
}.

Record UserAuthConfig := {
  OpenID : OpenIDOptions;
}.

Record Config := {
  HTTPPublicUri : url.URL;
  GrpcAuthorizationHeader : string;
  AppAuth : OAuth2Options;
  UserAuth : UserAuthConfig;
}.

End WithUrl.
End authConfig.

(** ** package service (flyteidl): the wire messages *)
Module service.

Record OAuth2MetadataResponse := {
  Issuer : string;
  AuthorizationEndpoint : string;
  TokenEndpoint : string;
  ResponseTypesSupported : list string;
  ScopesSupported : list string;
  TokenEndpointAuthMethodsSupported : list string;
  JwksUri : string;
  CodeChallengeMethodsSupported : list string;
  GrantTypesSupported : list string;
}.

(** [&service.OAuth2MetadataResponse{}]. *)
Definition OAuth2MetadataResponse_zero : OAuth2MetadataResponse :=
  {| Issuer := ""; AuthorizationEndpoint := ""; TokenEndpoint := "";
     ResponseTypesSupported := []; ScopesSupported := [];
     TokenEndpointAuthMethodsSupported := []; JwksUri := "";
     CodeChallengeMethodsSupported := []; GrantTypesSupported := [] |}.

(** The two request messages have no fields; the handlers receive a
    pointer to one, which may be nil. *)
Inductive OAuth2MetadataRequest :=
| OAuth2MetadataRequest_zero.

Inductive FlyteClientRequest :=
| FlyteClientRequest_zero.

Record FlyteClientResponse := {
  ClientId : string;
  RedirectUri : string;
  Scopes : list string;
  AuthorizationMetadataKey : string;
}.

End service.

(** ** package authzserver: metadata_provider.go *)
Module authzserver.
Section WithDecls.
Context {U : url.Lib}.

(** Names the file uses and other files of the package declare: the relative
    URLs of the package, its grant-type list, [GetIssuer],
    [unmarshalResp] (which fills the target message from a response and
    its body, or fails) and the constant [auth.ScopeAll]. *)
Class Decls := {
  authorizeRelativeUrl : url.URL;
  tokenRelativeUrl : url.URL;
  jsonWebKeysUrl : url.URL;
  oauth2MetadataEndpoint : url.URL;
  supportedGrantTypes : list string;
  GetIssuer : authConfig.Config -> string;
  unmarshalResp : httpclient.Response -> string ->
                  service.OAuth2MetadataResponse ->
                  Result service.OAuth2MetadataResponse;
  ScopeAll : string;
}.
Context {D : Decls}.

Record OAuth2MetadataProvider := {
  cfg : authConfig.Config;
}.

Definition NewService (config : authConfig.Config) : OAuth2MetadataProvider :=
  {| cfg := config |}.

(** The discovery URL of the [default] branch. *)
Definition externalMetadataURL (s : OAuth2MetadataProvider) : url.URL :=
  let app := authConfig.AppAuth (cfg s) in
  if (0 <? String.length
             (url.String (authConfig.BaseURL (authConfig.ExternalAuthServer app))))%nat
  then url.ResolveReference
         (authConfig.BaseURL (authConfig.ExternalAuthServer app))
         oauth2MetadataEndpoint
  else url.ResolveReference
         (authConfig.OpenID_BaseURL (authConfig.OpenID (authConfig.UserAuth (cfg s))))
         oauth2MetadataEndpoint.

Definition OAuth2Metadata (s : OAuth2MetadataProvider)
    (_ : option service.OAuth2MetadataRequest)
  : httpclient.IO (Result service.OAuth2MetadataResponse) :=
  match authConfig.AuthServerType (authConfig.AppAuth (cfg s)) with
  | authConfig.AuthorizationServerTypeSelf =>
      let doc := {|
        service.Issuer := GetIssuer (cfg s);
        service.AuthorizationEndpoint :=
          url.String (url.ResolveReference (authConfig.HTTPPublicUri (cfg s)) authorizeRelativeUrl);
        service.TokenEndpoint :=
          url.String (url.ResolveReference (authConfig.HTTPPublicUri (cfg s)) tokenRelativeUrl);
        service.JwksUri :=
          url.String (url.ResolveReference (authConfig.HTTPPublicUri (cfg s)) jsonWebKeysUrl);
        service.CodeChallengeMethodsSupported := ["S256"];
        service.ResponseTypesSupported := ["code"; "token"; "code token"];
        service.GrantTypesSupported := supportedGrantTypes;
        service.ScopesSupported := [ScopeAll];
        service.TokenEndpointAuthMethodsSupported := ["client_secret_basic"];
      |} in
      httpclient.ret (Ok doc)
  | _ =>
      let* response := httpclient.Get (url.String (externalMetadataURL s)) in
      match response with
      | Err err => httpclient.ret (Err err)
      | Ok response =>
          match httpclient.ReadAll response with
          | Err err => httpclient.ret (Err err)
          | Ok raw =>
              match unmarshalResp response raw service.OAuth2MetadataResponse_zero with
              | Err err => httpclient.ret (Err err)
              | Ok resp => httpclient.ret (Ok resp)
              end
          end
      end
  end.

Definition FlyteClient (s : OAuth2MetadataProvider)
    (_ : option service.FlyteClientRequest)
  : Result service.FlyteClientResponse :=
  let c := authConfig.FlyteClientConfig_ (authConfig.ThirdParty (authConfig.AppAuth (cfg s))) in
  Ok {|
    service.ClientId := authConfig.ClientID c;
    service.RedirectUri := authConfig.RedirectURI c;
    service.Scopes := authConfig.Scopes c;
    service.AuthorizationMetadataKey := authConfig.GrpcAuthorizationHeader (cfg s);
  |}.

End WithDecls.
End authzserver.

(** ** package net/http, server side *)
Module http.

Definition MethodOptions : string := "OPTIONS".
Definition StatusOK : Z := 200.
Definition StatusMovedPermanently : Z := 301.
Definition StatusFailedDependency : Z := 424.

(** [Header.Get(key)] on an [http.Header], which holds under each key the
    values received for it, for a key already in canonical form: the
    first value under the key, the empty string when there is none. *)
Definition Header_Get (h : gmap string (list string)) (key : string) : string :=
  match h !! key with
  | Some (v :: _) => v
  | _ => ""
  end.

(** An [*http.Request] by the fields read here: [Host] is [r.Host],
    [URL_Host] and [Path] are [r.URL.Host] and [r.URL.Path]. *)
Record Request := {
  Method : string;
  ProtoMajor : Z;
  Host : string;
  URL_Host : string;
  Path : string;
  Header_ : gmap string (list string);
}.

(** [net.SplitHostPort], which splits [host:port] and fails on what
    is not of that form, belongs to package [net]. *)
Class Net := {
  SplitHostPort : string -> Result (string * string);
}.

(** [stripHostPort(h)]: [h] without its port, if it has one. *)
Definition stripHostPort {N : Net} (h : string) : string :=
  if (strings.IndexByte h ":" =? -1)%Z then h
  else match SplitHostPort h with
       | Err _ => h
       | Ok (host, _) => host
       end.

(** [cleanPath(p)]: the canonical path for [p], without [.] and [..]
    elements and doubled slashes, rooted, and with the trailing slash of
    [p] kept. *)
Definition cleanPath (p : string) : string :=
  if String.eqb p "" then "/"
  else
    let p := match strings.first p with
             | Some "/"%char => p
             | _ => "/" ++ p
             end in
    let np := path.Clean p in
    match strings.last p with
    | Some "/"%char =>
        if String.eqb np "/" then np
        else if (String.length p =? String.length np + 1)%nat && strings.HasPrefix p np
             then p
             else np ++ "/"
    | _ => np
    end.

(** What a handler has written to its [ResponseWriter]. *)
Record Written := {
  status : Z;
  body : string;
}.

Section Mux.
Context {H : Type}.

Record muxEntry := {
  h : H;
  pattern : string;
}.

(** [http.ServeMux]: [m] holds every pattern, [es] the patterns that
    end in a slash, longest first, [hosts] whether some pattern names
    a host. *)
Record ServeMux := {
  m : gmap string muxEntry;
  es : list muxEntry;
  hosts : bool;
}.

Definition NewServeMux : ServeMux :=
  {| m := ∅; es := []; hosts := false |}.

Fixpoint appendSorted (es : list muxEntry) (e : muxEntry) : list muxEntry :=
  match es with
  | [] => [e]
  | x :: es' =>
      if (String.length (pattern x) <? String.length (pattern e))%nat
      then e :: x :: es'
      else x :: appendSorted es' e
  end.

(** [mux.Handle(pattern, handler)] (and [HandleFunc]): it panics on an
    empty or an already registered pattern. *)
Definition Handle (mux : ServeMux) (pat : string) (handler : H) : Outcome ServeMux :=
  if String.eqb pat "" then Panic "http: invalid pattern"
  else match m mux !! pat with
       | Some _ => Panic ("http: multiple registrations for " ++ pat)
       | None =>
           let e := {| h := handler; pattern := pat |} in
           Done {| m := <[pat := e]> (m mux);
                   es := match strings.last pat with
                         | Some "/"%char => appendSorted (es mux) e
                         | _ => es mux
                         end;
                   hosts := match strings.first pat with
                            | Some "/"%char => hosts mux
                            | _ => true
                            end |}
       end.

(** [mux.match(path)]: the exact pattern, else the longest registered
    pattern ending in a slash that is a prefix of the path. *)
Definition match_ (mux : ServeMux) (path : string) : option muxEntry :=
  match m mux !! path with
  | Some v => Some v
  | None => List.find (fun e => strings.HasPrefix path (pattern e)) (es mux)
  end.

(** [mux.handler(host, path)], the lookup behind [Handler] below, which
    calls it on the canonical path; [None] stands for
    [NotFoundHandler()]. *)
Definition handler (mux : ServeMux) (host path : string) : option H :=
  let r := if hosts mux then match_ mux (host ++ path) else None in
  match r with
  | Some e => Some (h e)
  | None => h <$> match_ mux path
  end.

(** [mux.shouldRedirectRLocked(host, path)]: neither [path] nor
    [host+path] is registered, but one of them is with a slash added. *)
Definition shouldRedirectRLocked (mux : ServeMux) (host path : string) : bool :=
  let p := [path; host ++ path] in
  if existsb (fun c => bool_decide (is_Some (m mux !! c))) p then false
  else if String.eqb path "" then false
  else if existsb (fun c => bool_decide (is_Some (m mux !! (c ++ "/")))) p
  then negb (bool_decide (strings.last path = Some "/"%char))
  else false.

(** [mux.redirectToPathSlash(host, path, u)]: the path to redirect to,
    if any; the query of [u] goes along. *)
Definition redirectToPathSlash (mux : ServeMux) (host path : string) : option string :=
  if shouldRedirectRLocked mux host path then Some (path ++ "/") else None.

(** The handler a request is answered by: one that was registered, the
    redirect to another path of the same URL, or [NotFoundHandler()]. *)
Inductive Resolved :=
| Registered (hd : H)
| RedirectHandler (path : string) (code : Z)
| NotFoundHandler.

Definition resolved (o : option H) : Resolved :=
  match o with
  | Some hd => Registered hd
  | None => NotFoundHandler
  end.

(** [mux.Handler(r)], which [mux.ServeHTTP] consults for every request
    but those whose request URI is [*]: a request other than CONNECT
    with a path that is not canonical is redirected to the canonical
    one, and a path that is registered only with a slash added is
    redirected there. *)
Definition Handler {N : Net} (mux : ServeMux) (r : Request) : Resolved :=
  if String.eqb (Method r) "CONNECT" then
    match redirectToPathSlash mux (URL_Host r) (Path r) with
    | Some u => RedirectHandler u StatusMovedPermanently
    | None => resolved (handler mux (Host r) (Path r))
    end
  else
    let host := stripHostPort (Host r) in
    let path := cleanPath (Path r) in
    match redirectToPathSlash mux host path with
    | Some u => RedirectHandler u StatusMovedPermanently
    | None =>
        if negb (String.eqb path (Path r))
        then RedirectHandler path StatusMovedPermanently
        else resolved (handler mux host (Path r))
    end.

(** A router whose patterns are all paths: nothing is registered under a
    host, every entry sits under its own pattern and satisfies [P], and
    [es] holds exactly the entries whose pattern ends in a slash. *)
Definition wf (P : muxEntry -> Prop) (mux : ServeMux) : Prop :=
  hosts mux = false /\
  (forall k e, m mux !! k = Some e -> pattern e = k /\ P e) /\
  (forall e, In e (es mux) ->
     strings.last (pattern e) = Some "/"%char /\ m mux !! pattern e = Some e) /\
  (forall k e, m mux !! k = Some e -> strings.last k = Some "/"%char -> In e (es mux)).

End Mux.
Arguments muxEntry : clear implicits.
Arguments ServeMux : clear implicits.
Arguments Resolved : clear implicits.

End http.

(** ** go-grpc-middleware: chaining of unary interceptors *)
Module grpc_middleware.
Section Chain.
Context {Ctx Req Info Resp : Type}.

Definition UnaryHandler := Ctx -> Req -> Resp.
Definition UnaryServerInterceptor := Ctx -> Req -> Info -> UnaryHandler -> Resp.

(** The handler the i-th interceptor is given: the rest of the chain,
    ending in the real handler. *)
Fixpoint chainHandler (interceptors : list UnaryServerInterceptor)
    (info : Info) (handler : UnaryHandler) : UnaryHandler :=
  match interceptors with
  | [] => handler
  | i :: rest => fun ctx req => i ctx req info (chainHandler rest info handler)
  end.

Definition ChainUnaryServer (interceptors : list UnaryServerInterceptor)
  : UnaryServerInterceptor :=
  fun ctx req info handler => chainHandler interceptors info handler ctx req.

End Chain.
End grpc_middleware.

(** ** package entrypoints: the serve command *)
Module entrypoints.
Section WithWorld.
Context {U : url.Lib}.

(** Types declared in other packages and only passed along here. *)
Class Opaque := {
  CertPool : Type;
  Certificate : Type;
  OAuthOptions : Type;
}.
Context {O : Opaque}.

(** [interfaces.AuthenticationContext], by the one method called here;
    a [*url.URL] may be nil. *)
Record AuthenticationContext := {
  GetUserInfoUrl : option url.URL;
}.

(** An interface value of that type may itself be nil. *)
Definition AuthContextRef := option AuthenticationContext.

Record SslOptions := {
  CertificateFile : string;
  KeyFile : string;
}.

Record ServerSecurityOptions := {
  Secure : bool;
  Ssl : SslOptions;
  UseAuth : bool;
  Oauth : OAuthOptions;
}.

(** [config.ServerConfig]; [GetHostAddress] and [GetGrpcHostAddress] are
    methods of it declared elsewhere, kept as the strings they return. *)
Record ServerConfig := {
  Security : ServerSecurityOptions;
  KubeConfig : string;
  Master : string;
  GetHostAddress : string;
  GetGrpcHostAddress : string;
}.

(** *** gRPC side *)

(** The unary interceptors by name; their bodies live in package [auth]
    and in the prometheus and grpcauth libraries. *)
Inductive AuthFunc :=
| GetAuthenticationInterceptor (authContext : AuthContextRef).

Inductive UnaryServerInterceptor :=
| grpc_prometheus_UnaryServerInterceptor
| GetAuthenticationCustomMetadataInterceptor (authContext : AuthContextRef)
| grpcauth_UnaryServerInterceptor (authFunc : AuthFunc)
| AuthenticationLoggingInterceptor
| ChainUnaryServer (interceptors : list UnaryServerInterceptor).

Inductive StreamServerInterceptor :=
| grpc_prometheus_StreamServerInterceptor.

Inductive ServerOption :=
| StreamInterceptor (i : StreamServerInterceptor)
| UnaryInterceptor (i : UnaryServerInterceptor)
| Creds (cert : Certificate).

Inductive AdminServiceServer :=
| NewAdminServer (kubeConfig master : string).

(** [*grpc.Server] after [grpc.NewServer(opts...)], with what was
    registered on it since. *)
Record Server := {
  opts : list ServerOption;
  prometheus_registered : bool;
  admin_service : option AdminServiceServer;
}.

Definition NewServer (serverOpts : list ServerOption) : Server :=
  {| opts := serverOpts; prometheus_registered := false; admin_service := None |}.

Definition grpc_prometheus_Register (s : Server) : Server :=
  {| opts := opts s; prometheus_registered := true; admin_service := admin_service s |}.

Definition RegisterAdminServiceServer (s : Server) (srv : AdminServiceServer) : Server :=
  {| opts := opts s; prometheus_registered := prometheus_registered s;
     admin_service := Some srv |}.

Definition newGRPCServer (cfg : ServerConfig) (authContext : AuthContextRef)
    (opts : list ServerOption) : Result Server :=
  let chainedUnaryInterceptors :=
    if UseAuth (Security cfg) then
      ChainUnaryServer [
        grpc_prometheus_UnaryServerInterceptor;
        GetAuthenticationCustomMetadataInterceptor authContext;
        grpcauth_UnaryServerInterceptor (GetAuthenticationInterceptor authContext);
        AuthenticationLoggingInterceptor ]
    else
      ChainUnaryServer [ grpc_prometheus_UnaryServerInterceptor ] in
  let serverOpts := [
    StreamInterceptor grpc_prometheus_StreamServerInterceptor;
    UnaryInterceptor chainedUnaryInterceptors ] in
  let serverOpts := (serverOpts ++ opts)%list in
  let grpcServer := NewServer serverOpts in
  let grpcServer := grpc_prometheus_Register grpcServer in
  let grpcServer :=
    RegisterAdminServiceServer grpcServer (NewAdminServer (KubeConfig cfg) (Master cfg)) in
  Ok grpcServer.

(** The unary interceptor a server was built with. *)
Definition unary_interceptor (s : Server) : option UnaryServerInterceptor :=
  head (omap (fun o => match o with UnaryInterceptor i => Some i | _ => None end) (opts s)).

(** *** HTTP side *)

Inductive DialOption :=
| WithInsecure
| WithTransportCredentials (ServerName : string) (RootCAs : CertPool).

Inductive Marshaler :=
| ProtoMarshaller.

Inductive MetadataAnnotator :=
| GetHttpRequestCookieToMetadataHandler (authContext : AuthContextRef).

Inductive ServeMuxOption :=
| WithMarshalerOption (mime : string) (marshaler : Marshaler)
| WithMetadata (annotator : MetadataAnnotator).

(** [runtime.NewPattern(version, ops, pool, verb)], never failing on the
    one pattern built here. *)
Record Pattern := {
  version : Z;
  ops : list Z;
  pool : list string;
  verb : string;
}.

(** What is mounted on the gateway mux: the closure that decorates
    [healthCheckFunc] for CORS, and the transcoding handlers of the admin
    service, one for each of its methods. *)
Inductive GatewayHandler :=
| CorsDecorated_healthCheckFunc
| AdminService_request (rpc : string).

(** The grpc-gateway [*runtime.ServeMux]: its options, the handlers
    added by [Handle], in the order they were added, and the endpoint
    the handlers of the admin service forward to. *)
Record GatewayMux := {
  options : list ServeMuxOption;
  handlers : list (string * Pattern * GatewayHandler);
  endpoint : option (string * list DialOption);
}.

Definition runtime_NewServeMux (opts : list ServeMuxOption) : GatewayMux :=
  {| options := opts; handlers := []; endpoint := None |}.

Definition GatewayMux_Handle (gw : GatewayMux) (meth : string) (pat : Pattern)
    (hd : GatewayHandler) : GatewayMux :=
  {| options := options gw;
     handlers := (handlers gw ++ [(meth, pat, hd)])%list;
     endpoint := endpoint gw |}.

(** The handlers mounted on the HTTP router, by name; those of package
    [auth] carry the authentication context they were built from. *)
Inductive Handler :=
| healthCheckFunc
| GetHandleOpenapiSpec
| RefreshTokensIfExists (authContext : AuthContextRef) (handlerFunc : Handler)
| GetLoginHandler (authContext : AuthContextRef)
| GetCallbackHandler (authContext : AuthContextRef)
| GetMeEndpointHandler (authContext : AuthContextRef)
| GetMetadataEndpointRedirectHandler (authContext : AuthContextRef)
| gwmux_handler (gwmux : GatewayMux).

(** The handlers built by package [auth]. *)
Definition auth_handler (hd : Handler) : bool :=
  match hd with
  | RefreshTokensIfExists _ _ | GetLoginHandler _ | GetCallbackHandler _
  | GetMeEndpointHandler _ | GetMetadataEndpointRedirectHandler _ => true
  | healthCheckFunc | GetHandleOpenapiSpec | gwmux_handler _ => false
  end.

(** Where the handlers of this file may be mounted. *)
Definition mounted (e : http.muxEntry Handler) : Prop :=
  match http.h e with
  | healthCheckFunc => http.pattern e = "/healthcheck"
  | GetHandleOpenapiSpec => http.pattern e = "/api/v1/openapi"
  | gwmux_handler _ => http.pattern e = "/"
  | _ => True
  end.

(** What the process meets outside itself at startup, and the names of
    other packages it calls. [net_Listen] answers for an address whatever
    the process has bound before. *)
Class World := {
  MetadataEndpoint : string;
  Asset : string -> Result string;
  GetSslCredentials : string -> string -> Result (CertPool * Certificate);
  NewAuthenticationContext : OAuthOptions -> Result AuthenticationContext;
  RegisterAdminServiceHandlerFromEndpoint :
    GatewayMux -> string -> list DialOption -> option error;
  AdminService_routes : list (string * Pattern * string);
  net_Listen : string -> string -> option error;
}.
Context {W : World}.

(** What [flyteService.RegisterAdminServiceHandlerFromEndpoint] leaves
    on the gateway mux when it returns no error: the generated code
    dials the endpoint and then calls [mux.Handle] once for every route
    of the admin service ([AdminService_routes]: HTTP method, pattern and
    the method of the service it transcodes to), in its order. Whether it
    returns an error is the [World]'s answer of the same name. *)
Definition AdminService_handlers : list (string * Pattern * GatewayHandler) :=
  List.map
    (fun route =>
       match route with
       | (meth, pat, rpc) => (meth, pat, AdminService_request rpc)
       end)
    AdminService_routes.

Definition RegisterAdminServiceHandlerClient (mux : GatewayMux) : GatewayMux :=
  List.fold_left
    (fun mux route =>
       match route with
       | (meth, pat, hd) => GatewayMux_Handle mux meth pat hd
       end)
    AdminService_handlers mux.

Definition registered (mux : GatewayMux) (endpoint : string) (opts : list DialOption)
  : GatewayMux :=
  let mux := RegisterAdminServiceHandlerClient mux in
  {| options := options mux; handlers := handlers mux;
     endpoint := Some (endpoint, opts) |}.

(** The bodies of the two handlers defined in this file: neither reads
    the request. *)
Definition ServeHTTP (hd : Handler) (r : http.Request) : option http.Written :=
  match hd with
  | healthCheckFunc =>
      Some {| http.status := http.StatusOK; http.body := "" |}
  | GetHandleOpenapiSpec =>
      match Asset "admin.swagger.json" with
      | Err _ => Some {| http.status := http.StatusFailedDependency; http.body := "" |}
      | Ok swaggerBytes => Some {| http.status := http.StatusOK; http.body := swaggerBytes |}
      end
  | _ => None
  end.

Definition noopPattern : Pattern :=
  {| version := 1; ops := [3; 0]%Z; pool := []; verb := "" |}.

(** The test on the userinfo URL that guards the registration of [/me]. *)
Definition hasUserInfoUrl (a : AuthenticationContext) : bool :=
  match GetUserInfoUrl a with
  | None => false
  | Some u => negb (String.eqb (url.String u) "")
  end.

Definition newHTTPServer (cfg : ServerConfig) (authContext : AuthContextRef)
    (grpcAddress : string) (grpcConnectionOpts : list DialOption)
  : Outcome (Result (http.ServeMux Handler)) :=
  let mux := http.NewServeMux in
  run* mux := http.Handle mux "/healthcheck" healthCheckFunc in
  run* mux := http.Handle mux "/api/v1/openapi" GetHandleOpenapiSpec in
  run* st :=
    (if UseAuth (Security cfg) then
       run* mux := http.Handle mux "/login"
                     (RefreshTokensIfExists authContext (GetLoginHandler authContext)) in
       run* mux := http.Handle mux "/callback" (GetCallbackHandler authContext) in
       run* mux :=
         match authContext with
         | None => Panic "invalid memory address or nil pointer dereference"
         | Some a =>
             if hasUserInfoUrl a
             then http.Handle mux "/me" (GetMeEndpointHandler authContext)
             else Done mux
         end in
       run* mux := http.Handle mux MetadataEndpoint
                     (GetMetadataEndpointRedirectHandler authContext) in
       Done (mux, runtime_NewServeMux [
               WithMarshalerOption "application/octet-stream" ProtoMarshaller;
               WithMetadata (GetHttpRequestCookieToMetadataHandler authContext) ])
     else
       Done (mux, runtime_NewServeMux [
               WithMarshalerOption "application/octet-stream" ProtoMarshaller ])) in
  let (mux, gwmux) := st : http.ServeMux Handler * GatewayMux in
  let gwmux := GatewayMux_Handle gwmux http.MethodOptions noopPattern
                 CorsDecorated_healthCheckFunc in
  match RegisterAdminServiceHandlerFromEndpoint gwmux grpcAddress grpcConnectionOpts with
  | Some err => Done (Err (Wrap err "error registering admin service"))
  | None =>
      let gwmux := registered gwmux grpcAddress grpcConnectionOpts in
      run* mux := http.Handle mux "/" (gwmux_handler gwmux) in
      Done (Ok mux)
  end.

(** The gateway mux [newHTTPServer] has built by the time it registers
    the admin service on it: the options chosen by [UseAuth], and the
    OPTIONS handler on the pattern that matches every path. *)
Definition gatewayMux (cfg : ServerConfig) (authContext : AuthContextRef) : GatewayMux :=
  GatewayMux_Handle
    (runtime_NewServeMux
       (if UseAuth (Security cfg)
        then [ WithMarshalerOption "application/octet-stream" ProtoMarshaller;
               WithMetadata (GetHttpRequestCookieToMetadataHandler authContext) ]
        else [ WithMarshalerOption "application/octet-stream" ProtoMarshaller ]))
    http.MethodOptions noopPattern CorsDecorated_healthCheckFunc.

(** *** Serving *)

Record Listener := {
  network : string;
  address : string;
}.

(** [net.Listen(network, address)]. *)
Definition Listen (network address : string) : Result Listener :=
  match net_Listen network address with
  | Some err => Err err
  | None => Ok {| network := network; address := address |}
  end.

Record TLSConfig := {
  Certificates : list Certificate;
  NextProtos : list string;
}.

(** Where a top-level HTTP handler sends a request. *)
Inductive Target :=
| grpcServer_ServeHTTP (grpcServer : Server)
| otherHandler_ServeHTTP (otherHandler : http.ServeMux Handler).

(** A router used directly as the server's handler. *)
Definition mux_Handler (mux : http.ServeMux Handler) : http.Request -> Target :=
  fun _ => otherHandler_ServeHTTP mux.

Definition grpcHandlerFunc (grpcServer : Server) (otherHandler : http.ServeMux Handler)
  : http.Request -> Target :=
  fun r =>
    if (http.ProtoMajor r =? 2)%Z &&
       strings.Contains (http.Header_Get (http.Header_ r) "Content-Type") "application/grpc"
    then grpcServer_ServeHTTP grpcServer
    else otherHandler_ServeHTTP otherHandler.

(** What startup does that the outside can see, in order: a listener is
    bound; a serve loop is started on a listener, either the gRPC
    server's own in a goroutine or an HTTP server's in the calling
    goroutine. *)
Inductive Event :=
| Bound (lis : Listener)
| GoServe (grpcServer : Server) (lis : Listener)
| Serve (lis : Listener) (tls : option TLSConfig) (handler : http.Request -> Target).

Definition serving (e : Event) : bool :=
  match e with
  | Bound _ => false
  | GoServe _ _ | Serve _ _ _ => true
  end.

(** How a serve function leaves startup: it returns an error, panics, or
    stays in its serve loop. *)
Inductive Exit :=
| Returned (err : error)
| Panicked (msg : string)
| Running.

(** [http.ListenAndServe(addr, handler)]. *)
Definition ListenAndServe (addr : string) (handler : http.ServeMux Handler)
  : list Event * option error :=
  match Listen "tcp" addr with
  | Err err => ([], Some err)
  | Ok ln => ([Bound ln; Serve ln None (mux_Handler handler)], None)
  end.

(** The authentication context both serve functions start from. *)
Definition authContextFor (cfg : ServerConfig) : Result AuthContextRef :=
  if UseAuth (Security cfg) then
    match NewAuthenticationContext (Oauth (Security cfg)) with
    | Err err => Err err
    | Ok authContext => Ok (Some authContext)
    end
  else Ok None.

Definition serveGatewayInsecure (cfg : ServerConfig) : list Event * Exit :=
  match authContextFor cfg with
  | Err err => ([], Returned err)
  | Ok authContext =>
  match newGRPCServer cfg authContext [] with
  | Err err => ([], Returned (Wrap err "failed to create GRPC server"))
  | Ok grpcServer =>
  match Listen "tcp" (GetGrpcHostAddress cfg) with
  | Err err =>
      ([], Returned (Wrap err ("failed to listen on GRPC port: " ++ GetGrpcHostAddress cfg)))
  | Ok lis =>
  let started := [Bound lis; GoServe grpcServer lis] in
  match newHTTPServer cfg authContext (GetGrpcHostAddress cfg) [WithInsecure] with
  | Panic msg => (started, Panicked msg)
  | Done (Err err) => (started, Returned err)
  | Done (Ok httpServer) =>
  match ListenAndServe (GetHostAddress cfg) httpServer with
  | (evs, Some err) => ((started ++ evs)%list, Returned (Wrap err "failed to Start HTTP Server"))
  | (evs, None) => ((started ++ evs)%list, Running)
  end end end end end.

Definition serveGatewaySecure (cfg : ServerConfig) : list Event * Exit :=
  match GetSslCredentials (CertificateFile (Ssl (Security cfg)))
                          (KeyFile (Ssl (Security cfg))) with
  | Err err => ([], Returned err)
  | Ok (certPool, cert) =>
  match authContextFor cfg with
  | Err err => ([], Returned err)
  | Ok authContext =>
  match newGRPCServer cfg authContext [Creds cert] with
  | Err err => ([], Returned (Wrap err "failed to create GRPC server"))
  | Ok grpcServer =>
  match newHTTPServer cfg authContext (GetHostAddress cfg)
          [WithTransportCredentials (GetHostAddress cfg) certPool] with
  | Panic msg => ([], Panicked msg)
  | Done (Err err) => ([], Returned err)
  | Done (Ok httpServer) =>
  match Listen "tcp" (GetHostAddress cfg) with
  | Err err => ([], Panicked err)
  | Ok conn =>
      let TLSConfig_ := {| Certificates := [cert]; NextProtos := ["h2"] |} in
      ([Bound conn; Serve conn (Some TLSConfig_) (grpcHandlerFunc grpcServer httpServer)],
       Running)
  end end end end end.

(** [serveCmd.RunE]. *)
Definition serve (serverConfig : ServerConfig) : list Event * Exit :=
  if Secure (Security serverConfig)
  then serveGatewaySecure serverConfig
  else serveGatewayInsecure serverConfig.

(** *** What a chain of named interceptors does

    Given the behaviour of the four named interceptors, a chain behaves
    as go-grpc-middleware composes them. *)
Section Denote.
Context {Ctx Req Info Resp : Type}.

Record Interp := {
  prometheus_ : @grpc_middleware.UnaryServerInterceptor Ctx Req Info Resp;
  customMetadata_ : AuthContextRef -> @grpc_middleware.UnaryServerInterceptor Ctx Req Info Resp;
  grpcauth_ : AuthFunc -> @grpc_middleware.UnaryServerInterceptor Ctx Req Info Resp;
  logging_ : @grpc_middleware.UnaryServerInterceptor Ctx Req Info Resp;
}.

Fixpoint denote (M : Interp) (i : UnaryServerInterceptor)
  : @grpc_middleware.UnaryServerInterceptor Ctx Req Info Resp :=
  match i with
  | grpc_prometheus_UnaryServerInterceptor => prometheus_ M
  | GetAuthenticationCustomMetadataInterceptor a => customMetadata_ M a
  | grpcauth_UnaryServerInterceptor f => grpcauth_ M f
  | AuthenticationLoggingInterceptor => logging_ M
  | ChainUnaryServer l => grpc_middleware.ChainUnaryServer (List.map (denote M) l)
  end.
End Denote.

End WithWorld.
End entrypoints.

(** ** package auth: the userinfo fetch *)
Module auth.

Record UserInfoResponse := {
  Sub : string;
  Name : string;
  PreferredUsername : string;
  GivenName : string;
  FamilyName : string;
}.

(** A JSON document. *)
Inductive json :=
| JNull
| JBool (b : bool)
| JNumber (n : Z)
| JString (s : string)
| JArray (l : list json)
| JObject (fields : list (string * json)).

(** A response body: bytes that are not JSON, or the document they
    spell. *)
Inductive Body :=
| NotJSON (raw : string)
| JSON (doc : json).

Record Request := {
  URL : string;
  Authorization : string;
}.

Record Response := {
  StatusCode : Z;
  Body_ : Body;
}.

(** The injected client, as [NewTestHttpClient] builds it from a
    [RoundTripFunc]: every request gets a response. *)
Definition Client := Request -> Response.

Definition NewTestHttpClient (fn : Request -> Response) : Client := fn.

Inductive Error :=
| IdentityProviderRejected (status : Z)
| IdentityProviderMalformed.

(** The first member of an object under a key. *)
Fixpoint member (fields : list (string * json)) (key : string) : option json :=
  match fields with
  | [] => None
  | (k, v) :: rest => if String.eqb k key then Some v else member rest key
  end.

(** [json.Marshal] of a [UserInfoResponse], under the five member names
    the spec lists. *)
Definition Marshal (r : UserInfoResponse) : json :=
  JObject [ ("sub", JString (Sub r));
            ("name", JString (Name r));
            ("preferred_username", JString (PreferredUsername r));
            ("given_name", JString (GivenName r));
            ("family_name", JString (FamilyName r)) ].

(** One claim out of an object: a string member is taken as it is, an
    absent member leaves the claim empty, any other member does not fit
    the schema. *)
Definition claim (fields : list (string * json)) (key : string) : option string :=
  match member fields key with
  | None => Some ""
  | Some (JString s) => Some s
  | Some _ => None
  end.

(** Modelled from the spec: the decoding step of [FetchUserInfo], whose
    source is in another file of the package. "On a non-JSON or
    schema-mismatched body fails with IdentityProviderMalformed; on
    success decodes exactly the five claims above and ignores unknown
    fields." *)
Definition decode (b : Body) : Error + UserInfoResponse :=
  match b with
  | JSON (JObject fields) =>
      match claim fields "sub", claim fields "name",
            claim fields "preferred_username",
            claim fields "given_name", claim fields "family_name" with
      | Some sub, Some name, Some preferred, Some given, Some family =>
          inr {| Sub := sub; Name := name; PreferredUsername := preferred;
                 GivenName := given; FamilyName := family |}
      | _, _, _, _, _ => inl IdentityProviderMalformed
      end
  | _ => inl IdentityProviderMalformed
  end.

(** Modelled from the spec: [postToIdp] (the spec's [FetchUserInfo]),
    of which only the test is at hand. "Posts/gets to the IdP's
    userinfo URL with the access token as a bearer credential; on HTTP
    status other than 200 fails with IdentityProviderRejected (carrying
    the upstream status code)"; a 200 response is decoded. *)
Definition postToIdp (client : Client) (userInfoUrl accessToken : string)
  : Error + UserInfoResponse :=
  let request := {| URL := userInfoUrl; Authorization := "Bearer " ++ accessToken |} in
  let response := client request in
  if (StatusCode response =? 200)%Z
  then decode (Body_ response)
  else inl (IdentityProviderRejected (StatusCode response)).

End auth.

(** ** A concrete deployment

    One interpretation of the interfaces above, on which the definitions
    can be run: URLs are their text and a reference is resolved by
    appending it to the base, which is what RFC 3986 resolution gives for
    a base without a path and an absolute-path reference. *)
Module sample.

Definition Url : url.Lib :=
  {| url.URL := string;
     url.String := fun u => u;
     url.ResolveReference := fun base ref => base ++ ref |}.

(** A stand-in for [unmarshalResp]: a 2xx response whose body is not
    empty is taken to carry the issuer as its text. *)
Definition unmarshal (r : httpclient.Response) (raw : string)
    (target : service.OAuth2MetadataResponse) : Result service.OAuth2MetadataResponse :=
  if ((200 <=? httpclient.StatusCode r) && (httpclient.StatusCode r <=? 299))%Z
     && negb (String.eqb raw "")
  then Ok {| service.Issuer := raw;
             service.AuthorizationEndpoint := service.AuthorizationEndpoint target;
             service.TokenEndpoint := service.TokenEndpoint target;
             service.ResponseTypesSupported := service.ResponseTypesSupported target;
             service.ScopesSupported := service.ScopesSupported target;
             service.TokenEndpointAuthMethodsSupported :=
               service.TokenEndpointAuthMethodsSupported target;
             service.JwksUri := service.JwksUri target;
             service.CodeChallengeMethodsSupported :=
               service.CodeChallengeMethodsSupported target;
             service.GrantTypesSupported := service.GrantTypesSupported target |}
  else Err (httpclient.Status r).

Definition Decls : @authzserver.Decls Url :=
  {| authzserver.authorizeRelativeUrl := "/oauth2/authorize" : @url.URL Url;
     authzserver.tokenRelativeUrl := "/oauth2/token" : @url.URL Url;
     authzserver.jsonWebKeysUrl := "/oauth2/jwks" : @url.URL Url;
     authzserver.oauth2MetadataEndpoint :=
       "/.well-known/oauth-authorization-server" : @url.URL Url;
     authzserver.supportedGrantTypes :=
       ["client_credentials"; "refresh_token"; "authorization_code"];
     authzserver.GetIssuer := fun c => @authConfig.HTTPPublicUri Url c;
     authzserver.unmarshalResp := unmarshal;
     authzserver.ScopeAll := "all" |}.

Definition config (mode : authConfig.AuthorizationServerType) (external : string)
  : @authConfig.Config Url :=
  {| authConfig.HTTPPublicUri := "https://flyte.example.com" : @url.URL Url;
     authConfig.GrpcAuthorizationHeader := "flyte-authorization";
     authConfig.AppAuth :=
       {| authConfig.AuthServerType := mode;
          authConfig.ExternalAuthServer :=
            {| authConfig.BaseURL := external : @url.URL Url |};
          authConfig.ThirdParty :=
            {| authConfig.FlyteClientConfig_ :=
                 {| authConfig.ClientID := "flytectl";
                    authConfig.RedirectURI := "http://localhost:53593/callback";
                    authConfig.Scopes := ["offline"; "all"] |} |} |};
     authConfig.UserAuth :=
       {| authConfig.OpenID :=
            {| authConfig.OpenID_BaseURL := "https://idp.example.com" : @url.URL Url |} |} |}.

Definition selfProvider : @authzserver.OAuth2MetadataProvider Url :=
  authzserver.NewService (config authConfig.AuthorizationServerTypeSelf "").

Definition externalProvider : @authzserver.OAuth2MetadataProvider Url :=
  authzserver.NewService
    (config authConfig.AuthorizationServerTypeExternal "https://auth.example.com").

(** A network on which nothing answers. *)
Definition offline : httpclient.Transport := fun _ => Err "no route to host".

(** A network on which every GET is answered 200 with one body. *)
Definition answering (body : string) : httpclient.Transport :=
  fun _ => Ok {| httpclient.Status := "200 OK"; httpclient.StatusCode := 200;
                 httpclient.Header := ∅; httpclient.Body := Ok body |}.

Definition Opaque : entrypoints.Opaque :=
  {| entrypoints.CertPool := string;
     entrypoints.Certificate := string;
     entrypoints.OAuthOptions := unit |}.

(** Two of the routes of the admin service. *)
Definition routes : list (string * @entrypoints.Pattern * string) :=
  [ ("POST",
     {| entrypoints.version := 1; entrypoints.ops := [2; 0; 2; 1; 2; 2]%Z;
        entrypoints.pool := ["api"; "v1"; "tasks"]; entrypoints.verb := "" |},
     "CreateTask");
    ("GET",
     {| entrypoints.version := 1; entrypoints.ops := [2; 0; 2; 1; 2; 2]%Z;
        entrypoints.pool := ["api"; "v1"; "projects"]; entrypoints.verb := "" |},
     "ListProjects") ].

(** [net.SplitHostPort] on hosts that are names. *)
Fixpoint splitAtColon (s : string) : option (string * string) :=
  match s with
  | EmptyString => None
  | String c s' =>
      if Ascii.eqb c ":" then Some ("", s')
      else match splitAtColon s' with
           | Some (host, port) => Some (String c host, port)
           | None => None
           end
  end.

Definition Net : http.Net :=
  {| http.SplitHostPort := fun h =>
       match splitAtColon h with
       | Some hp => Ok hp
       | None => Err "missing port in address"
       end |}.

(** A gRPC call over HTTP/2, a REST call over HTTP/2, and probes of the
    health endpoint under its own path and under two other spellings. *)
Definition request (method : string) (major : Z) (path contentType : string)
  : http.Request :=
  {| http.Method := method; http.ProtoMajor := major;
     http.Host := "flyte.example.com:8088"; http.URL_Host := "";
     http.Path := path;
     http.Header_ := {[ "Content-Type" := [contentType] ]} |}.

Definition grpcCall : http.Request :=
  request "POST" 2 "/flyteidl.service.AdminService/GetTask" "application/grpc+proto".

Definition restCall : http.Request :=
  request "GET" 2 "/api/v1/projects" "application/json".

Definition probe (path : string) : http.Request :=
  request "GET" 1 path "".

(** A host on which the addresses in [taken] cannot be bound, and an
    identity provider with the given userinfo URL. *)
Definition world (taken : list string) (userinfo : option string)
  : @entrypoints.World Url Opaque :=
  {| entrypoints.MetadataEndpoint := "/config/v1/flyte_client";
     entrypoints.Asset := fun name =>
       if String.eqb name "admin.swagger.json" then Ok "{}" else Err "asset not found";
     entrypoints.GetSslCredentials := fun _ _ =>
       Ok ("pool" : @entrypoints.CertPool Opaque, "cert" : @entrypoints.Certificate Opaque);
     entrypoints.NewAuthenticationContext := fun _ =>
       Ok {| entrypoints.GetUserInfoUrl := userinfo : option (@url.URL Url) |};
     entrypoints.RegisterAdminServiceHandlerFromEndpoint := fun _ _ _ => None;
     entrypoints.AdminService_routes := routes;
     entrypoints.net_Listen := fun _ addr =>
       if existsb (String.eqb addr) taken
       then Some "bind: address already in use" else None |}.

(** The same host when the gRPC endpoint cannot be dialled in the
    clear. *)
Definition unreachable (taken : list string) (userinfo : option string)
  : @entrypoints.World Url Opaque :=
  {| entrypoints.MetadataEndpoint := "/config/v1/flyte_client";
     entrypoints.Asset := @entrypoints.Asset Url Opaque (world taken userinfo);
     entrypoints.GetSslCredentials :=
       @entrypoints.GetSslCredentials Url Opaque (world taken userinfo);
     entrypoints.NewAuthenticationContext :=
       @entrypoints.NewAuthenticationContext Url Opaque (world taken userinfo);
     entrypoints.RegisterAdminServiceHandlerFromEndpoint := fun _ _ opts =>
       match opts with
       | [entrypoints.WithInsecure] => Some "context deadline exceeded"
       | _ => None
       end;
     entrypoints.AdminService_routes := routes;
     entrypoints.net_Listen :=
       @entrypoints.net_Listen Url Opaque (world taken userinfo) |}.

Definition serverConfig (secure useAuth : bool) : @entrypoints.ServerConfig Opaque :=
  {| entrypoints.Security :=
       {| entrypoints.Secure := secure;
          entrypoints.Ssl := {| entrypoints.CertificateFile := "/etc/tls/tls.crt";
                                entrypoints.KeyFile := "/etc/tls/tls.key" |};
          entrypoints.UseAuth := useAuth;
          entrypoints.Oauth := tt : @entrypoints.OAuthOptions Opaque |};
     entrypoints.KubeConfig := "";
     entrypoints.Master := "";
     entrypoints.GetHostAddress := ":8088";
     entrypoints.GetGrpcHostAddress := ":8089" |}.

End sample.

(** ** package core (flyteidl): the task messages the validator reads *)
Module core.

(** [core.Resources_ResourceName], under its wire numbers 0 to 5. *)
Inductive Resources_ResourceName :=
| Resources_UNKNOWN
| Resources_CPU
| Resources_GPU
| Resources_MEMORY
| Resources_STORAGE
| Resources_EPHEMERAL_STORAGE.

#[global] Instance Resources_ResourceName_eq_dec : EqDecision Resources_ResourceName.
Proof. solve_decision. Defined.

#[global] Instance Resources_ResourceName_countable : Countable Resources_ResourceName.
Proof.
  refine (inj_countable'
    (fun n => match n with
              | Resources_UNKNOWN => 0 | Resources_CPU => 1 | Resources_GPU => 2
              | Resources_MEMORY => 3 | Resources_STORAGE => 4
              | Resources_EPHEMERAL_STORAGE => 5
              end)
    (fun i => match i with
              | 0 => Resources_UNKNOWN | 1 => Resources_CPU | 2 => Resources_GPU
              | 3 => Resources_MEMORY | 4 => Resources_STORAGE
              | _ => Resources_EPHEMERAL_STORAGE
              end) _).
  intros []; reflexivity.
Defined.

Record Identifier := {
  ResourceType : Z;
  Project : string;
  Domain : string;
  Name : string;
  Version : string;
}.

Module Resources_ResourceEntry.
Record t := {
  Name : Resources_ResourceName;
  Value : string;
}.
End Resources_ResourceEntry.

(** The entries of a repeated field are taken as they come off the
    wire, none of them nil. *)
Record Resources := {
  Requests : list Resources_ResourceEntry.t;
  Limits : list Resources_ResourceEntry.t;
}.

Module Container.
Record t := {
  Image : string;
  Resources : option core.Resources;
}.
End Container.

Module RuntimeMetadata.
Record t := {
  Version : string;
}.
End RuntimeMetadata.

Record TaskMetadata := {
  Runtime : option RuntimeMetadata.t;
}.

(** [core.TypedInterface]: "the actual interface proto has nothing to
    validate". *)
Inductive TypedInterface :=
| TypedInterface_any.

(** [core.TaskTemplate]; message fields are pointers and may be nil.
    [GetContainer] reads the container out of the template's target. *)
Record TaskTemplate := {
  Id : option Identifier;
  Type_ : string;
  Metadata : option TaskMetadata;
  Interface : option TypedInterface;
  GetContainer : option Container.t;
}.

End core.

(** ** package admin (flyteidl): the task creation request *)
Module admin.

Record TaskSpec := {
  Template : option core.TaskTemplate;
}.

Record TaskCreateRequest := {
  Id : option core.Identifier;
  Spec : option TaskSpec;
}.

End admin.

(** ** k8s.io/apimachinery/pkg/api/resource

    A [resource.Quantity] is read here through [Value], [MilliValue] and
    [IsZero] and built by [ParseQuantity]; the package is taken as an
    interface. *)
Module resource.

Class Lib := {
  Quantity : Type;
  ParseQuantity : string -> Result Quantity;
  Value : Quantity -> Z;
  MilliValue : Quantity -> Z;
  IsZero : Quantity -> bool;
  Quantity_zero : Quantity;
}.

End resource.

(** ** package runtimeInterfaces (pkg/runtime/interfaces) *)
Module runtimeInterfaces.

Record WhitelistScope := {
  Project : string;
  Domain : string;
}.

(** [WhitelistConfiguration], by [GetTaskTypeWhitelist]: a map from task
    type to scopes, which may be nil. *)
Record WhitelistConfiguration := {
  GetTaskTypeWhitelist : option (gmap string (list WhitelistScope));
}.

Section WithQuantity.
Context {R : resource.Lib}.

Record TaskResourceSet := {
  CPU : resource.Quantity;
  GPU : resource.Quantity;
  Memory : resource.Quantity;
  EphemeralStorage : resource.Quantity;
}.

(** [TaskResourceConfiguration], by [GetLimits]. *)
Record TaskResourceConfiguration := {
  GetLimits : TaskResourceSet;
}.

End WithQuantity.
End runtimeInterfaces.

(** ** package validation: task_validator.go *)
Module validation.
Section WithDecls.
Context {R : resource.Lib}.

(** [common.Entity], of which this file names [common.Task]. *)
Inductive common_Entity :=
| common_Task.

(** The field names of package [shared], by name. *)
Inductive shared_field :=
| shared_Image
| shared_RuntimeVersion
| shared_Type
| shared_Metadata
| shared_TypedInterface
| shared_Spec.

(** The errors this file builds, all of code [InvalidArgument], each by
    the values its message is formatted from; [External] is an error
    handed back by a validator of another file. *)
Inductive Error :=
| whitelistedTaskErr
| GetMissingArgumentError (field : shared_field)
| ErrSpecifiedMultipleTimes (name : core.Resources_ResourceName)
    (identifier : option core.Identifier)
| ErrParsingFailed (name : core.Resources_ResourceName) (value : string) (err : error)
| ErrGpuNotWhole (identifier : option core.Identifier) (value : string)
| ErrDefaultAboveLimit (name : core.Resources_ResourceName)
    (defaultQuantity limitQuantity : resource.Quantity)
| ErrLimitAbovePlatform (name : core.Resources_ResourceName)
    (limitQuantity platformLimit : resource.Quantity)
| ErrDefaultAbovePlatform (name : core.Resources_ResourceName)
    (defaultQuantity platformLimit : resource.Quantity)
| ErrGpuDefaultNotLimit (identifier : option core.Identifier)
| External (msg : string).

(** A Go [error] returned alone: [None] is nil. *)
Definition orElse (err : option Error) (k : option Error) : option Error :=
  match err with
  | Some e => Some e
  | None => k
  end.

(** What the file calls and other files of the package declare, the
    types it only passes along, and the order in which the runtime ranges
    over a map, which the language leaves open. *)
Class Decls := {
  RepositoryInterface : Type;
  ApplicationConfiguration : Type;
  ValidateEmptyStringField : string -> shared_field -> option Error;
  ValidateIdentifier : option core.Identifier -> common_Entity -> option Error;
  ValidateProjectAndDomain :
    RepositoryInterface -> ApplicationConfiguration -> string -> string -> option Error;
  range : gmap core.Resources_ResourceName resource.Quantity ->
          list (core.Resources_ResourceName * resource.Quantity);
}.
Context {D : Decls}.

(** Sidecar tasks do not necessarily define a primary container. *)
Definition containerlessTaskTypes : gmap string bool :=
  {[ "sidecar" := true ]}.

Definition isWholeNumber (quantity : resource.Quantity) : bool :=
  (Z.rem (resource.MilliValue quantity) 1000 =? 0)%Z.

Definition taskResourceSetToMap (resourceSet : runtimeInterfaces.TaskResourceSet)
  : gmap core.Resources_ResourceName resource.Quantity :=
  let resourceMap : gmap core.Resources_ResourceName resource.Quantity := ∅ in
  let resourceMap :=
    if negb (resource.IsZero (runtimeInterfaces.CPU resourceSet))
    then <[core.Resources_CPU := runtimeInterfaces.CPU resourceSet]> resourceMap
    else resourceMap in
  let resourceMap :=
    if negb (resource.IsZero (runtimeInterfaces.Memory resourceSet))
    then <[core.Resources_MEMORY := runtimeInterfaces.Memory resourceSet]> resourceMap
    else resourceMap in
  let resourceMap :=
    if negb (resource.IsZero (runtimeInterfaces.GPU resourceSet))
    then <[core.Resources_GPU := runtimeInterfaces.GPU resourceSet]> resourceMap
    else resourceMap in
  let resourceMap :=
    if negb (resource.IsZero (runtimeInterfaces.EphemeralStorage resourceSet))
    then <[core.Resources_EPHEMERAL_STORAGE :=
             runtimeInterfaces.EphemeralStorage resourceSet]> resourceMap
    else resourceMap in
  resourceMap.

Definition addResourceEntryToMap (identifier : option core.Identifier)
    (entry : core.Resources_ResourceEntry.t)
    (resourceEntries : gmap core.Resources_ResourceName resource.Quantity)
  : Error + gmap core.Resources_ResourceName resource.Quantity :=
  match resourceEntries !! core.Resources_ResourceEntry.Name entry with
  | Some _ =>
      inl (ErrSpecifiedMultipleTimes (core.Resources_ResourceEntry.Name entry) identifier)
  | None =>
      match resource.ParseQuantity (core.Resources_ResourceEntry.Value entry) with
      | Err err =>
          inl (ErrParsingFailed (core.Resources_ResourceEntry.Name entry)
                 (core.Resources_ResourceEntry.Value entry) err)
      | Ok quantity =>
          inr (<[core.Resources_ResourceEntry.Name entry := quantity]> resourceEntries)
      end
  end.

(** The loop of [requestedResourcesToQuantity], from the map built so
    far. *)
Fixpoint requestedResourcesToQuantity_from
    (identifier : option core.Identifier)
    (resources : list core.Resources_ResourceEntry.t)
    (requestedToQuantity : gmap core.Resources_ResourceName resource.Quantity)
  : Error + gmap core.Resources_ResourceName resource.Quantity :=
  match resources with
  | [] => inr requestedToQuantity
  | limitEntry :: rest =>
      match core.Resources_ResourceEntry.Name limitEntry with
      | core.Resources_CPU | core.Resources_MEMORY | core.Resources_EPHEMERAL_STORAGE =>
          match addResourceEntryToMap identifier limitEntry requestedToQuantity with
          | inl err => inl err
          | inr requestedToQuantity =>
              requestedResourcesToQuantity_from identifier rest requestedToQuantity
          end
      | core.Resources_GPU =>
          match addResourceEntryToMap identifier limitEntry requestedToQuantity with
          | inl err => inl err
          | inr requestedToQuantity =>
              if negb (isWholeNumber
                         (default resource.Quantity_zero
                            (requestedToQuantity !! core.Resources_GPU)))
              then inl (ErrGpuNotWhole identifier
                          (core.Resources_ResourceEntry.Value limitEntry))
              else requestedResourcesToQuantity_from identifier rest requestedToQuantity
          end
      | _ => requestedResourcesToQuantity_from identifier rest requestedToQuantity
      end
  end.

Definition requestedResourcesToQuantity (identifier : option core.Identifier)
    (resources : list core.Resources_ResourceEntry.t)
  : Error + gmap core.Resources_ResourceName resource.Quantity :=
  requestedResourcesToQuantity_from identifier resources ∅.

(** The resource names [requestedResourcesToQuantity] keeps. *)
Definition tracked (name : core.Resources_ResourceName) : bool :=
  match name with
  | core.Resources_CPU | core.Resources_GPU | core.Resources_MEMORY
  | core.Resources_EPHEMERAL_STORAGE => true
  | core.Resources_UNKNOWN | core.Resources_STORAGE => false
  end.

(** The platform limit of a resource, when one is configured: a zero
    quantity configures none. *)
Definition platformLimitOf (resourceSet : runtimeInterfaces.TaskResourceSet)
    (name : core.Resources_ResourceName) : option resource.Quantity :=
  let set q := if resource.IsZero q then None else Some q in
  match name with
  | core.Resources_CPU => set (runtimeInterfaces.CPU resourceSet)
  | core.Resources_MEMORY => set (runtimeInterfaces.Memory resourceSet)
  | core.Resources_GPU => set (runtimeInterfaces.GPU resourceSet)
  | core.Resources_EPHEMERAL_STORAGE => set (runtimeInterfaces.EphemeralStorage resourceSet)
  | _ => None
  end.

(** What the loop of [validateTaskResources] asks of one requested
    default, given the requested limit and the platform limit of the same
    resource when there are any. *)
Definition withinLimits (name : core.Resources_ResourceName)
    (defaultQuantity : resource.Quantity)
    (limit platform : option resource.Quantity) : Prop :=
  match name with
  | core.Resources_CPU | core.Resources_MEMORY | core.Resources_EPHEMERAL_STORAGE =>
      (forall l, limit = Some l -> (resource.Value defaultQuantity <= resource.Value l)%Z) /\
      (forall l p, limit = Some l -> platform = Some p ->
                   (resource.Value l <= resource.Value p)%Z) /\
      (forall p, platform = Some p -> (resource.Value defaultQuantity <= resource.Value p)%Z)
  | core.Resources_GPU =>
      (forall l, limit = Some l -> resource.Value defaultQuantity = resource.Value l) /\
      (forall p, platform = Some p -> (resource.Value defaultQuantity <= resource.Value p)%Z)
  | _ => True
  end.

(** The body of the loop of [validateTaskResources] over the requested
    defaults. *)
Definition checkDefault (identifier : option core.Identifier)
    (requestedResourceLimits platformTaskResourceLimits :
       gmap core.Resources_ResourceName resource.Quantity)
    (resourceName : core.Resources_ResourceName) (defaultQuantity : resource.Quantity)
  : option Error :=
  match resourceName with
  | core.Resources_CPU | core.Resources_EPHEMERAL_STORAGE | core.Resources_MEMORY =>
      orElse
        match requestedResourceLimits !! resourceName with
        | Some limitQuantity =>
            if (resource.Value limitQuantity <? resource.Value defaultQuantity)%Z
            then Some (ErrDefaultAboveLimit resourceName defaultQuantity limitQuantity)
            else None
        | None => None
        end
      (orElse
        match requestedResourceLimits !! resourceName,
              platformTaskResourceLimits !! resourceName with
        | Some limitQuantity, Some platformLimit =>
            if (resource.Value limitQuantity >? resource.Value platformLimit)%Z
            then Some (ErrLimitAbovePlatform resourceName limitQuantity platformLimit)
            else None
        | _, _ => None
        end
        match platformTaskResourceLimits !! resourceName with
        | Some platformLimit =>
            if (resource.Value defaultQuantity >? resource.Value platformLimit)%Z
            then Some (ErrDefaultAbovePlatform resourceName defaultQuantity platformLimit)
            else None
        | None => None
        end)
  | core.Resources_GPU =>
      orElse
        match requestedResourceLimits !! resourceName with
        | Some limitQuantity =>
            if negb (resource.Value defaultQuantity =? resource.Value limitQuantity)%Z
            then Some (ErrGpuDefaultNotLimit identifier)
            else None
        | None => None
        end
        match platformTaskResourceLimits !! resourceName with
        | Some platformLimit =>
            if (resource.Value defaultQuantity >? resource.Value platformLimit)%Z
            then Some (ErrDefaultAbovePlatform resourceName defaultQuantity platformLimit)
            else None
        | None => None
        end
  | _ => None
  end.

(** The loop itself, over the entries in the order they are ranged. *)
Fixpoint checkDefaults (identifier : option core.Identifier)
    (requestedResourceLimits platformTaskResourceLimits :
       gmap core.Resources_ResourceName resource.Quantity)
    (ranged : list (core.Resources_ResourceName * resource.Quantity)) : option Error :=
  match ranged with
  | [] => None
  | (resourceName, defaultQuantity) :: rest =>
      orElse
        (checkDefault identifier requestedResourceLimits platformTaskResourceLimits
           resourceName defaultQuantity)
        (checkDefaults identifier requestedResourceLimits platformTaskResourceLimits rest)
  end.

Definition validateTaskResources (identifier : option core.Identifier)
    (taskResourceLimits : runtimeInterfaces.TaskResourceSet)
    (requestedTaskResourceDefaults requestedTaskResourceLimits :
       list core.Resources_ResourceEntry.t) : option Error :=
  match requestedResourcesToQuantity identifier requestedTaskResourceDefaults with
  | inl err => Some err
  | inr requestedResourceDefaults =>
      match requestedResourcesToQuantity identifier requestedTaskResourceLimits with
      | inl err => Some err
      | inr requestedResourceLimits =>
          let platformTaskResourceLimits := taskResourceSetToMap taskResourceLimits in
          checkDefaults identifier requestedResourceLimits platformTaskResourceLimits
            (range requestedResourceDefaults)
      end
  end.

(** The walk of [validateTaskType] over the scopes of a task type. *)
Fixpoint scopesAllow (taskID : core.Identifier)
    (scopes : list runtimeInterfaces.WhitelistScope) : bool :=
  match scopes with
  | [] => false
  | scope :: rest =>
      if String.eqb (runtimeInterfaces.Project scope) "" then true
      else if negb (String.eqb (runtimeInterfaces.Project scope) (core.Project taskID))
      then scopesAllow taskID rest
      else if String.eqb (runtimeInterfaces.Domain scope) "" then true
      else if String.eqb (runtimeInterfaces.Domain scope) (core.Domain taskID) then true
      else scopesAllow taskID rest
  end.

Definition validateTaskType (taskID : core.Identifier) (taskType : string)
    (whitelistConfig : runtimeInterfaces.WhitelistConfiguration) : option Error :=
  match runtimeInterfaces.GetTaskTypeWhitelist whitelistConfig with
  | None => None
  | Some taskTypeWhitelist =>
      match taskTypeWhitelist !! taskType with
      | None | Some [] => None
      | Some scopes =>
          if scopesAllow taskID scopes then None else Some whitelistedTaskErr
      end
  end.

(** This is called for a task with a non-nil container; on a task
    without one it dereferences nil. *)
Definition validateContainer (task : core.TaskTemplate)
    (taskConfig : runtimeInterfaces.TaskResourceConfiguration) : Outcome (option Error) :=
  match core.GetContainer task with
  | None => Panic "invalid memory address or nil pointer dereference"
  | Some container =>
      Done
        (orElse (ValidateEmptyStringField (core.Container.Image container) shared_Image)
           match core.Container.Resources container with
           | None => None
           | Some resources =>
               validateTaskResources (core.Id task) (runtimeInterfaces.GetLimits taskConfig)
                 (core.Requests resources) (core.Limits resources)
           end)
  end.

Definition validateRuntimeMetadata (metadata : core.RuntimeMetadata.t) : option Error :=
  orElse (ValidateEmptyStringField (core.RuntimeMetadata.Version metadata)
            shared_RuntimeVersion)
         None.

Definition validateTaskTemplate (taskID : core.Identifier) (task : core.TaskTemplate)
    (taskConfig : runtimeInterfaces.TaskResourceConfiguration)
    (whitelistConfig : runtimeInterfaces.WhitelistConfiguration)
  : Outcome (option Error) :=
  match ValidateEmptyStringField (core.Type_ task) shared_Type with
  | Some err => Done (Some err)
  | None =>
  match validateTaskType taskID (core.Type_ task) whitelistConfig with
  | Some err => Done (Some err)
  | None =>
  match core.Metadata task with
  | None => Done (Some (GetMissingArgumentError shared_Metadata))
  | Some metadata =>
  match match core.Runtime metadata with
        | Some runtime => validateRuntimeMetadata runtime
        | None => None
        end with
  | Some err => Done (Some err)
  | None =>
  match core.Interface task with
  | None => Done (Some (GetMissingArgumentError shared_TypedInterface))
  | Some _ =>
      if default false (containerlessTaskTypes !! core.Type_ task) then Done None
      else match core.GetContainer task with
           | Some _ => validateContainer task taskConfig
           | None => Done None
           end
  end end end end end.

Definition ValidateTask (request : admin.TaskCreateRequest) (db : RepositoryInterface)
    (taskConfig : runtimeInterfaces.TaskResourceConfiguration)
    (whitelistConfig : runtimeInterfaces.WhitelistConfiguration)
    (applicationConfig : ApplicationConfiguration) : Outcome (option Error) :=
  match ValidateIdentifier (admin.Id request) common_Task with
  | Some err => Done (Some err)
  | None =>
  match admin.Id request with
  | None => Panic "invalid memory address or nil pointer dereference"
  | Some id =>
  match ValidateProjectAndDomain db applicationConfig (core.Project id) (core.Domain id) with
  | Some err => Done (Some err)
  | None =>
  match admin.Spec request with
  | None => Done (Some (GetMissingArgumentError shared_Spec))
  | Some spec =>
  match admin.Template spec with
  | None => Done (Some (GetMissingArgumentError shared_Spec))
  | Some template => validateTaskTemplate id template taskConfig whitelistConfig
  end end end end end.

End WithDecls.
End validation.

(** ** A concrete validator

    Quantities are counted in thousandths, which is as fine as the code
    looks ([MilliValue]); [ParseQuantity] reads a decimal number with an
    optional [m] suffix. *)
Module sample_validation.

Fixpoint digits (s : string) (acc : Z) : option Z :=
  match s with
  | EmptyString => Some acc
  | String c rest =>
      let n := Z.of_nat (nat_of_ascii c) in
      if ((48 <=? n) && (n <=? 57))%Z then digits rest (10 * acc + (n - 48))%Z else None
  end.

(** The text before a final [m], if the text ends in one. *)
Fixpoint milli_suffix (s : string) : option string :=
  match s with
  | EmptyString => None
  | String "m" EmptyString => Some EmptyString
  | String c rest => String c <$> milli_suffix rest
  end.

Definition parse (s : string) : Result Z :=
  match s with
  | EmptyString => Err "quantities must match the regular expression"
  | _ =>
      match milli_suffix s with
      | Some "" => Err "quantities must match the regular expression"
      | Some whole =>
          match digits whole 0 with
          | Some n => Ok n
          | None => Err "quantities must match the regular expression"
          end
      | None =>
          match digits s 0 with
          | Some n => Ok (1000 * n)%Z
          | None => Err "quantities must match the regular expression"
          end
      end
  end.

Definition Quantities : resource.Lib :=
  {| resource.Quantity := Z;
     resource.ParseQuantity := parse;
     resource.Value := fun q => (- ((- q) / 1000))%Z;
     resource.MilliValue := fun q => q;
     resource.IsZero := fun q => (q =? 0)%Z;
     resource.Quantity_zero := 0%Z |}.

Definition Decls : @validation.Decls Quantities :=
  {| validation.RepositoryInterface := unit;
     validation.ApplicationConfiguration := unit;
     validation.ValidateEmptyStringField := fun field name =>
       if String.eqb field "" then Some (validation.GetMissingArgumentError name) else None;
     validation.ValidateIdentifier := fun id _ =>
       match id with
       | None => Some (validation.External "missing id")
       | Some _ => None
       end;
     validation.ValidateProjectAndDomain := fun _ _ _ _ => None;
     validation.range := map_to_list |}.

Definition entry (name : core.Resources_ResourceName) (value : string)
  : core.Resources_ResourceEntry.t :=
  {| core.Resources_ResourceEntry.Name := name;
     core.Resources_ResourceEntry.Value := value |}.

(** A platform that allows two CPUs and one GPU and sets no other limit. *)
Definition platform : @runtimeInterfaces.TaskResourceSet Quantities :=
  {| runtimeInterfaces.CPU := 2000%Z : @resource.Quantity Quantities;
     runtimeInterfaces.GPU := 1000%Z : @resource.Quantity Quantities;
     runtimeInterfaces.Memory := 0%Z : @resource.Quantity Quantities;
     runtimeInterfaces.EphemeralStorage := 0%Z : @resource.Quantity Quantities |}.

Definition taskID : core.Identifier :=
  {| core.ResourceType := 1; core.Project := "flytesnacks";
     core.Domain := "development"; core.Name := "hello"; core.Version := "v1" |}.

Definition template (type : string) (container : option core.Container.t)
  : core.TaskTemplate :=
  {| core.Id := Some taskID;
     core.Type_ := type;
     core.Metadata :=
       Some {| core.Runtime := Some {| core.RuntimeMetadata.Version := "0.16.0" |} |};
     core.Interface := Some core.TypedInterface_any;
     core.GetContainer := container |}.

Definition container (requests limits : list core.Resources_ResourceEntry.t)
  : core.Container.t :=
  {| core.Container.Image := "ghcr.io/flyteorg/hello:latest";
     core.Container.Resources :=
       Some {| core.Requests := requests; core.Limits := limits |} |}.

Definition whitelist : runtimeInterfaces.WhitelistConfiguration :=
  {| runtimeInterfaces.GetTaskTypeWhitelist :=
       Some {[ "spark" :=
                 [ {| runtimeInterfaces.Project := "flytesnacks";
                      runtimeInterfaces.Domain := "production" |};
                   {| runtimeInterfaces.Project := "analytics";
                      runtimeInterfaces.Domain := "" |} ] ]} |}.

End sample_validation.

(** * Properties *)

(** ** The metadata provider *)
Section MetadataProvider.
Context {U : url.Lib} {D : authzserver.Decls}.
Implicit Types (s : authzserver.OAuth2MetadataProvider) (t : httpclient.Transport).
Implicit Types (req : option service.OAuth2MetadataRequest).

(** The document of the [self] branch. *)
Lemma OAuth2Metadata_self_eq s req t :
  authConfig.AuthServerType (authConfig.AppAuth (authzserver.cfg s))
    = authConfig.AuthorizationServerTypeSelf ->
  authzserver.OAuth2Metadata s req t =
    (Ok {| service.Issuer := authzserver.GetIssuer (authzserver.cfg s);
           service.AuthorizationEndpoint :=
             url.String (url.ResolveReference
               (authConfig.HTTPPublicUri (authzserver.cfg s)) authzserver.authorizeRelativeUrl);
           service.TokenEndpoint :=
             url.String (url.ResolveReference
               (authConfig.HTTPPublicUri (authzserver.cfg s)) authzserver.tokenRelativeUrl);
           service.ResponseTypesSupported := ["code"; "token"; "code token"];
           service.ScopesSupported := [authzserver.ScopeAll];
           service.TokenEndpointAuthMethodsSupported := ["client_secret_basic"];
           service.JwksUri :=
             url.String (url.ResolveReference
               (authConfig.HTTPPublicUri (authzserver.cfg s)) authzserver.jsonWebKeysUrl);
           service.CodeChallengeMethodsSupported := ["S256"];
           service.GrantTypesSupported := authzserver.supportedGrantTypes |}, []).
Proof.
  intros Hself. unfold authzserver.OAuth2Metadata. rewrite Hself. reflexivity.
Qed.

(** C3: in [self] mode [OAuth2Metadata] issues no request and returns a
    document with [code_challenge_methods_supported = ["S256"]],
    [response_types_supported = ["code"; "token"; "code token"]],
    [token_endpoint_auth_methods_supported = ["client_secret_basic"]],
    and authorize, token and JWKS endpoints resolved against the
    configured public URI. *)
Theorem OAuth2Metadata_self s req t :
  authConfig.AuthServerType (authConfig.AppAuth (authzserver.cfg s))
    = authConfig.AuthorizationServerTypeSelf ->
  exists doc,
    httpclient.value (authzserver.OAuth2Metadata s req) t = Ok doc /\
    httpclient.requests (authzserver.OAuth2Metadata s req) t = [] /\
    service.CodeChallengeMethodsSupported doc = ["S256"] /\
    service.ResponseTypesSupported doc = ["code"; "token"; "code token"] /\
    service.TokenEndpointAuthMethodsSupported doc = ["client_secret_basic"] /\
    service.AuthorizationEndpoint doc =
      url.String (url.ResolveReference
        (authConfig.HTTPPublicUri (authzserver.cfg s)) authzserver.authorizeRelativeUrl) /\
    service.TokenEndpoint doc =
      url.String (url.ResolveReference
        (authConfig.HTTPPublicUri (authzserver.cfg s)) authzserver.tokenRelativeUrl) /\
    service.JwksUri doc =
      url.String (url.ResolveReference
        (authConfig.HTTPPublicUri (authzserver.cfg s)) authzserver.jsonWebKeysUrl).
Proof.
  intros Hself. unfold httpclient.value, httpclient.requests.
  rewrite (OAuth2Metadata_self_eq s req t Hself). cbn [fst snd].
  eexists. split; [reflexivity|]. repeat split.
Qed.

(** C4, as the code has it: in [self] mode [scopes_supported] is the one
    scope [auth.ScopeAll], whatever scopes the configuration lists. *)
Theorem OAuth2Metadata_self_scopes s req t :
  authConfig.AuthServerType (authConfig.AppAuth (authzserver.cfg s))
    = authConfig.AuthorizationServerTypeSelf ->
  exists doc,
    httpclient.value (authzserver.OAuth2Metadata s req) t = Ok doc /\
    service.ScopesSupported doc = [authzserver.ScopeAll].
Proof.
  intros Hself. unfold httpclient.value.
  rewrite (OAuth2Metadata_self_eq s req t Hself). cbn [fst].
  eexists. split; reflexivity.
Qed.

(** The URL the [default] branch fetches, spelled by cases. *)
Lemma externalMetadataURL_cases s :
  let ext := authConfig.BaseURL
               (authConfig.ExternalAuthServer (authConfig.AppAuth (authzserver.cfg s))) in
  let idp := authConfig.OpenID_BaseURL
               (authConfig.OpenID (authConfig.UserAuth (authzserver.cfg s))) in
  (url.String ext <> "" /\
   authzserver.externalMetadataURL s
     = url.ResolveReference ext authzserver.oauth2MetadataEndpoint) \/
  (url.String ext = "" /\
   authzserver.externalMetadataURL s
     = url.ResolveReference idp authzserver.oauth2MetadataEndpoint).
Proof.
  intros ext idp. unfold authzserver.externalMetadataURL. fold ext idp.
  destruct (url.String ext) as [|c r] eqn:E; cbn.
  - right. split; reflexivity.
  - left. split; [discriminate | reflexivity].
Qed.

(** C6: outside [self] mode [OAuth2Metadata] issues exactly one GET, to
    the metadata endpoint resolved against the external authorization
    server's base URL when that URL is not empty and against the OpenID
    base URL otherwise; a transport error, a body that cannot be read
    and a failing [unmarshalResp] are returned as errors, and otherwise
    the decoded document is returned as [unmarshalResp] produced it. *)
Theorem OAuth2Metadata_external s req t :
  authConfig.AuthServerType (authConfig.AppAuth (authzserver.cfg s))
    <> authConfig.AuthorizationServerTypeSelf ->
  let ext := authConfig.BaseURL
               (authConfig.ExternalAuthServer (authConfig.AppAuth (authzserver.cfg s))) in
  let idp := authConfig.OpenID_BaseURL
               (authConfig.OpenID (authConfig.UserAuth (authzserver.cfg s))) in
  let target :=
    url.String (url.ResolveReference
      (if String.eqb (url.String ext) "" then idp else ext)
      authzserver.oauth2MetadataEndpoint) in
  httpclient.requests (authzserver.OAuth2Metadata s req) t = [target] /\
  match t target with
  | Err err => httpclient.value (authzserver.OAuth2Metadata s req) t = Err err
  | Ok response =>
      match httpclient.Body response with
      | Err err => httpclient.value (authzserver.OAuth2Metadata s req) t = Err err
      | Ok raw =>
          match authzserver.unmarshalResp response raw service.OAuth2MetadataResponse_zero with
          | Err err => httpclient.value (authzserver.OAuth2Metadata s req) t = Err err
          | Ok doc => httpclient.value (authzserver.OAuth2Metadata s req) t = Ok doc
          end
      end
  end.
Proof.
  intros Hext ext idp target.
  assert (Htarget : url.String (authzserver.externalMetadataURL s) = target).
  { subst target. destruct (externalMetadataURL_cases s) as [[Hne ->]|[He ->]]; fold ext idp.
    - fold ext in Hne. destruct (String.eqb_spec (url.String ext) ""); [contradiction|reflexivity].
    - fold ext in He. rewrite He. reflexivity. }
  unfold httpclient.value, httpclient.requests, authzserver.OAuth2Metadata.
  destruct (authConfig.AuthServerType (authConfig.AppAuth (authzserver.cfg s)));
    [contradiction|].
  rewrite Htarget. unfold httpclient.bind, httpclient.Get, httpclient.ReadAll.
  destruct (t target) as [response|err]; cbn; [|split; reflexivity].
  destruct (httpclient.Body response) as [raw|err]; cbn; [|split; reflexivity].
  destruct (authzserver.unmarshalResp response raw service.OAuth2MetadataResponse_zero);
    cbn; split; reflexivity.
Qed.

(** C9: [FlyteClient] never fails and returns the client id, redirect
    URI and scopes of the configured Flyte client together with the
    configured gRPC authorization header. *)
Theorem FlyteClient_projection s (req : option service.FlyteClientRequest) :
  let c := authConfig.FlyteClientConfig_
             (authConfig.ThirdParty (authConfig.AppAuth (authzserver.cfg s))) in
  authzserver.FlyteClient s req =
    Ok {| service.ClientId := authConfig.ClientID c;
          service.RedirectUri := authConfig.RedirectURI c;
          service.Scopes := authConfig.Scopes c;
          service.AuthorizationMetadataKey :=
            authConfig.GrpcAuthorizationHeader (authzserver.cfg s) |}.
Proof. reflexivity. Qed.

End MetadataProvider.

(** ** package strings *)
Section Strings.

Lemma HasPrefix_spec (s p : string) :
  strings.HasPrefix s p = true <-> exists b, s = p ++ b.
Proof.
  revert s. induction p as [|c p IH]; intros s; cbn.
  - split; [intros _; exists s; reflexivity | reflexivity].
  - destruct s as [|d s]; cbn.
    + split; [discriminate | intros [b Hb]; discriminate].
    + rewrite andb_true_iff, IH. split.
      * intros [Hc [b ->]]. apply Ascii.eqb_eq in Hc as ->. exists b. reflexivity.
      * intros [b Hb]. injection Hb as -> ->.
        split; [apply Ascii.eqb_refl | exists b; reflexivity].
Qed.

Lemma Contains_unfold (s sub : string) :
  strings.Contains s sub =
    strings.HasPrefix s sub ||
    match s with
    | EmptyString => false
    | String _ s' => strings.Contains s' sub
    end.
Proof. destruct s; reflexivity. Qed.

(** [strings.Contains] decides occurrence as a substring. *)
Lemma Contains_spec (s sub : string) :
  strings.Contains s sub = true <-> exists a b, s = a ++ sub ++ b.
Proof.
  split.
  - induction s as [|c s IH]; rewrite Contains_unfold, orb_true_iff.
    + intros [H|H]; [|discriminate].
      apply HasPrefix_spec in H as [b ->]. exists "", b. reflexivity.
    + intros [H|H].
      * apply HasPrefix_spec in H as [b ->]. exists "", b. reflexivity.
      * destruct (IH H) as (a & b & ->). exists (String c a), b. reflexivity.
  - intros (a & b & ->). induction a as [|c a IH].
    + rewrite Contains_unfold, orb_true_iff. left.
      apply HasPrefix_spec. exists b. reflexivity.
    + cbn [String.append]. rewrite Contains_unfold, orb_true_iff. right. exact IH.
Qed.

End Strings.

(** ** The transcoding gateway *)
Section Gateway.
Context {U : url.Lib} {O : entrypoints.Opaque} {W : entrypoints.World}.
Import entrypoints.

Lemma fold_Handle (hs : list (string * Pattern * GatewayHandler)) (gw : GatewayMux) :
  List.fold_left
    (fun mux route =>
       match route with
       | (meth, pat, hd) => GatewayMux_Handle mux meth pat hd
       end) hs gw
  = {| options := options gw; handlers := (handlers gw ++ hs)%list;
       endpoint := endpoint gw |}.
Proof.
  revert gw. induction hs as [|[[meth pat] hd] hs IH]; intros gw; cbn [List.fold_left].
  - rewrite app_nil_r. destruct gw; reflexivity.
  - rewrite IH. cbn [GatewayMux_Handle options handlers endpoint].
    rewrite <- app_assoc. reflexivity.
Qed.

(** Registering the admin service adds its routes behind the handlers
    the gateway already has, sets the endpoint and keeps the options. *)
Lemma registered_eq (gw : GatewayMux) (addr : string) (dial : list DialOption) :
  registered gw addr dial
  = {| options := options gw;
       handlers := (handlers gw ++ AdminService_handlers)%list;
       endpoint := Some (addr, dial) |}.
Proof.
  unfold registered, RegisterAdminServiceHandlerClient. rewrite fold_Handle. reflexivity.
Qed.

End Gateway.

(** ** The serve command *)
Section Serve.
Context {U : url.Lib} {O : entrypoints.Opaque} {W : entrypoints.World}.
Import entrypoints.
Implicit Types (cfg : ServerConfig) (authContext : AuthContextRef).

(** C1: with authentication enabled the unary chain of the server built
    by [newGRPCServer] is, in this order, the prometheus interceptor,
    the custom-metadata interceptor, the authentication interceptor and
    the logging interceptor, each wrapping the next; with authentication
    disabled the chain is the prometheus interceptor alone and holds no
    authentication interceptor. *)
Theorem newGRPCServer_chain cfg authContext (opts : list ServerOption) :
  exists grpcServer chain,
    newGRPCServer cfg authContext opts = Ok grpcServer /\
    unary_interceptor grpcServer = Some (ChainUnaryServer chain) /\
    chain =
      (if UseAuth (Security cfg)
       then [ grpc_prometheus_UnaryServerInterceptor;
              GetAuthenticationCustomMetadataInterceptor authContext;
              grpcauth_UnaryServerInterceptor (GetAuthenticationInterceptor authContext);
              AuthenticationLoggingInterceptor ]
       else [ grpc_prometheus_UnaryServerInterceptor ]) /\
    (UseAuth (Security cfg) = false ->
     forall f, grpcauth_UnaryServerInterceptor f ∉ chain) /\
    (forall (Ctx Req Info Resp : Type) (M : @Interp U Ctx Req Info Resp) ctx req info handler,
       denote M (ChainUnaryServer chain) ctx req info handler =
         if UseAuth (Security cfg)
         then prometheus_ M ctx req info (fun ctx req =>
                customMetadata_ M authContext ctx req info (fun ctx req =>
                  grpcauth_ M (GetAuthenticationInterceptor authContext) ctx req info
                    (fun ctx req => logging_ M ctx req info handler)))
         else prometheus_ M ctx req info handler).
Proof.
  unfold newGRPCServer, unary_interceptor.
  destruct (UseAuth (Security cfg)); cbn; do 2 eexists;
    (split; [reflexivity|]); (split; [reflexivity|]); (split; [reflexivity|]); split.
  - discriminate.
  - reflexivity.
  - intros _ f Hin. apply list_elem_of_singleton in Hin. discriminate.
  - reflexivity.
Qed.

(** The steps of secure startup, by how it leaves. *)
Lemma serveGatewaySecure_cases cfg :
  (exists certPool cert authContext grpcServer httpServer,
     GetSslCredentials (CertificateFile (Ssl (Security cfg)))
                       (KeyFile (Ssl (Security cfg))) = Ok (certPool, cert) /\
     authContextFor cfg = Ok authContext /\
     newGRPCServer cfg authContext [Creds cert] = Ok grpcServer /\
     newHTTPServer cfg authContext (GetHostAddress cfg)
       [WithTransportCredentials (GetHostAddress cfg) certPool] = Done (Ok httpServer) /\
     net_Listen "tcp" (GetHostAddress cfg) = None /\
     serveGatewaySecure cfg =
       ([ Bound {| network := "tcp"; address := GetHostAddress cfg |};
          Serve {| network := "tcp"; address := GetHostAddress cfg |}
                (Some {| Certificates := [cert]; NextProtos := ["h2"] |})
                (grpcHandlerFunc grpcServer httpServer) ], Running)) \/
  (exists ex, ex <> Running /\ serveGatewaySecure cfg = ([], ex)).
Proof.
  unfold serveGatewaySecure, Listen.
  destruct (GetSslCredentials _ _) as [[certPool cert]|err];
    [|right; eexists; split; [|reflexivity]; discriminate].
  destruct (authContextFor cfg) as [authContext|err];
    [|right; eexists; split; [|reflexivity]; discriminate].
  destruct (newGRPCServer cfg authContext [Creds cert]) as [grpcServer|err] eqn:Hg;
    [|right; eexists; split; [|reflexivity]; discriminate].
  destruct (newHTTPServer _ _ _ _) as [[httpServer|err]|msg] eqn:Hh;
    [|right; eexists; split; [|reflexivity]; discriminate..].
  destruct (net_Listen "tcp" (GetHostAddress cfg)) as [err|] eqn:Hl;
    [right; eexists; split; [|reflexivity]; discriminate|].
  left. exists certPool, cert, authContext, grpcServer, httpServer.
  repeat split; assumption.
Qed.

(** C2: the handler [grpcHandlerFunc] builds hands a request to the gRPC
    server exactly when its protocol major version is 2 and its
    Content-Type header contains [application/grpc], and to the HTTP
    router in every other case. Secure startup serves that handler,
    built from the gRPC server [newGRPCServer] returned and the router
    [newHTTPServer] returned, over TLS on the one listener it binds, on
    the host address: it does so whenever the certificates are loaded,
    the authentication context is created, the router is built and the
    address can be bound, and whenever it does not it has bound and
    served nothing. *)
Theorem grpcHandlerFunc_dispatch cfg (grpcServer : Server)
    (otherHandler : http.ServeMux Handler) (r : http.Request) :
  (grpcHandlerFunc grpcServer otherHandler r = grpcServer_ServeHTTP grpcServer <->
     (http.ProtoMajor r = 2%Z /\
      exists a b, http.Header_Get (http.Header_ r) "Content-Type"
                  = a ++ "application/grpc" ++ b)) /\
  (grpcHandlerFunc grpcServer otherHandler r = otherHandler_ServeHTTP otherHandler <->
     ~ (http.ProtoMajor r = 2%Z /\
        exists a b, http.Header_Get (http.Header_ r) "Content-Type"
                    = a ++ "application/grpc" ++ b)) /\
  (forall certPool cert authContext g h,
     GetSslCredentials (CertificateFile (Ssl (Security cfg)))
                       (KeyFile (Ssl (Security cfg))) = Ok (certPool, cert) ->
     authContextFor cfg = Ok authContext ->
     newGRPCServer cfg authContext [Creds cert] = Ok g ->
     newHTTPServer cfg authContext (GetHostAddress cfg)
       [WithTransportCredentials (GetHostAddress cfg) certPool] = Done (Ok h) ->
     net_Listen "tcp" (GetHostAddress cfg) = None ->
     serveGatewaySecure cfg =
       ([ Bound {| network := "tcp"; address := GetHostAddress cfg |};
          Serve {| network := "tcp"; address := GetHostAddress cfg |}
                (Some {| Certificates := [cert]; NextProtos := ["h2"] |})
                (grpcHandlerFunc g h) ], Running)) /\
  ((exists certPool cert authContext g h,
      GetSslCredentials (CertificateFile (Ssl (Security cfg)))
                        (KeyFile (Ssl (Security cfg))) = Ok (certPool, cert) /\
      authContextFor cfg = Ok authContext /\
      newGRPCServer cfg authContext [Creds cert] = Ok g /\
      newHTTPServer cfg authContext (GetHostAddress cfg)
        [WithTransportCredentials (GetHostAddress cfg) certPool] = Done (Ok h) /\
      net_Listen "tcp" (GetHostAddress cfg) = None /\
      serveGatewaySecure cfg =
        ([ Bound {| network := "tcp"; address := GetHostAddress cfg |};
           Serve {| network := "tcp"; address := GetHostAddress cfg |}
                 (Some {| Certificates := [cert]; NextProtos := ["h2"] |})
                 (grpcHandlerFunc g h) ], Running)) \/
   (fst (serveGatewaySecure cfg) = [] /\ snd (serveGatewaySecure cfg) <> Running)).
Proof.
  assert (Hcond :
    ((http.ProtoMajor r =? 2)%Z &&
     strings.Contains (http.Header_Get (http.Header_ r) "Content-Type") "application/grpc"
     = true) <->
    (http.ProtoMajor r = 2%Z /\
      exists a b, http.Header_Get (http.Header_ r) "Content-Type"
                  = a ++ "application/grpc" ++ b)).
  { rewrite andb_true_iff, Z.eqb_eq, Contains_spec. reflexivity. }
  split; [|split; [|split]].
  - unfold grpcHandlerFunc.
    destruct ((http.ProtoMajor r =? 2)%Z && strings.Contains _ _) eqn:E; split.
    + intros _. apply Hcond. reflexivity.
    + reflexivity.
    + discriminate.
    + intros Hyes. apply Hcond in Hyes. discriminate Hyes.
  - unfold grpcHandlerFunc.
    destruct ((http.ProtoMajor r =? 2)%Z && strings.Contains _ _) eqn:E; split.
    + discriminate.
    + intros Hn. exfalso. apply Hn, Hcond. reflexivity.
    + intros _ Hyes. apply Hcond in Hyes. discriminate Hyes.
    + reflexivity.
  - intros certPool cert authContext g h Hc Ha Hg Hh Hl.
    unfold serveGatewaySecure, Listen. rewrite Hc, Ha, Hg, Hh, Hl. reflexivity.
  - destruct (serveGatewaySecure_cases cfg) as [Hrun|(ex & Hex & He)].
    + left. exact Hrun.
    + right. rewrite He. split; [reflexivity|exact Hex].
Qed.

(** The steps of insecure startup: the gRPC listener is bound and its
    serve loop launched before the HTTP router is built. *)
Lemma serveGatewayInsecure_cases cfg :
  (exists ex, ex <> Running /\ serveGatewayInsecure cfg = ([], ex) /\
     (is_Ok (authContextFor cfg) = false \/
      net_Listen "tcp" (GetGrpcHostAddress cfg) <> None)) \/
  (exists authContext grpcServer,
     authContextFor cfg = Ok authContext /\
     newGRPCServer cfg authContext [] = Ok grpcServer /\
     net_Listen "tcp" (GetGrpcHostAddress cfg) = None /\
     match newHTTPServer cfg authContext (GetGrpcHostAddress cfg) [WithInsecure] with
     | Panic msg =>
         serveGatewayInsecure cfg =
           ([ Bound {| network := "tcp"; address := GetGrpcHostAddress cfg |};
              GoServe grpcServer {| network := "tcp"; address := GetGrpcHostAddress cfg |} ],
            Panicked msg)
     | Done (Err err) =>
         serveGatewayInsecure cfg =
           ([ Bound {| network := "tcp"; address := GetGrpcHostAddress cfg |};
              GoServe grpcServer {| network := "tcp"; address := GetGrpcHostAddress cfg |} ],
            Returned err)
     | Done (Ok httpServer) =>
         match net_Listen "tcp" (GetHostAddress cfg) with
         | Some err =>
             serveGatewayInsecure cfg =
               ([ Bound {| network := "tcp"; address := GetGrpcHostAddress cfg |};
                  GoServe grpcServer {| network := "tcp"; address := GetGrpcHostAddress cfg |} ],
                Returned (Wrap err "failed to Start HTTP Server"))
         | None =>
             serveGatewayInsecure cfg =
               ([ Bound {| network := "tcp"; address := GetGrpcHostAddress cfg |};
                  GoServe grpcServer {| network := "tcp"; address := GetGrpcHostAddress cfg |};
                  Bound {| network := "tcp"; address := GetHostAddress cfg |};
                  Serve {| network := "tcp"; address := GetHostAddress cfg |} None
                        (mux_Handler httpServer) ],
                Running)
         end
     end).
Proof.
  unfold serveGatewayInsecure, ListenAndServe, Listen.
  destruct (authContextFor cfg) as [authContext|err] eqn:Ha.
  2:{ left. eexists. split; [|split; [reflexivity|left; reflexivity]]. discriminate. }
  destruct (newGRPCServer cfg authContext []) as [grpcServer|err] eqn:Hg;
    [|discriminate Hg].
  destruct (net_Listen "tcp" (GetGrpcHostAddress cfg)) as [err|] eqn:Hl.
  { left. eexists. split; [|split; [reflexivity|right]]; discriminate. }
  right. exists authContext, grpcServer.
  split; [reflexivity|]. split; [exact Hg|]. split; [reflexivity|].
  destruct (newHTTPServer _ _ _ _) as [[httpServer|err]|msg]; try reflexivity.
  destruct (net_Listen "tcp" (GetHostAddress cfg)); reflexivity.
Qed.

(** Building the HTTP router succeeds only when the admin service was
    registered on the gateway mux it had built. *)
Lemma newHTTPServer_Ok_registered cfg authContext grpcAddress opts mux :
  newHTTPServer cfg authContext grpcAddress opts = Done (Ok mux) ->
  RegisterAdminServiceHandlerFromEndpoint (gatewayMux cfg authContext) grpcAddress opts
    = None.
Proof.
  unfold newHTTPServer, gatewayMux. intros Hn.
  destruct (http.Handle http.NewServeMux "/healthcheck" healthCheckFunc)
    as [mux1|]; [|discriminate Hn].
  cbn [Outcome_bind] in Hn.
  destruct (http.Handle mux1 "/api/v1/openapi" GetHandleOpenapiSpec)
    as [mux2|]; [|discriminate Hn].
  cbn [Outcome_bind] in Hn.
  destruct (UseAuth (Security cfg)).
  - destruct (http.Handle mux2 "/login" _) as [m3|]; [|discriminate Hn].
    cbn [Outcome_bind] in Hn.
    destruct (http.Handle m3 "/callback" _) as [m4|]; [|discriminate Hn].
    cbn [Outcome_bind] in Hn.
    destruct authContext as [a|]; [|discriminate Hn].
    destruct (hasUserInfoUrl a).
    + destruct (http.Handle m4 "/me" _) as [m5|]; [|discriminate Hn].
      cbn [Outcome_bind] in Hn.
      destruct (http.Handle m5 MetadataEndpoint _) as [mux3|]; [|discriminate Hn].
      cbn [Outcome_bind] in Hn.
      destruct (RegisterAdminServiceHandlerFromEndpoint _ _ _);
        [discriminate Hn|reflexivity].
    + cbn [Outcome_bind] in Hn.
      destruct (http.Handle m4 MetadataEndpoint _) as [mux3|]; [|discriminate Hn].
      cbn [Outcome_bind] in Hn.
      destruct (RegisterAdminServiceHandlerFromEndpoint _ _ _);
        [discriminate Hn|reflexivity].
  - cbn [Outcome_bind] in Hn.
    destruct (RegisterAdminServiceHandlerFromEndpoint _ _ _);
      [discriminate Hn|reflexivity].
Qed.

(** C5, as the code has it. In secure mode, when loading the
    certificates, creating the authentication context or binding the
    listener fails, or when the registration of the admin service on the
    gateway mux, made with the transport credentials of the loaded
    certificate pool, fails, startup ends with no listener bound and
    nothing served. In insecure mode the same holds when creating the
    authentication context or binding the gRPC listener fails, while a
    failure of the registration made with [WithInsecure] or of binding
    the HTTP listener ends startup after the gRPC listener was bound and
    its serve loop launched. *)
Theorem startup_failure cfg :
  (* secure mode: a step outside the router fails *)
  ((is_Ok (GetSslCredentials (CertificateFile (Ssl (Security cfg)))
                             (KeyFile (Ssl (Security cfg)))) = false \/
    is_Ok (authContextFor cfg) = false \/
    net_Listen "tcp" (GetHostAddress cfg) <> None) ->
   fst (serveGatewaySecure cfg) = [] /\ snd (serveGatewaySecure cfg) <> Running) /\
  (* secure mode: the registration that startup makes fails *)
  (forall certPool cert authContext,
     GetSslCredentials (CertificateFile (Ssl (Security cfg)))
                       (KeyFile (Ssl (Security cfg))) = Ok (certPool, cert) ->
     authContextFor cfg = Ok authContext ->
     RegisterAdminServiceHandlerFromEndpoint (gatewayMux cfg authContext)
       (GetHostAddress cfg) [WithTransportCredentials (GetHostAddress cfg) certPool]
       <> None ->
     fst (serveGatewaySecure cfg) = [] /\ snd (serveGatewaySecure cfg) <> Running) /\
  (snd (serveGatewaySecure cfg) <> Running -> fst (serveGatewaySecure cfg) = []) /\
  (* insecure mode: failures before the gRPC listener serves *)
  ((is_Ok (authContextFor cfg) = false \/
    net_Listen "tcp" (GetGrpcHostAddress cfg) <> None) ->
   fst (serveGatewayInsecure cfg) = [] /\ snd (serveGatewayInsecure cfg) <> Running) /\
  (* insecure mode: failures after it *)
  (forall authContext,
     authContextFor cfg = Ok authContext ->
     net_Listen "tcp" (GetGrpcHostAddress cfg) = None ->
     (RegisterAdminServiceHandlerFromEndpoint (gatewayMux cfg authContext)
        (GetGrpcHostAddress cfg) [WithInsecure] <> None \/
      net_Listen "tcp" (GetHostAddress cfg) <> None) ->
     snd (serveGatewayInsecure cfg) <> Running /\
     exists grpcServer,
       newGRPCServer cfg authContext [] = Ok grpcServer /\
       fst (serveGatewayInsecure cfg) =
         [ Bound {| network := "tcp"; address := GetGrpcHostAddress cfg |};
           GoServe grpcServer {| network := "tcp"; address := GetGrpcHostAddress cfg |} ]).
Proof.
  split; [|split; [|split; [|split]]].
  - intros Hfail.
    destruct (serveGatewaySecure_cases cfg)
      as [(cp & cert & a & g & h & Hc & Ha & _ & Hh & Hl & _)|(ex & Hex & ->)];
      [exfalso|split; [reflexivity|exact Hex]].
    destruct Hfail as [Hf|[Hf|Hf]].
    + rewrite Hc in Hf. discriminate.
    + rewrite Ha in Hf. discriminate.
    + exact (Hf Hl).
  - intros certPool cert authContext Hc Ha Hf.
    destruct (serveGatewaySecure_cases cfg)
      as [(cp & cert' & a & g & h & Hc' & Ha' & _ & Hh & _ & _)|(ex & Hex & ->)];
      [exfalso|split; [reflexivity|exact Hex]].
    rewrite Hc in Hc'. injection Hc' as <- <-.
    rewrite Ha in Ha'. injection Ha' as <-.
    exact (Hf (newHTTPServer_Ok_registered _ _ _ _ _ Hh)).
  - destruct (serveGatewaySecure_cases cfg)
      as [(cp & cert & a & g & h & _ & _ & _ & _ & _ & ->)|(ex & Hex & ->)];
      [intros Hn; cbn in Hn; contradiction | reflexivity].
  - intros Hfail.
    destruct (serveGatewayInsecure_cases cfg)
      as [(ex & Hex & -> & _)|(a & g & Ha & _ & Hl & _)];
      [split; [reflexivity|exact Hex]|exfalso].
    destruct Hfail as [Hf|Hf]; [rewrite Ha in Hf; discriminate | exact (Hf Hl)].
  - intros authContext Hauth Hgrpc Hfail.
    destruct (serveGatewayInsecure_cases cfg)
      as [(ex & _ & _ & [Hf|Hf])|(a & g & Ha & Hg & _ & Hcase)];
      [rewrite Hauth in Hf; discriminate | contradiction |].
    rewrite Hauth in Ha. injection Ha as <-.
    destruct (newHTTPServer cfg authContext (GetGrpcHostAddress cfg) [WithInsecure])
      as [[httpServer|err]|msg] eqn:Hh.
    + destruct (net_Listen "tcp" (GetHostAddress cfg)) as [err|] eqn:Hl.
      * rewrite Hcase. split; [discriminate|]. exists g. split; [exact Hg|reflexivity].
      * exfalso. destruct Hfail as [Hf|Hf]; [|exact (Hf eq_refl)].
        exact (Hf (newHTTPServer_Ok_registered _ _ _ _ _ Hh)).
    + rewrite Hcase. split; [discriminate|]. exists g. split; [exact Hg|reflexivity].
    + rewrite Hcase. split; [discriminate|]. exists g. split; [exact Hg|reflexivity].
Qed.

End Serve.

(** ** The HTTP router *)
Section MuxProps.
Context {H : Type}.
Implicit Types (mux : http.ServeMux H) (e : http.muxEntry H) (pat path : string).

Lemma In_appendSorted (es : list (http.muxEntry H)) e e' :
  In e' (http.appendSorted es e) <-> e' = e \/ In e' es.
Proof.
  induction es as [|x es IH]; cbn [http.appendSorted].
  - cbn. intuition.
  - destruct (String.length (http.pattern x) <? String.length (http.pattern e))%nat;
      cbn [In]; [|rewrite IH]; intuition.
Qed.

(** [appendSorted] keeps [es] ordered from the longest pattern to the
    shortest, which is what lets [match_] return the longest match (and
    what the binary search of the original relies on). *)
Lemma appendSorted_sorted (es : list (http.muxEntry H)) e :
  StronglySorted (fun a b => String.length (http.pattern b) <= String.length (http.pattern a)) es ->
  StronglySorted (fun a b => String.length (http.pattern b) <= String.length (http.pattern a))
    (http.appendSorted es e).
Proof.
  induction 1 as [|x es Hs IH Hx]; cbn [http.appendSorted].
  - repeat constructor.
  - destruct (Nat.ltb_spec (String.length (http.pattern x)) (String.length (http.pattern e)))
      as [Hlt|Hge].
    + constructor; [constructor; assumption|].
      constructor; [apply Nat.lt_le_incl; exact Hlt|].
      eapply Forall_impl; [exact Hx|]. cbn. intros a Ha.
      eapply Nat.le_trans; [exact Ha|apply Nat.lt_le_incl; exact Hlt].
    + constructor; [exact IH|].
      apply List.Forall_forall. intros a Ha. apply In_appendSorted in Ha as [->|Ha].
      * exact Hge.
      * rewrite List.Forall_forall in Hx. exact (Hx _ Ha).
Qed.

(** What a successful registration did. *)
Lemma Handle_Done mux pat (hd : H) mux' :
  http.Handle mux pat hd = Done mux' ->
  pat <> "" /\ http.m mux !! pat = None /\
  http.m mux' = <[pat := {| http.h := hd; http.pattern := pat |}]> (http.m mux) /\
  http.es mux' =
    match strings.last pat with
    | Some "/"%char => http.appendSorted (http.es mux) {| http.h := hd; http.pattern := pat |}
    | _ => http.es mux
    end /\
  http.hosts mux' =
    match strings.first pat with
    | Some "/"%char => http.hosts mux
    | _ => true
    end.
Proof.
  unfold http.Handle. destruct (String.eqb_spec pat ""); [discriminate|].
  destruct (http.m mux !! pat) eqn:Hm; [discriminate|].
  intros [= <-]. cbn. repeat split; assumption.
Qed.

Lemma Handle_lookup mux pat (hd : H) mux' :
  http.Handle mux pat hd = Done mux' ->
  http.m mux' !! pat = Some {| http.h := hd; http.pattern := pat |}.
Proof.
  intros (_ & _ & -> & _)%Handle_Done. apply lookup_insert_eq.
Qed.

(** A registration never replaces an entry. *)
Lemma Handle_preserves mux pat (hd : H) mux' k e :
  http.Handle mux pat hd = Done mux' ->
  http.m mux !! k = Some e -> http.m mux' !! k = Some e.
Proof.
  intros (_ & Hfree & -> & _)%Handle_Done Hk.
  rewrite lookup_insert_ne; [exact Hk|]. intros ->. congruence.
Qed.

Lemma Handle_lookup_inv mux pat (hd : H) mux' k e :
  http.Handle mux pat hd = Done mux' ->
  http.m mux' !! k = Some e ->
  (k = pat /\ e = {| http.h := hd; http.pattern := pat |}) \/ http.m mux !! k = Some e.
Proof.
  intros (_ & _ & -> & _)%Handle_Done Hk.
  destruct (decide (pat = k)) as [->|Hne].
  - rewrite lookup_insert_eq in Hk. left. split; congruence.
  - rewrite lookup_insert_ne in Hk by exact Hne. right. exact Hk.
Qed.

Lemma wf_NewServeMux (P : http.muxEntry H -> Prop) : http.wf P http.NewServeMux.
Proof.
  unfold http.wf, http.NewServeMux; cbn. split; [reflexivity|]. split; [|split].
  - intros k e Hk. rewrite lookup_empty in Hk. discriminate.
  - intros e [].
  - intros k e Hk. rewrite lookup_empty in Hk. discriminate.
Qed.

(** Registering a path pattern keeps the router well formed. *)
Lemma wf_Handle (P : http.muxEntry H -> Prop) mux pat (hd : H) mux' :
  http.wf P mux ->
  http.Handle mux pat hd = Done mux' ->
  strings.first pat = Some "/"%char ->
  P {| http.h := hd; http.pattern := pat |} ->
  http.wf P mux'.
Proof.
  intros (Hhosts & Hm & Hes & Hslash) Hh Hfirst HP.
  pose proof (Handle_Done _ _ _ _ Hh) as (_ & Hfree & Hm' & Hes' & Hhosts').
  rewrite Hfirst in Hhosts'.
  split; [congruence|]. split; [|split].
  - intros k e Hk. destruct (Handle_lookup_inv _ _ _ _ _ _ Hh Hk) as [[-> ->]|Hold].
    + split; [reflexivity|exact HP].
    + exact (Hm _ _ Hold).
  - intros e He. rewrite Hes' in He.
    assert (Hcase : (e = {| http.h := hd; http.pattern := pat |} /\
                     strings.last pat = Some "/"%char) \/ In e (http.es mux)).
    { destruct (strings.last pat) as [c|] eqn:Hl; [|right; exact He].
      destruct (Ascii.eqb_spec c "/"%char) as [->|Hc].
      - apply In_appendSorted in He as [->|He]; [left; split; reflexivity|right; exact He].
      - right. destruct c as [[] [] [] [] [] [] [] []]; try exact He. contradiction Hc; reflexivity. }
    destruct Hcase as [[-> Hl]|Hold].
    + split; [exact Hl|]. cbn. exact (Handle_lookup _ _ _ _ Hh).
    + destruct (Hes _ Hold) as [Hl Hlk]. split; [exact Hl|].
      exact (Handle_preserves _ _ _ _ _ _ Hh Hlk).
  - intros k e Hk Hl. rewrite Hes'.
    destruct (Handle_lookup_inv _ _ _ _ _ _ Hh Hk) as [[-> ->]|Hold].
    + rewrite Hl. apply In_appendSorted. left. reflexivity.
    + pose proof (Hslash _ _ Hold Hl) as Hin.
      destruct (strings.last pat) as [c|]; [|exact Hin].
      destruct c as [[] [] [] [] [] [] [] []]; try exact Hin.
      apply In_appendSorted. right. exact Hin.
Qed.

(** How a well-formed router resolves a path. *)
Lemma wf_handler (P : http.muxEntry H -> Prop) mux host path :
  http.wf P mux -> http.handler mux host path = http.h <$> http.match_ mux path.
Proof.
  intros (Hhosts & _). unfold http.handler. rewrite Hhosts. reflexivity.
Qed.

Lemma wf_match (P : http.muxEntry H -> Prop) mux path e :
  http.wf P mux ->
  http.match_ mux path = Some e ->
  P e /\ http.m mux !! http.pattern e = Some e /\
  (http.pattern e = path \/
   (http.m mux !! path = None /\ strings.last (http.pattern e) = Some "/"%char /\
    strings.HasPrefix path (http.pattern e) = true)).
Proof.
  intros (_ & Hm & Hes & _). unfold http.match_.
  destruct (http.m mux !! path) as [v|] eqn:Hp.
  - intros [= ->]. destruct (Hm _ _ Hp) as [Hpat HP].
    split; [exact HP|]. split; [rewrite Hpat; exact Hp|left; exact Hpat].
  - intros Hf. apply find_some in Hf as [Hin Hpre].
    destruct (Hes _ Hin) as [Hl Hlk]. destruct (Hm _ _ Hlk) as [_ HP].
    split; [exact HP|]. split; [exact Hlk|]. right. repeat split; assumption.
Qed.

(** With a handler mounted at the root every path is matched. *)
Lemma wf_match_root (P : http.muxEntry H -> Prop) mux rest e0 :
  http.wf P mux ->
  http.m mux !! "/" = Some e0 ->
  exists e, http.match_ mux ("/" ++ rest) = Some e.
Proof.
  intros (_ & Hm & _ & Hslash) Hroot. unfold http.match_.
  destruct (http.m mux !! ("/" ++ rest)) as [v|]; [eexists; reflexivity|].
  destruct (find _ (http.es mux)) as [e|] eqn:Hf; [eexists; reflexivity|].
  exfalso. pose proof (Hslash _ _ Hroot eq_refl) as Hin.
  pose proof (find_none _ _ Hf _ Hin) as Hno. cbn beta in Hno.
  destruct (Hm _ _ Hroot) as [Hp _]. rewrite Hp in Hno. cbn in Hno. discriminate.
Qed.

End MuxProps.

(** ** Canonical paths and redirects *)
Section PathProps.

(** [path.Clean] on the cases of its documentation and tests. *)
Example Clean_table :
  List.map path.Clean
    [ "a/c"; "a//c"; "a/c/."; "a/c/b/.."; "/../a/c"; "/../a/b/../././/c"; "";
      "abc/def/../../../ghi/jkl/../../../mno"; "/"; "../../a/../b"; "/abc/" ]
  = [ "a/c"; "a/c"; "a/c"; "a/c"; "/a/c"; "/a/c"; ".";
      "../../mno"; "/"; "../../b"; "/abc" ].
Proof. reflexivity. Qed.

(** [cleanPath] roots the path and keeps its trailing slash. *)
Example cleanPath_table :
  List.map http.cleanPath
    [ ""; "a"; "/a/"; "/a//"; "/a/b/../"; "//healthcheck"; "/a/../healthcheck";
      "/healthcheck"; "/healthcheck/" ]
  = [ "/"; "/a"; "/a/"; "/a/"; "/a/"; "/healthcheck"; "/healthcheck";
      "/healthcheck"; "/healthcheck/" ].
Proof. reflexivity. Qed.


(** A rooted path stays rooted. *)
Lemma Clean_rooted (p : string) :
  strings.first p = Some "/"%char -> exists s, path.Clean p = "/" ++ s.
Proof.
  destruct p as [|c p]; [discriminate|]. cbn [strings.first]. intros [= ->].
  unfold path.Clean. cbn [String.eqb strings.HasPrefix Ascii.eqb Bool.eqb andb].
  eexists. reflexivity.
Qed.

(** A canonical path starts with a slash. *)
Lemma cleanPath_rooted (p : string) :
  exists s, http.cleanPath p = "/" ++ s.
Proof.
  unfold http.cleanPath.
  destruct (String.eqb_spec p "") as [->|Hne]; [exists ""; reflexivity|].
  set (p' := match strings.first p with Some "/"%char => p | _ => "/" ++ p end).
  assert (Hp' : strings.first p' = Some "/"%char).
  { subst p'. destruct p as [|c p]; [contradiction|]. cbn [strings.first].
    destruct c as [[] [] [] [] [] [] [] []]; reflexivity. }
  destruct (Clean_rooted _ Hp') as [s Hs]. rewrite Hs.
  destruct (strings.last p') as [c|]; [|exists s; reflexivity].
  destruct c as [[] [] [] [] [] [] [] []]; try (exists s; reflexivity).
  destruct (String.eqb ("/" ++ s) "/"); [exists s; reflexivity|].
  destruct (_ && _).
  - destruct p' as [|c p'']; [discriminate|]. cbn in Hp'. injection Hp' as ->.
    exists p''. reflexivity.
  - exists (s ++ "/"). reflexivity.
Qed.

End PathProps.

Section MuxRedirect.
Context {H : Type}.
Implicit Types (mux : http.ServeMux H).

(** A redirect to the path with a slash added is made only for a path
    that is not registered, to one that is. *)
Lemma shouldRedirectRLocked_true mux host path :
  http.shouldRedirectRLocked mux host path = true ->
  http.m mux !! path = None /\
  exists c, (c = path \/ c = host ++ path) /\ is_Some (http.m mux !! (c ++ "/")).
Proof.
  unfold http.shouldRedirectRLocked. cbn [existsb].
  destruct (http.m mux !! path) as [e|] eqn:Hp.
  { rewrite bool_decide_eq_true_2 by (eexists; reflexivity). discriminate. }
  rewrite (bool_decide_eq_false_2 (is_Some None)) by (intros [? [=]]).
  cbn [orb].
  destruct (bool_decide (is_Some (http.m mux !! (host ++ path)))); [discriminate|].
  cbn [orb]. destruct (String.eqb path ""); [discriminate|].
  destruct (bool_decide (is_Some (http.m mux !! (path ++ "/")))) eqn:H1.
  { intros _. split; [reflexivity|]. exists path. split; [left; reflexivity|].
    apply bool_decide_eq_true in H1. exact H1. }
  destruct (bool_decide (is_Some (http.m mux !! ((host ++ path) ++ "/")))) eqn:H2;
    [|discriminate].
  intros _. split; [reflexivity|]. exists (host ++ path). split; [right; reflexivity|].
  apply bool_decide_eq_true in H2. exact H2.
Qed.

Lemma shouldRedirectRLocked_registered mux host path e :
  http.m mux !! path = Some e -> http.shouldRedirectRLocked mux host path = false.
Proof.
  intros Hp. destruct (http.shouldRedirectRLocked mux host path) eqn:Hs; [|reflexivity].
  apply shouldRedirectRLocked_true in Hs as [Hn _]. congruence.
Qed.

End MuxRedirect.

Section StringFacts.

Lemma last_app_slash (c : string) : strings.last (c ++ "/") = Some "/"%char.
Proof.
  induction c as [|a c IH]; [reflexivity|].
  change (strings.last (String a (c ++ "/")) = Some "/"%char).
  destruct (c ++ "/") eqn:E; [destruct c; discriminate E|exact IH].
Qed.

Lemma app_slash_root (c : string) : c ++ "/" = "/" -> c = "".
Proof.
  destruct c as [|a c]; [reflexivity|]. cbn. intros [= -> Hc]. destruct c; discriminate Hc.
Qed.

Lemma append_empty (a b : string) : a ++ b = "" -> b = "".
Proof. destruct a; [intros H; exact H|discriminate]. Qed.

End StringFacts.

Section Router.
Context {U : url.Lib} {O : entrypoints.Opaque} {W : entrypoints.World} {N : http.Net}.
Import entrypoints.
Implicit Types (cfg : ServerConfig) (authContext : AuthContextRef).
Implicit Types (mux : http.ServeMux Handler).

(** The registrations behind a router that [newHTTPServer] returned, in
    the order they were made. *)
Lemma newHTTPServer_inv cfg authContext grpcAddress opts mux :
  newHTTPServer cfg authContext grpcAddress opts = Done (Ok mux) ->
  exists mux1 mux2 mux3 gwopts,
    http.Handle http.NewServeMux "/healthcheck" healthCheckFunc = Done mux1 /\
    http.Handle mux1 "/api/v1/openapi" GetHandleOpenapiSpec = Done mux2 /\
    (if UseAuth (Security cfg) then
       exists a m3 m4 m5,
         authContext = Some a /\
         http.Handle mux2 "/login"
           (RefreshTokensIfExists authContext (GetLoginHandler authContext)) = Done m3 /\
         http.Handle m3 "/callback" (GetCallbackHandler authContext) = Done m4 /\
         (if hasUserInfoUrl a
          then http.Handle m4 "/me" (GetMeEndpointHandler authContext) = Done m5
          else m5 = m4) /\
         http.Handle m5 MetadataEndpoint
           (GetMetadataEndpointRedirectHandler authContext) = Done mux3 /\
         gwopts = [ WithMarshalerOption "application/octet-stream" ProtoMarshaller;
                    WithMetadata (GetHttpRequestCookieToMetadataHandler authContext) ]
     else
       mux3 = mux2 /\
       gwopts = [ WithMarshalerOption "application/octet-stream" ProtoMarshaller ]) /\
    http.Handle mux3 "/"
      (gwmux_handler
         (registered
            (GatewayMux_Handle (runtime_NewServeMux gwopts) http.MethodOptions
               noopPattern CorsDecorated_healthCheckFunc)
            grpcAddress opts)) = Done mux.
Proof.
  unfold newHTTPServer. intros Hn.
  destruct (http.Handle http.NewServeMux "/healthcheck" healthCheckFunc)
    as [mux1|] eqn:H1; [|discriminate Hn].
  cbn [Outcome_bind] in Hn.
  destruct (http.Handle mux1 "/api/v1/openapi" GetHandleOpenapiSpec)
    as [mux2|] eqn:H2; [|discriminate Hn].
  cbn [Outcome_bind] in Hn.
  exists mux1, mux2.
  destruct (UseAuth (Security cfg)).
  - destruct (http.Handle mux2 "/login" _) as [m3|] eqn:H3; [|discriminate Hn].
    cbn [Outcome_bind] in Hn.
    destruct (http.Handle m3 "/callback" _) as [m4|] eqn:H4; [|discriminate Hn].
    cbn [Outcome_bind] in Hn.
    destruct authContext as [a|]; [|discriminate Hn].
    destruct (hasUserInfoUrl a) eqn:Hu.
    + destruct (http.Handle m4 "/me" _) as [m5|] eqn:H5; [|discriminate Hn].
      cbn [Outcome_bind] in Hn.
      destruct (http.Handle m5 MetadataEndpoint _) as [mux3|] eqn:H6; [|discriminate Hn].
      cbn [Outcome_bind] in Hn.
      destruct (RegisterAdminServiceHandlerFromEndpoint _ _ _); [discriminate Hn|].
      destruct (http.Handle mux3 "/" _) as [mux'|] eqn:H7; [|discriminate Hn].
      cbn [Outcome_bind] in Hn. injection Hn as ->.
      exists mux3. eexists.
      split; [first [reflexivity|exact H1]|]. split; [first [reflexivity|exact H2]|].
      split; [|exact H7].
      exists a, m3, m4, m5. rewrite Hu. repeat split; first [assumption|reflexivity].
    + cbn [Outcome_bind] in Hn.
      destruct (http.Handle m4 MetadataEndpoint _) as [mux3|] eqn:H6; [|discriminate Hn].
      cbn [Outcome_bind] in Hn.
      destruct (RegisterAdminServiceHandlerFromEndpoint _ _ _); [discriminate Hn|].
      destruct (http.Handle mux3 "/" _) as [mux'|] eqn:H7; [|discriminate Hn].
      cbn [Outcome_bind] in Hn. injection Hn as ->.
      exists mux3. eexists.
      split; [first [reflexivity|exact H1]|]. split; [first [reflexivity|exact H2]|].
      split; [|exact H7].
      exists a, m3, m4, m4. rewrite Hu. repeat split; first [assumption|reflexivity].
  - cbn [Outcome_bind] in Hn.
    destruct (RegisterAdminServiceHandlerFromEndpoint _ _ _); [discriminate Hn|].
    destruct (http.Handle mux2 "/" _) as [mux'|] eqn:H7; [|discriminate Hn].
    cbn [Outcome_bind] in Hn. injection Hn as ->.
    exists mux2. eexists.
      split; [first [reflexivity|exact H1]|]. split; [first [reflexivity|exact H2]|].
    split; [|exact H7]. split; reflexivity.
Qed.

(** Carries a lookup forward through later registrations. *)
Ltac carry :=
  repeat first
    [ eapply Handle_lookup; eassumption
    | eapply Handle_preserves; [eassumption|] ].

(** Traces a lookup back through the registrations that built the router. *)
Ltac trace_back Hk :=
  repeat match goal with
  | Hh : http.Handle ?m0 ?pat ?hd = Done ?m1 |- _ =>
      match type of Hk with
      | http.m m1 !! _ = Some _ =>
          apply (Handle_lookup_inv _ _ _ _ _ _ Hh) in Hk;
          destruct Hk as [[? ?]|Hk]
      end
  end.

Lemma hasUserInfoUrl_spec (a : AuthenticationContext) :
  hasUserInfoUrl a = true <-> exists u, GetUserInfoUrl a = Some u /\ url.String u <> "".
Proof.
  unfold hasUserInfoUrl. destruct (GetUserInfoUrl a) as [u|].
  - rewrite negb_true_iff. split.
    + intros Hne. exists u. split; [reflexivity|]. intros He. rewrite He in Hne. discriminate.
    + intros (u' & [= <-] & Hne). destruct (String.eqb_spec (url.String u) ""); congruence.
  - split; [discriminate|]. intros (u & Hu & _). discriminate.
Qed.

(** The router [newHTTPServer] returns is well formed and mounts the
    handlers of this file where [mounted] says. *)
Lemma newHTTPServer_wf cfg authContext grpcAddress opts mux :
  strings.first MetadataEndpoint = Some "/"%char ->
  newHTTPServer cfg authContext grpcAddress opts = Done (Ok mux) ->
  http.wf mounted mux.
Proof.
  intros Hme (mux1 & mux2 & mux3 & gwopts & H1 & H2 & Hauth & H7)%newHTTPServer_inv.
  pose proof (wf_Handle mounted _ _ _ _ (wf_NewServeMux mounted) H1 eq_refl eq_refl) as W1.
  pose proof (wf_Handle mounted _ _ _ _ W1 H2 eq_refl eq_refl) as W2.
  assert (W3 : http.wf mounted mux3).
  { destruct (UseAuth (Security cfg)).
    - destruct Hauth as (a & m3 & m4 & m5 & _ & H3 & H4 & H5 & H6 & _).
      pose proof (wf_Handle mounted _ _ _ _ W2 H3 eq_refl I) as W3.
      pose proof (wf_Handle mounted _ _ _ _ W3 H4 eq_refl I) as W4.
      assert (W5 : http.wf mounted m5).
      { destruct (hasUserInfoUrl a); [|subst m5; exact W4].
        exact (wf_Handle mounted _ _ _ _ W4 H5 eq_refl I). }
      exact (wf_Handle mounted _ _ _ _ W5 H6 Hme I).
    - destruct Hauth as [-> _]. exact W2. }
  exact (wf_Handle mounted _ _ _ _ W3 H7 eq_refl eq_refl).
Qed.

(** The patterns of a router that [newHTTPServer] returned. *)
Lemma newHTTPServer_patterns cfg authContext grpcAddress opts mux k e :
  newHTTPServer cfg authContext grpcAddress opts = Done (Ok mux) ->
  http.m mux !! k = Some e ->
  In k ["/healthcheck"; "/api/v1/openapi"; "/login"; "/callback"; "/me";
        MetadataEndpoint; "/"].
Proof.
  intros (mux1 & mux2 & mux3 & gwopts & H1 & H2 & Hauth & H7)%newHTTPServer_inv Hk.
  destruct (UseAuth (Security cfg)).
  - destruct Hauth as (a & m3 & m4 & m5 & _ & H3 & H4 & H5 & H6 & _).
    destruct (hasUserInfoUrl a); [|subst m5];
      trace_back Hk; subst; cbn [In];
      first [ tauto | exfalso; cbn in Hk; rewrite lookup_empty in Hk; discriminate ].
  - destruct Hauth as [-> _].
    trace_back Hk; subst; cbn [In];
      first [ tauto | exfalso; cbn in Hk; rewrite lookup_empty in Hk; discriminate ].
Qed.

(** Unless the metadata endpoint ends in a slash, the root is the only
    pattern of the router that does, and no path is redirected to itself
    with a slash added. *)
Lemma newHTTPServer_no_slash_redirect cfg authContext grpcAddress opts mux host path :
  strings.last MetadataEndpoint <> Some "/"%char ->
  newHTTPServer cfg authContext grpcAddress opts = Done (Ok mux) ->
  http.shouldRedirectRLocked mux host path = false.
Proof.
  intros Hlast Hn.
  destruct (http.shouldRedirectRLocked mux host path) eqn:Hs; [exfalso|reflexivity].
  assert (Hpath : path <> "").
  { intros ->. unfold http.shouldRedirectRLocked in Hs. cbn [String.eqb] in Hs.
    destruct (existsb _ _); discriminate Hs. }
  apply shouldRedirectRLocked_true in Hs as (_ & c & Hc & [e He]).
  assert (Hroot : c ++ "/" = "/").
  { pose proof (last_app_slash c) as Hl.
    pose proof (newHTTPServer_patterns _ _ _ _ _ _ _ Hn He) as Hin. cbn [In] in Hin.
    destruct Hin as [Hk|[Hk|[Hk|[Hk|[Hk|[Hk|[Hk|[]]]]]]]];
      rewrite <- Hk in Hl; first [discriminate Hl | contradiction | symmetry; exact Hk]. }
  apply app_slash_root in Hroot. subst c.
  destruct Hc as [Hc|Hc]; [congruence|].
  symmetry in Hc. apply append_empty in Hc. contradiction.
Qed.

(** What a match of the router can be. *)
Lemma newHTTPServer_match mux (gwmux : GatewayMux) path e :
  http.wf mounted mux ->
  http.m mux !! "/" = Some {| http.h := gwmux_handler gwmux; http.pattern := "/" |} ->
  http.match_ mux path = Some e ->
  (http.h e = healthCheckFunc /\ path = "/healthcheck") \/
  (http.h e = GetHandleOpenapiSpec /\ path = "/api/v1/openapi") \/
  auth_handler (http.h e) = true \/ http.h e = gwmux_handler gwmux.
Proof.
  intros Hwf Hroot He.
  destruct (wf_match _ _ _ _ Hwf He) as (Hmounted & Hlk & Hpat).
  unfold mounted in Hmounted.
  destruct (http.h e) eqn:Hh; try (right; right; left; reflexivity).
  - left. split; [reflexivity|]. destruct Hpat as [Hp|(_ & Hl & _)].
    + congruence.
    + rewrite Hmounted in Hl. discriminate Hl.
  - right. left. split; [reflexivity|]. destruct Hpat as [Hp|(_ & Hl & _)].
    + congruence.
    + rewrite Hmounted in Hl. discriminate Hl.
  - right. right. right. rewrite Hmounted in Hlk. rewrite Hroot in Hlk.
    injection Hlk as <-. cbn in Hh. congruence.
Qed.

(** The lookup behind [Handler], on a router with a handler at the
    root. *)
Lemma newHTTPServer_lookup mux (gwmux : GatewayMux) host (r : http.Request) :
  http.wf mounted mux ->
  http.m mux !! "/" = Some {| http.h := gwmux_handler gwmux; http.pattern := "/" |} ->
  match http.resolved (http.handler mux host (http.Path r)) with
  | http.Registered hd =>
      (hd = healthCheckFunc /\ http.Path r = "/healthcheck") \/
      (hd = GetHandleOpenapiSpec /\ http.Path r = "/api/v1/openapi") \/
      auth_handler hd = true \/ hd = gwmux_handler gwmux
  | http.RedirectHandler _ _ => False
  | http.NotFoundHandler => strings.first (http.Path r) <> Some "/"%char
  end.
Proof.
  intros Hwf Hroot. rewrite (wf_handler _ _ _ _ Hwf).
  destruct (http.match_ mux (http.Path r)) as [e|] eqn:He; cbn.
  - exact (newHTTPServer_match _ _ _ _ Hwf Hroot He).
  - intros Hfirst. destruct (http.Path r) as [|c rest] eqn:Hp; [discriminate|].
    cbn in Hfirst. injection Hfirst as ->.
    destruct (wf_match_root _ _ rest _ Hwf Hroot) as [e' He'].
    change ("/" ++ rest) with (String "/" rest) in He'. congruence.
Qed.

(** C8, as the code has it: whatever the configuration, the router
    [newHTTPServer] returns answers every request to [/healthcheck] and to
    [/api/v1/openapi] with the health and the OpenAPI handler, whose
    responses do not depend on the request, and it has the transcoding
    gateway mounted at [/]. Every request is resolved by [ServeMux] to
    one of: the health handler, only at [/healthcheck]; the OpenAPI
    handler, only at [/api/v1/openapi]; a handler of package [auth]; the
    gateway; a permanent redirect, to the canonical form of a path that
    is not canonical or to a path registered only with a slash added; or
    not found, for a CONNECT request whose path does not start with a
    slash. Unless the metadata endpoint ends in a slash, every request
    whose path is canonical is answered by a registered handler. *)
Theorem newHTTPServer_open_endpoints cfg authContext grpcAddress opts mux :
  strings.first MetadataEndpoint = Some "/"%char ->
  newHTTPServer cfg authContext grpcAddress opts = Done (Ok mux) ->
  (forall r, http.Path r = "/healthcheck" ->
             http.Handler mux r = http.Registered healthCheckFunc) /\
  (forall r, http.Path r = "/api/v1/openapi" ->
             http.Handler mux r = http.Registered GetHandleOpenapiSpec) /\
  (exists w, forall r, ServeHTTP healthCheckFunc r = Some w) /\
  (exists w, forall r, ServeHTTP GetHandleOpenapiSpec r = Some w) /\
  exists gwmux,
    http.m mux !! "/" = Some {| http.h := gwmux_handler gwmux; http.pattern := "/" |} /\
    (forall r,
       let canonical :=
         if String.eqb (http.Method r) "CONNECT" then http.Path r
         else http.cleanPath (http.Path r) in
       match http.Handler mux r with
       | http.Registered hd =>
           canonical = http.Path r /\
           ((hd = healthCheckFunc /\ http.Path r = "/healthcheck") \/
            (hd = GetHandleOpenapiSpec /\ http.Path r = "/api/v1/openapi") \/
            auth_handler hd = true \/ hd = gwmux_handler gwmux)
       | http.RedirectHandler path code =>
           code = http.StatusMovedPermanently /\
           ((path = canonical ++ "/" /\ http.m mux !! canonical = None) \/
            (path = canonical /\ canonical <> http.Path r))
       | http.NotFoundHandler =>
           http.Method r = "CONNECT" /\ strings.first (http.Path r) <> Some "/"%char
       end) /\
    (strings.last MetadataEndpoint <> Some "/"%char ->
     forall r, http.cleanPath (http.Path r) = http.Path r ->
               exists hd, http.Handler mux r = http.Registered hd).
Proof.
  intros Hme Hn. pose proof (newHTTPServer_wf _ _ _ _ _ Hme Hn) as Hwf.
  destruct (newHTTPServer_inv _ _ _ _ _ Hn)
    as (mux1 & mux2 & mux3 & gwopts & H1 & H2 & Hauth & H7).
  assert (Hhealth : http.m mux !! "/healthcheck"
            = Some {| http.h := healthCheckFunc; http.pattern := "/healthcheck" |}).
  { destruct (UseAuth (Security cfg)).
    - destruct Hauth as (a & m3 & m4 & m5 & _ & H3 & H4 & H5 & H6 & _).
      destruct (hasUserInfoUrl a); [|subst m5]; carry.
    - destruct Hauth as [-> _]. carry. }
  assert (Hopenapi : http.m mux !! "/api/v1/openapi"
            = Some {| http.h := GetHandleOpenapiSpec; http.pattern := "/api/v1/openapi" |}).
  { destruct (UseAuth (Security cfg)).
    - destruct Hauth as (a & m3 & m4 & m5 & _ & H3 & H4 & H5 & H6 & _).
      destruct (hasUserInfoUrl a); [|subst m5]; carry.
    - destruct Hauth as [-> _]. carry. }
  pose proof (Handle_lookup _ _ _ _ H7) as Hroot.
  assert (Hexact : forall (r : http.Request) e,
            http.cleanPath (http.Path r) = http.Path r ->
            http.m mux !! http.Path r = Some e ->
            http.Handler mux r = http.Registered (http.h e)).
  { intros r e Hclean Hp. unfold http.Handler, http.redirectToPathSlash.
    rewrite Hclean.
    rewrite !(shouldRedirectRLocked_registered _ _ _ _ Hp).
    rewrite String.eqb_refl. cbn [negb].
    rewrite !(wf_handler _ _ _ _ Hwf). unfold http.match_. rewrite Hp.
    destruct (String.eqb (http.Method r) "CONNECT"); reflexivity. }
  split; [|split; [|split; [|split]]].
  - intros r Hp. apply (Hexact r {| http.h := healthCheckFunc; http.pattern := "/healthcheck" |}).
    + rewrite Hp. reflexivity.
    + rewrite Hp. exact Hhealth.
  - intros r Hp.
    apply (Hexact r {| http.h := GetHandleOpenapiSpec; http.pattern := "/api/v1/openapi" |}).
    + rewrite Hp. reflexivity.
    + rewrite Hp. exact Hopenapi.
  - eexists. intros r. reflexivity.
  - cbn [ServeHTTP]. destruct (Asset "admin.swagger.json"); eexists; intros r; reflexivity.
  - eexists. split; [exact Hroot|]. split.
    + intros r. cbv zeta. unfold http.Handler, http.redirectToPathSlash.
      destruct (String.eqb_spec (http.Method r) "CONNECT") as [Hm|Hm].
      * destruct (http.shouldRedirectRLocked mux (http.URL_Host r) (http.Path r)) eqn:Hs.
        { split; [reflexivity|]. left. split; [reflexivity|].
          apply shouldRedirectRLocked_true in Hs as [Hnone _]. exact Hnone. }
        pose proof (newHTTPServer_lookup mux _ (http.Host r) r Hwf Hroot) as Hl.
        destruct (http.resolved _); [split; [reflexivity|exact Hl]|contradiction|].
        split; [exact Hm|exact Hl].
      * destruct (http.shouldRedirectRLocked mux _ (http.cleanPath (http.Path r))) eqn:Hs.
        { split; [reflexivity|]. left. split; [reflexivity|].
          apply shouldRedirectRLocked_true in Hs as [Hnone _]. exact Hnone. }
        destruct (String.eqb_spec (http.cleanPath (http.Path r)) (http.Path r)) as [Hc|Hc];
          cbn [negb].
        2:{ split; [reflexivity|]. right. split; [reflexivity|exact Hc]. }
        pose proof (newHTTPServer_lookup mux _ (http.stripHostPort (http.Host r)) r Hwf Hroot)
          as Hl.
        destruct (http.resolved _); [split; [exact Hc|exact Hl]|contradiction|].
        exfalso. apply Hl. destruct (cleanPath_rooted (http.Path r)) as [s Hs'].
        rewrite <- Hc, Hs'. reflexivity.
    + intros Hlast r Hclean.
      unfold http.Handler, http.redirectToPathSlash. rewrite Hclean.
      rewrite !(newHTTPServer_no_slash_redirect _ _ _ _ _ _ _ Hlast Hn).
      rewrite String.eqb_refl. cbn [negb].
      assert (Hany : forall host, exists hd,
                http.resolved (http.handler mux host (http.Path r)) = http.Registered hd).
      { intros host. rewrite (wf_handler _ _ _ _ Hwf).
        destruct (cleanPath_rooted (http.Path r)) as [s Hs']. rewrite Hclean in Hs'.
        destruct (wf_match_root _ _ s _ Hwf Hroot) as [e He].
        rewrite Hs', He. eexists. reflexivity. }
      destruct (String.eqb (http.Method r) "CONNECT"); apply Hany.
Qed.

(** A pattern that ends in a slash and is a prefix of [/me] is the root. *)
Lemma prefix_of_me (pat : string) :
  strings.last pat = Some "/"%char ->
  strings.HasPrefix "/me" pat = true ->
  pat = "/".
Proof.
  intros Hl Hp.
  destruct pat as [|c1 [|c2 [|c3 [|c4 pat]]]]; cbn in Hp; try discriminate.
  - repeat (apply andb_prop in Hp as [? Hp]).
    match goal with Hc : Ascii.eqb c1 _ = true |- _ => apply Ascii.eqb_eq in Hc as -> end.
    reflexivity.
  - exfalso. repeat (apply andb_prop in Hp as [? Hp]).
    repeat match goal with Hc : Ascii.eqb _ _ = true |- _ => apply Ascii.eqb_eq in Hc; subst end.
    discriminate Hl.
  - exfalso. repeat (apply andb_prop in Hp as [? Hp]).
    repeat match goal with Hc : Ascii.eqb _ _ = true |- _ => apply Ascii.eqb_eq in Hc; subst end.
    discriminate Hl.
  - repeat (apply andb_prop in Hp as [? Hp]). discriminate Hp.
Qed.

(** With the gateway at the root and nothing registered at [/me], a
    request to [/me] reaches the gateway. *)
Lemma me_falls_through mux (gwmux : GatewayMux) host :
  http.wf mounted mux ->
  http.m mux !! "/" = Some {| http.h := gwmux_handler gwmux; http.pattern := "/" |} ->
  http.m mux !! "/me" = None ->
  http.handler mux host "/me" = Some (gwmux_handler gwmux).
Proof.
  intros Hwf Hroot Hme.
  destruct (wf_match_root _ _ "me" _ Hwf Hroot) as [e He].
  change ("/" ++ "me") with "/me" in He.
  rewrite (wf_handler _ _ _ _ Hwf), He. cbn [fmap option_fmap option_map].
  destruct (wf_match _ _ _ _ Hwf He) as (_ & Hlk & [Hp|(_ & Hl & Hpre)]).
  - rewrite Hp in Hlk. congruence.
  - rewrite (prefix_of_me _ Hl Hpre) in Hlk. rewrite Hroot in Hlk.
    injection Hlk as <-. reflexivity.
Qed.

(** C10: with authentication enabled, the router [newHTTPServer] returns
    answers [/me] with the user-info handler exactly when the
    authentication context has a userinfo URL that is neither nil nor
    empty, and hands [/me] to the transcoding gateway otherwise; [/login],
    [/callback] and the metadata endpoint are registered and the gateway
    translates cookies to metadata. With authentication disabled no
    handler of package [auth] is registered and the gateway has no
    metadata translation. *)
Theorem newHTTPServer_auth_handlers cfg authContext grpcAddress opts mux :
  strings.first MetadataEndpoint = Some "/"%char ->
  MetadataEndpoint <> "/me" ->
  newHTTPServer cfg authContext grpcAddress opts = Done (Ok mux) ->
  exists gwmux,
    http.m mux !! "/" = Some {| http.h := gwmux_handler gwmux; http.pattern := "/" |} /\
    if UseAuth (Security cfg) then
      exists a,
        authContext = Some a /\
        http.m mux !! "/login" =
          Some {| http.h := RefreshTokensIfExists authContext (GetLoginHandler authContext);
                  http.pattern := "/login" |} /\
        http.m mux !! "/callback" =
          Some {| http.h := GetCallbackHandler authContext; http.pattern := "/callback" |} /\
        http.m mux !! MetadataEndpoint =
          Some {| http.h := GetMetadataEndpointRedirectHandler authContext;
                  http.pattern := MetadataEndpoint |} /\
        options gwmux =
          [ WithMarshalerOption "application/octet-stream" ProtoMarshaller;
            WithMetadata (GetHttpRequestCookieToMetadataHandler authContext) ] /\
        ((exists u, GetUserInfoUrl a = Some u /\ url.String u <> "") ->
         forall host, http.handler mux host "/me" = Some (GetMeEndpointHandler authContext)) /\
        (~ (exists u, GetUserInfoUrl a = Some u /\ url.String u <> "") ->
         forall host, http.handler mux host "/me" = Some (gwmux_handler gwmux))
    else
      (forall k e, http.m mux !! k = Some e -> auth_handler (http.h e) = false) /\
      options gwmux = [ WithMarshalerOption "application/octet-stream" ProtoMarshaller ].
Proof.
  intros Hfirst Hne Hn. pose proof (newHTTPServer_wf _ _ _ _ _ Hfirst Hn) as Hwf.
  destruct (newHTTPServer_inv _ _ _ _ _ Hn)
    as (mux1 & mux2 & mux3 & gwopts & H1 & H2 & Hauth & H7).
  pose proof (Handle_lookup _ _ _ _ H7) as Hroot.
  eexists. split; [exact Hroot|].
  destruct (UseAuth (Security cfg)).
  - destruct Hauth as (a & m3 & m4 & m5 & -> & H3 & H4 & H5 & H6 & ->).
    exists a. split; [reflexivity|].
    destruct (hasUserInfoUrl a) eqn:Hu.
    + split; [carry|]. split; [carry|]. split; [carry|].
      split; [rewrite registered_eq; reflexivity|]. split.
      * intros _ host. rewrite (wf_handler _ _ _ _ Hwf). unfold http.match_.
        assert (Hme : http.m mux !! "/me" =
                  Some {| http.h := GetMeEndpointHandler (Some a); http.pattern := "/me" |})
          by carry.
        rewrite Hme. reflexivity.
      * intros Hno. exfalso. apply Hno, hasUserInfoUrl_spec, Hu.
    + subst m5.
      split; [carry|]. split; [carry|]. split; [carry|].
      split; [rewrite registered_eq; reflexivity|]. split.
      * intros Hyes. apply hasUserInfoUrl_spec in Hyes. congruence.
      * intros _ host. apply me_falls_through; [exact Hwf|exact Hroot|].
        destruct (http.m mux !! "/me") as [e|] eqn:Hk; [exfalso|reflexivity].
        trace_back Hk;
          first [discriminate | congruence
                | cbn in Hk; rewrite lookup_empty in Hk; discriminate].
  - destruct Hauth as [-> ->]. split; [|rewrite registered_eq; reflexivity].
    intros k e Hk.
    trace_back Hk; subst;
      first [reflexivity | exfalso; cbn in Hk; rewrite lookup_empty in Hk; discriminate].
Qed.

(** X12: with authentication enabled and a metadata endpoint that does
    not end in a slash, [ServeMux] answers every request whose path is
    [/me], whatever its method and host, with the user-info handler when
    the authentication context has a userinfo URL that is neither nil nor
    empty, and with the transcoding gateway otherwise; it never redirects
    such a request. *)
Theorem newHTTPServer_me_request cfg authContext grpcAddress opts mux :
  strings.first MetadataEndpoint = Some "/"%char ->
  strings.last MetadataEndpoint <> Some "/"%char ->
  MetadataEndpoint <> "/me" ->
  UseAuth (Security cfg) = true ->
  newHTTPServer cfg authContext grpcAddress opts = Done (Ok mux) ->
  exists a gwmux,
    authContext = Some a /\
    http.m mux !! "/" = Some {| http.h := gwmux_handler gwmux; http.pattern := "/" |} /\
    forall r, http.Path r = "/me" ->
      http.Handler mux r =
        http.Registered (if hasUserInfoUrl a
                         then GetMeEndpointHandler authContext
                         else gwmux_handler gwmux).
Proof.
  intros Hfirst Hlast Hne Huse Hn.
  pose proof (newHTTPServer_wf _ _ _ _ _ Hfirst Hn) as Hwf.
  destruct (newHTTPServer_inv _ _ _ _ _ Hn)
    as (mux1 & mux2 & mux3 & gwopts & H1 & H2 & Hauth & H7).
  pose proof (Handle_lookup _ _ _ _ H7) as Hroot.
  rewrite Huse in Hauth.
  destruct Hauth as (a & m3 & m4 & m5 & -> & H3 & H4 & H5 & H6 & _).
  exists a. eexists. split; [reflexivity|]. split; [exact Hroot|].
  intros r Hp.
  assert (Hresolve :
    http.Handler mux r = http.resolved (http.h <$> http.match_ mux "/me")).
  { unfold http.Handler, http.redirectToPathSlash. rewrite Hp.
    change (http.cleanPath "/me") with "/me".
    rewrite !(newHTTPServer_no_slash_redirect _ _ _ _ _ _ _ Hlast Hn).
    cbn [String.eqb Ascii.eqb Bool.eqb andb negb].
    rewrite !(wf_handler _ _ _ _ Hwf).
    destruct (String.eqb (http.Method r) "CONNECT"); reflexivity. }
  rewrite Hresolve.
  destruct (hasUserInfoUrl a) eqn:Hu.
  - assert (Hme : http.m mux !! "/me" =
              Some {| http.h := GetMeEndpointHandler (Some a); http.pattern := "/me" |})
      by carry.
    unfold http.match_. rewrite Hme. reflexivity.
  - subst m5.
    assert (Hme : http.m mux !! "/me" = None).
    { destruct (http.m mux !! "/me") as [e|] eqn:Hk; [exfalso|reflexivity].
      trace_back Hk;
        first [discriminate | congruence
              | cbn in Hk; rewrite lookup_empty in Hk; discriminate]. }
    pose proof (me_falls_through mux _ "" Hwf Hroot Hme) as Hfall.
    rewrite (wf_handler _ _ _ _ Hwf) in Hfall.
    destruct (http.match_ mux "/me") as [e|]; [|discriminate Hfall].
    cbn in Hfall. injection Hfall as Hfall.
    cbn [fmap option_fmap option_map http.resolved]. rewrite Hfall. reflexivity.
Qed.

End Router.

(** ** The userinfo fetch *)
Section UserInfo.
Import auth.

(** Decoding what [json.Marshal] wrote gives the value back. *)
Lemma decode_Marshal (r : UserInfoResponse) : decode (JSON (Marshal r)) = inr r.
Proof. destruct r; reflexivity. Qed.

(** C7: a 200 response whose JSON body has the string members [sub],
    [name], [preferred_username], [given_name] and [family_name] makes
    [postToIdp] return exactly those five claims, whatever other members
    the body has; any other status makes it fail, whatever the body. *)
Theorem postToIdp_userinfo (client : Client) (userInfoUrl accessToken : string) :
  let response :=
    client {| URL := userInfoUrl; Authorization := "Bearer " ++ accessToken |} in
  (forall fields sub name preferred given family,
     StatusCode response = 200%Z ->
     Body_ response = JSON (JObject fields) ->
     member fields "sub" = Some (JString sub) ->
     member fields "name" = Some (JString name) ->
     member fields "preferred_username" = Some (JString preferred) ->
     member fields "given_name" = Some (JString given) ->
     member fields "family_name" = Some (JString family) ->
     postToIdp client userInfoUrl accessToken =
       inr {| Sub := sub; Name := name; PreferredUsername := preferred;
              GivenName := given; FamilyName := family |}) /\
  (StatusCode response <> 200%Z ->
   postToIdp client userInfoUrl accessToken
     = inl (IdentityProviderRejected (StatusCode response))).
Proof.
  intros response. unfold postToIdp. fold response. split.
  - intros fields sub name preferred given family Hs Hb H1 H2 H3 H4 H5.
    rewrite Hs, Hb. cbn [Z.eqb Pos.eqb decode]. unfold claim.
    rewrite H1, H2, H3, H4, H5. reflexivity.
  - intros Hs. destruct (Z.eqb_spec (StatusCode response) 200); [contradiction|reflexivity].
Qed.

(** [TestPostToIdp]: the canned 200 response of the test is decoded to
    the value it was marshalled from. *)
Example TestPostToIdp :
  let responseObj :=
    {| Sub := "abc123"; Name := "John Smith";
       PreferredUsername := "jsmith@company.com";
       GivenName := "John"; FamilyName := "Smith" |} in
  let client := NewTestHttpClient (fun _ =>
    {| StatusCode := 200; Body_ := JSON (Marshal responseObj) |}) in
  postToIdp client "https://lyft.okta.com/oauth2/ausc5wmjw96cRKvTd1t7/v1/userinfo" "j.w.t"
    = inr responseObj.
Proof. reflexivity. Qed.

(** A rejected token: the body is not looked at. *)
Example postToIdp_unauthorized :
  postToIdp (fun _ => {| StatusCode := 401; Body_ := NotJSON "Unauthorized" |})
            "https://idp.example.com/userinfo" "j.w.t"
    = inl (IdentityProviderRejected 401).
Proof. reflexivity. Qed.

End UserInfo.

(** ** The properties on the concrete deployment *)
Section OnSample.
Import entrypoints.

Lemma OAuth2Metadata_self_sample :
  authConfig.AuthServerType (authConfig.AppAuth (authzserver.cfg sample.selfProvider))
    = authConfig.AuthorizationServerTypeSelf /\
  exists doc,
    httpclient.value (authzserver.OAuth2Metadata (D:=sample.Decls) sample.selfProvider None)
      sample.offline = Ok doc /\
    httpclient.requests (authzserver.OAuth2Metadata (D:=sample.Decls) sample.selfProvider None)
      sample.offline = [] /\
    service.CodeChallengeMethodsSupported doc = ["S256"] /\
    service.ResponseTypesSupported doc = ["code"; "token"; "code token"] /\
    service.TokenEndpointAuthMethodsSupported doc = ["client_secret_basic"] /\
    service.AuthorizationEndpoint doc = "https://flyte.example.com/oauth2/authorize" /\
    service.TokenEndpoint doc = "https://flyte.example.com/oauth2/token" /\
    service.JwksUri doc = "https://flyte.example.com/oauth2/jwks".
Proof.
  split; [reflexivity|].
  exact (@OAuth2Metadata_self sample.Url sample.Decls sample.selfProvider None
           sample.offline eq_refl).
Defined.

Lemma OAuth2Metadata_self_scopes_sample :
  authConfig.AuthServerType (authConfig.AppAuth (authzserver.cfg sample.selfProvider))
    = authConfig.AuthorizationServerTypeSelf /\
  exists doc,
    httpclient.value (authzserver.OAuth2Metadata (D:=sample.Decls) sample.selfProvider None)
      sample.offline = Ok doc /\
    service.ScopesSupported doc = ["all"].
Proof.
  split; [reflexivity|].
  exact (@OAuth2Metadata_self_scopes sample.Url sample.Decls sample.selfProvider None
           sample.offline eq_refl).
Defined.

(** C4 as stated fails: a [self]-mode configuration that lists the scopes
    [offline] and [all] gets a document whose [scopes_supported] is the
    single scope [auth.ScopeAll]. *)
Lemma OAuth2Metadata_self_scopes_not_configured :
  authConfig.AuthServerType (authConfig.AppAuth (authzserver.cfg sample.selfProvider))
    = authConfig.AuthorizationServerTypeSelf /\
  authConfig.Scopes
    (authConfig.FlyteClientConfig_
       (authConfig.ThirdParty (authConfig.AppAuth (authzserver.cfg sample.selfProvider))))
    = ["offline"; "all"] /\
  exists doc,
    httpclient.value (authzserver.OAuth2Metadata (D:=sample.Decls) sample.selfProvider None)
      sample.offline = Ok doc /\
    service.ScopesSupported doc = [@authzserver.ScopeAll sample.Url sample.Decls] /\
    service.ScopesSupported doc <>
      authConfig.Scopes
        (authConfig.FlyteClientConfig_
           (authConfig.ThirdParty
              (authConfig.AppAuth (authzserver.cfg sample.selfProvider)))).
Proof.
  split; [reflexivity|]. split; [reflexivity|].
  eexists. split; [reflexivity|]. split; [reflexivity|]. discriminate.
Qed.

Lemma OAuth2Metadata_external_sample :
  authConfig.AuthServerType (authConfig.AppAuth (authzserver.cfg sample.externalProvider))
    <> authConfig.AuthorizationServerTypeSelf /\
  httpclient.requests (authzserver.OAuth2Metadata (D:=sample.Decls) sample.externalProvider
     (Some service.OAuth2MetadataRequest_zero))
    (sample.answering "https://auth.example.com")
    = ["https://auth.example.com/.well-known/oauth-authorization-server"] /\
  httpclient.value (authzserver.OAuth2Metadata (D:=sample.Decls) sample.externalProvider
     (Some service.OAuth2MetadataRequest_zero))
    (sample.answering "https://auth.example.com")
    = Ok {| service.Issuer := "https://auth.example.com";
            service.AuthorizationEndpoint := ""; service.TokenEndpoint := "";
            service.ResponseTypesSupported := []; service.ScopesSupported := [];
            service.TokenEndpointAuthMethodsSupported := []; service.JwksUri := "";
            service.CodeChallengeMethodsSupported := [];
            service.GrantTypesSupported := [] |}.
Proof.
  split; [discriminate|].
  exact (@OAuth2Metadata_external sample.Url sample.Decls sample.externalProvider
           (Some service.OAuth2MetadataRequest_zero)
           (sample.answering "https://auth.example.com") ltac:(discriminate)).
Defined.

(** An unreachable authorization server: the one request is issued and
    its error returned. *)
Example OAuth2Metadata_external_offline :
  authzserver.OAuth2Metadata (D:=sample.Decls) sample.externalProvider None sample.offline
    = (Err "no route to host",
       ["https://auth.example.com/.well-known/oauth-authorization-server"]).
Proof. reflexivity. Qed.

(** C5 as stated fails: in insecure mode, on a host where the HTTP
    address cannot be bound, startup returns an error after the gRPC
    listener was bound and its serve loop launched. *)
Lemma serveGatewayInsecure_partial_start :
  net_Listen (World := sample.world [":8088"] None) "tcp"
    (GetHostAddress (sample.serverConfig false false))
    = Some "bind: address already in use" /\
  exists grpcServer,
    serve (W := sample.world [":8088"] None) (sample.serverConfig false false)
      = ([ Bound {| network := "tcp"; address := ":8089" |};
           GoServe grpcServer {| network := "tcp"; address := ":8089" |} ],
         Returned "failed to Start HTTP Server: bind: address already in use") /\
    existsb serving
      [ Bound {| network := "tcp"; address := ":8089" |};
        GoServe grpcServer {| network := "tcp"; address := ":8089" |} ] = true.
Proof.
  split; [reflexivity|]. eexists. split; [vm_compute; reflexivity|reflexivity].
Qed.

(** Secure mode on a host where the address is taken: startup panics
    with nothing bound. *)
Example serveGatewaySecure_bind_fails :
  serve (W := sample.world [":8088"] None) (sample.serverConfig true false)
    = ([], Panicked "bind: address already in use").
Proof. vm_compute. reflexivity. Qed.

(** Insecure mode on a host where the gRPC address is taken: startup
    returns with nothing bound. *)
Example serveGatewayInsecure_grpc_bind_fails :
  serve (W := sample.world [":8089"] None) (sample.serverConfig false false)
    = ([], Returned "failed to listen on GRPC port: :8089: bind: address already in use").
Proof. vm_compute. reflexivity. Qed.

(** Insecure mode on a free host: both listeners serve. *)
Example serveGatewayInsecure_runs :
  exists grpcServer httpServer,
    serve (W := sample.world [] None) (sample.serverConfig false false)
      = ([ Bound {| network := "tcp"; address := ":8089" |};
           GoServe grpcServer {| network := "tcp"; address := ":8089" |};
           Bound {| network := "tcp"; address := ":8088" |};
           Serve {| network := "tcp"; address := ":8088" |} None (mux_Handler httpServer) ],
         Running).
Proof. do 2 eexists. vm_compute. reflexivity. Qed.

(** Secure mode on a free host: the one listener, on the host address,
    serves over TLS the handler built from the gRPC server and the router
    of the deployment; a gRPC call over HTTP/2 goes to the former, a JSON
    call over HTTP/2 to the latter. *)
Lemma grpcHandlerFunc_dispatch_sample :
  exists g h,
    newGRPCServer (U := sample.Url) (sample.serverConfig true false) None
      [Creds ("cert" : @Certificate sample.Opaque)] = Ok g /\
    newHTTPServer (W := sample.world [] None) (sample.serverConfig true false) None
      ":8088" [WithTransportCredentials ":8088" ("pool" : @CertPool sample.Opaque)]
      = Done (Ok h) /\
    serve (W := sample.world [] None) (sample.serverConfig true false)
      = ([ Bound {| network := "tcp"; address := ":8088" |};
           Serve {| network := "tcp"; address := ":8088" |}
                 (Some {| Certificates := ["cert" : @Certificate sample.Opaque];
                          NextProtos := ["h2"] |})
                 (grpcHandlerFunc g h) ], Running) /\
    grpcHandlerFunc g h sample.grpcCall = grpcServer_ServeHTTP g /\
    grpcHandlerFunc g h sample.restCall = otherHandler_ServeHTTP h.
Proof.
  assert (Hh : exists h,
            newHTTPServer (W := sample.world [] None) (sample.serverConfig true false) None
              ":8088" [WithTransportCredentials ":8088" ("pool" : @CertPool sample.Opaque)]
              = Done (Ok h))
    by (eexists; vm_compute; reflexivity).
  destruct Hh as [h Hh].
  assert (Hg : exists g,
            newGRPCServer (U := sample.Url) (sample.serverConfig true false) None
              [Creds ("cert" : @Certificate sample.Opaque)] = Ok g)
    by (eexists; reflexivity).
  destruct Hg as [g Hg]. exists g, h.
  split; [exact Hg|]. split; [exact Hh|].
  pose proof (@grpcHandlerFunc_dispatch sample.Url sample.Opaque (sample.world [] None)
                (sample.serverConfig true false) g h sample.grpcCall)
    as (Hgrpc & _ & Hserve & _).
  pose proof (@grpcHandlerFunc_dispatch sample.Url sample.Opaque (sample.world [] None)
                (sample.serverConfig true false) g h sample.restCall)
    as (_ & Hrest & _).
  split; [|split].
  - exact (Hserve "pool" "cert" None g h eq_refl eq_refl Hg Hh eq_refl).
  - apply Hgrpc. split; [reflexivity|]. exists "", "+proto". reflexivity.
  - apply Hrest. intros [_ Hsub]. apply Contains_spec in Hsub. discriminate Hsub.
Defined.

(** On a host where the gRPC endpoint cannot be dialled in the clear,
    the registration that insecure startup makes fails, while the one
    secure startup would make succeeds: insecure startup ends after the
    gRPC listener was bound and its serve loop launched. *)
Lemma startup_failure_sample :
  RegisterAdminServiceHandlerFromEndpoint (World := sample.unreachable [] None)
    (gatewayMux (sample.serverConfig false false) None) ":8089" [WithInsecure]
    = Some "context deadline exceeded" /\
  RegisterAdminServiceHandlerFromEndpoint (World := sample.unreachable [] None)
    (gatewayMux (sample.serverConfig false false) None) ":8088"
    [WithTransportCredentials ":8088" ("pool" : @CertPool sample.Opaque)] = None /\
  snd (serveGatewayInsecure (W := sample.unreachable [] None)
         (sample.serverConfig false false)) <> Running /\
  exists grpcServer,
    newGRPCServer (U := sample.Url) (sample.serverConfig false false) None []
      = Ok grpcServer /\
    fst (serveGatewayInsecure (W := sample.unreachable [] None)
           (sample.serverConfig false false))
      = [ Bound {| network := "tcp"; address := ":8089" |};
          GoServe grpcServer {| network := "tcp"; address := ":8089" |} ].
Proof.
  split; [reflexivity|]. split; [reflexivity|].
  apply (proj2 (proj2 (proj2 (proj2
           (@startup_failure sample.Url sample.Opaque (sample.unreachable [] None)
              (sample.serverConfig false false))))) None).
  - reflexivity.
  - reflexivity.
  - left. discriminate.
Defined.

(** The same startup, as it runs: the error of the registration comes
    back wrapped. *)
Example serveGatewayInsecure_registration_fails :
  exists grpcServer,
    serve (W := sample.unreachable [] None) (sample.serverConfig false false)
      = ([ Bound {| network := "tcp"; address := ":8089" |};
           GoServe grpcServer {| network := "tcp"; address := ":8089" |} ],
         Returned "error registering admin service: context deadline exceeded").
Proof. eexists. vm_compute. reflexivity. Qed.

(** The router of the deployment with authentication enabled and no
    userinfo URL. *)
Lemma newHTTPServer_open_endpoints_sample :
  strings.first (@MetadataEndpoint sample.Url sample.Opaque (sample.world [] None))
    = Some "/"%char /\
  exists mux,
    newHTTPServer (W := sample.world [] None) (sample.serverConfig false true)
      (Some {| GetUserInfoUrl := None |}) ":8089" [WithInsecure] = Done (Ok mux) /\
    http.Handler (N := sample.Net) mux (sample.probe "/healthcheck")
      = http.Registered healthCheckFunc /\
    http.Handler (N := sample.Net) mux (sample.probe "/api/v1/openapi")
      = http.Registered GetHandleOpenapiSpec /\
    exists hd,
      http.Handler (N := sample.Net) mux (sample.probe "/api/v1/projects")
        = http.Registered hd.
Proof.
  split; [reflexivity|].
  assert (Hn : exists mux,
            newHTTPServer (W := sample.world [] None) (sample.serverConfig false true)
              (Some {| GetUserInfoUrl := None |}) ":8089" [WithInsecure] = Done (Ok mux))
    by (eexists; vm_compute; reflexivity).
  destruct Hn as [mux Hn]. exists mux. split; [exact Hn|].
  destruct (@newHTTPServer_open_endpoints sample.Url sample.Opaque (sample.world [] None)
              sample.Net (sample.serverConfig false true)
              (Some {| GetUserInfoUrl := None |}) ":8089" [WithInsecure] mux eq_refl Hn)
    as (Hhealth & Hopenapi & _ & _ & gwmux & _ & _ & Hcanonical).
  split; [exact (Hhealth (sample.probe "/healthcheck") eq_refl)|].
  split; [exact (Hopenapi (sample.probe "/api/v1/openapi") eq_refl)|].
  apply Hcanonical; [discriminate|reflexivity].
Defined.

(** C8 as stated fails: with authentication disabled, a request for
    [//healthcheck], a path other than [/healthcheck] and
    [/api/v1/openapi], is answered by neither a handler of package [auth]
    nor the gateway but by a redirect of [ServeMux] to [/healthcheck];
    so is one for [/a/../healthcheck]. *)
Lemma newHTTPServer_unclean_path_redirected :
  exists mux,
    newHTTPServer (W := sample.world [] None) (sample.serverConfig false false)
      None ":8089" [WithInsecure] = Done (Ok mux) /\
    http.Path (sample.probe "//healthcheck") <> "/healthcheck" /\
    http.Path (sample.probe "//healthcheck") <> "/api/v1/openapi" /\
    http.Handler (N := sample.Net) mux (sample.probe "//healthcheck")
      = http.RedirectHandler "/healthcheck" http.StatusMovedPermanently /\
    http.Handler (N := sample.Net) mux (sample.probe "/a/../healthcheck")
      = http.RedirectHandler "/healthcheck" http.StatusMovedPermanently /\
    (forall hd, http.Handler (N := sample.Net) mux (sample.probe "//healthcheck")
                <> http.Registered hd).
Proof.
  eexists. split; [vm_compute; reflexivity|].
  split; [discriminate|]. split; [discriminate|].
  split; [vm_compute; reflexivity|]. split; [vm_compute; reflexivity|].
  intros hd. vm_compute. discriminate.
Qed.

Lemma newHTTPServer_auth_handlers_sample :
  strings.first (@MetadataEndpoint sample.Url sample.Opaque (sample.world [] None))
    = Some "/"%char /\
  @MetadataEndpoint sample.Url sample.Opaque (sample.world [] None) <> "/me" /\
  exists mux gwmux,
    newHTTPServer (W := sample.world [] None) (sample.serverConfig false true)
      (Some {| GetUserInfoUrl := None |}) ":8089" [WithInsecure] = Done (Ok mux) /\
    http.m mux !! "/" = Some {| http.h := gwmux_handler gwmux; http.pattern := "/" |} /\
    http.m mux !! "/login" =
      Some {| http.h := RefreshTokensIfExists (Some {| GetUserInfoUrl := None |})
                          (GetLoginHandler (Some {| GetUserInfoUrl := None |}));
              http.pattern := "/login" |} /\
    options gwmux =
      [ WithMarshalerOption "application/octet-stream" ProtoMarshaller;
        WithMetadata (GetHttpRequestCookieToMetadataHandler
                        (Some {| GetUserInfoUrl := None |})) ] /\
    forall host, http.handler mux host "/me" = Some (gwmux_handler gwmux).
Proof.
  split; [reflexivity|]. split; [discriminate|].
  assert (Hn : exists mux,
            newHTTPServer (W := sample.world [] None) (sample.serverConfig false true)
              (Some {| GetUserInfoUrl := None |}) ":8089" [WithInsecure] = Done (Ok mux))
    by (eexists; vm_compute; reflexivity).
  destruct Hn as [mux Hn].
  destruct (@newHTTPServer_auth_handlers sample.Url sample.Opaque (sample.world [] None)
              (sample.serverConfig false true) (Some {| GetUserInfoUrl := None |})
              ":8089" [WithInsecure] mux eq_refl ltac:(discriminate) Hn)
    as (gwmux & Hroot & Hauth).
  change (UseAuth (Security (sample.serverConfig false true))) with true in Hauth.
  cbv iota in Hauth.
  destruct Hauth as (a & Ha & Hlogin & _ & _ & Hopts & _ & Hme).
  injection Ha as <-.
  exists mux, gwmux. split; [exact Hn|]. split; [exact Hroot|].
  split; [exact Hlogin|]. split; [exact Hopts|].
  apply Hme. intros (u & Hu & _). discriminate Hu.
Defined.

Lemma newHTTPServer_me_request_sample :
  strings.first (@MetadataEndpoint sample.Url sample.Opaque (sample.world [] None))
    = Some "/"%char /\
  strings.last (@MetadataEndpoint sample.Url sample.Opaque (sample.world [] None))
    <> Some "/"%char /\
  @MetadataEndpoint sample.Url sample.Opaque (sample.world [] None) <> "/me" /\
  UseAuth (Security (sample.serverConfig false true)) = true /\
  exists mux gwmux,
    newHTTPServer (W := sample.world [] None) (sample.serverConfig false true)
      (Some {| GetUserInfoUrl := None |}) ":8089" [WithInsecure] = Done (Ok mux) /\
    http.m mux !! "/" = Some {| http.h := gwmux_handler gwmux; http.pattern := "/" |} /\
    http.Handler (N := sample.Net) mux (sample.probe "/me")
      = http.Registered (gwmux_handler gwmux).
Proof.
  split; [reflexivity|]. split; [discriminate|]. split; [discriminate|].
  split; [reflexivity|].
  assert (Hn : exists mux,
            newHTTPServer (W := sample.world [] None) (sample.serverConfig false true)
              (Some {| GetUserInfoUrl := None |}) ":8089" [WithInsecure] = Done (Ok mux))
    by (eexists; vm_compute; reflexivity).
  destruct Hn as [mux Hn].
  destruct (@newHTTPServer_me_request sample.Url sample.Opaque (sample.world [] None)
              sample.Net (sample.serverConfig false true)
              (Some {| GetUserInfoUrl := None |}) ":8089" [WithInsecure] mux
              eq_refl ltac:(discriminate) ltac:(discriminate) eq_refl Hn)
    as (a & gwmux & Ha & Hroot & Hme).
  injection Ha as <-.
  exists mux, gwmux. split; [exact Hn|]. split; [exact Hroot|].
  exact (Hme (sample.probe "/me") eq_refl).
Defined.

(** With a userinfo URL the user-info handler answers [/me]. *)
Example me_registered :
  match newHTTPServer (W := sample.world [] None) (sample.serverConfig false true)
          (Some {| GetUserInfoUrl :=
                     Some ("https://idp.example.com/userinfo" : @url.URL sample.Url) |})
          ":8089" [WithInsecure] with
  | Done (Ok mux) => http.handler mux "flyte.example.com" "/me"
  | _ => None
  end
  = Some (GetMeEndpointHandler
            (Some {| GetUserInfoUrl :=
                       Some ("https://idp.example.com/userinfo" : @url.URL sample.Url) |})).
Proof. vm_compute. reflexivity. Qed.

End OnSample.

(** ** The task validator *)
Section Validation.
Context {R : resource.Lib} {D : validation.Decls}.
Import validation.
Implicit Types (identifier : option core.Identifier).
Implicit Types (m : gmap core.Resources_ResourceName resource.Quantity).
Implicit Types (e : core.Resources_ResourceEntry.t).

(** The walk over the scopes finds a scope that covers the task. *)
Lemma scopesAllow_spec (taskID : core.Identifier) scopes :
  scopesAllow taskID scopes = true <->
  exists scope, In scope scopes /\
    (runtimeInterfaces.Project scope = "" \/
     (runtimeInterfaces.Project scope = core.Project taskID /\
      (runtimeInterfaces.Domain scope = "" \/
       runtimeInterfaces.Domain scope = core.Domain taskID))).
Proof.
  induction scopes as [|scope rest IH]; cbn [scopesAllow].
  - split; [discriminate|]. intros (s & [] & _).
  - destruct (String.eqb_spec (runtimeInterfaces.Project scope) "") as [Hp|Hp].
    { split; [|reflexivity]. intros _. exists scope. split; [left; reflexivity|left; exact Hp]. }
    destruct (String.eqb_spec (runtimeInterfaces.Project scope) (core.Project taskID))
      as [Hq|Hq]; cbn [negb].
    + destruct (String.eqb_spec (runtimeInterfaces.Domain scope) "") as [Hd|Hd].
      { split; [|reflexivity]. intros _. exists scope.
        split; [left; reflexivity|right; split; [exact Hq|left; exact Hd]]. }
      destruct (String.eqb_spec (runtimeInterfaces.Domain scope) (core.Domain taskID))
        as [He|He].
      { split; [|reflexivity]. intros _. exists scope.
        split; [left; reflexivity|right; split; [exact Hq|right; exact He]]. }
      rewrite IH. split.
      * intros (s & Hin & Hs). exists s. split; [right; exact Hin|exact Hs].
      * intros (s & [<-|Hin] & Hs); [|exists s; split; assumption].
        exfalso. destruct Hs as [Hs|[_ [Hs|Hs]]]; contradiction.
    + rewrite IH. split.
      * intros (s & Hin & Hs). exists s. split; [right; exact Hin|exact Hs].
      * intros (s & [<-|Hin] & Hs); [|exists s; split; assumption].
        exfalso. destruct Hs as [Hs|[Hs _]]; contradiction.
Qed.

(** X1: [validateTaskType] fails only with [whitelistedTaskErr], and it
    accepts a task type exactly when the whitelist is nil, or lists no
    scope for the type, or lists a scope that names no project, or one
    that names the task's project and either no domain or the task's
    domain. *)
Theorem validateTaskType_accepts (taskID : core.Identifier) (taskType : string)
    (whitelistConfig : runtimeInterfaces.WhitelistConfiguration) :
  (validateTaskType taskID taskType whitelistConfig = None \/
   validateTaskType taskID taskType whitelistConfig = Some whitelistedTaskErr) /\
  (validateTaskType taskID taskType whitelistConfig = None <->
   forall taskTypeWhitelist scopes,
     runtimeInterfaces.GetTaskTypeWhitelist whitelistConfig = Some taskTypeWhitelist ->
     taskTypeWhitelist !! taskType = Some scopes ->
     scopes <> [] ->
     exists scope, In scope scopes /\
       (runtimeInterfaces.Project scope = "" \/
        (runtimeInterfaces.Project scope = core.Project taskID /\
         (runtimeInterfaces.Domain scope = "" \/
          runtimeInterfaces.Domain scope = core.Domain taskID)))).
Proof.
  unfold validateTaskType.
  destruct (runtimeInterfaces.GetTaskTypeWhitelist whitelistConfig) as [wl|].
  2:{ split; [left; reflexivity|]. split; [intros _ ? ? [=]|reflexivity]. }
  destruct (wl !! taskType) as [[|scope rest]|] eqn:Hl.
  - split; [left; reflexivity|]. split; [|reflexivity].
    intros _ ? ? [= <-] Hs Hne. rewrite Hl in Hs. injection Hs as <-. contradiction.
  - destruct (scopesAllow taskID (scope :: rest)) eqn:Ha.
    + split; [left; reflexivity|]. split; [|reflexivity].
      intros _ ? ? [= <-] Hs _. rewrite Hl in Hs. injection Hs as <-.
      apply scopesAllow_spec. exact Ha.
    + split; [right; reflexivity|]. split; [discriminate|].
      intros Hall. exfalso.
      specialize (Hall wl (scope :: rest) eq_refl Hl ltac:(discriminate)).
      apply scopesAllow_spec in Hall. congruence.
  - split; [left; reflexivity|]. split; [|reflexivity].
    intros _ ? ? [= <-] Hs. rewrite Hl in Hs. discriminate.
Qed.

(** Entries under names the validator does not track are skipped. *)
Lemma requestedResourcesToQuantity_from_filter identifier
    (resources : list core.Resources_ResourceEntry.t) m :
  requestedResourcesToQuantity_from identifier resources m =
  requestedResourcesToQuantity_from identifier
    (List.filter (fun e => tracked (core.Resources_ResourceEntry.Name e)) resources) m.
Proof.
  revert m. induction resources as [|e rest IH]; intros m; [reflexivity|].
  cbn [List.filter requestedResourcesToQuantity_from].
  destruct (core.Resources_ResourceEntry.Name e) eqn:Hn;
    cbn [tracked requestedResourcesToQuantity_from]; rewrite ?Hn;
    try apply IH;
    destruct (addResourceEntryToMap identifier e m) as [err|m']; try reflexivity;
    try apply IH;
    destruct (negb _); [reflexivity|apply IH].
Qed.

(** X4: resource entries named [UNKNOWN] or [STORAGE] are ignored by
    [requestedResourcesToQuantity]: dropping them from the list changes
    neither the map nor the error it returns. *)
Theorem requestedResourcesToQuantity_ignores_untracked identifier
    (resources : list core.Resources_ResourceEntry.t) :
  requestedResourcesToQuantity identifier resources =
  requestedResourcesToQuantity identifier
    (List.filter (fun e => tracked (core.Resources_ResourceEntry.Name e)) resources).
Proof. apply requestedResourcesToQuantity_from_filter. Qed.

(** What one successful [addResourceEntryToMap] did. *)
Lemma addResourceEntryToMap_inr identifier e m m' :
  addResourceEntryToMap identifier e m = inr m' ->
  m !! core.Resources_ResourceEntry.Name e = None /\
  exists q, resource.ParseQuantity (core.Resources_ResourceEntry.Value e) = Ok q /\
            m' = <[core.Resources_ResourceEntry.Name e := q]> m.
Proof.
  unfold addResourceEntryToMap.
  destruct (m !! core.Resources_ResourceEntry.Name e); [discriminate|].
  destruct (resource.ParseQuantity _) as [q|err]; [|discriminate].
  intros [= <-]. split; [reflexivity|]. exists q. split; reflexivity.
Qed.

(** One step of the loop on an entry under a tracked name. *)
Lemma requestedResourcesToQuantity_from_step identifier e rest m :
  tracked (core.Resources_ResourceEntry.Name e) = true ->
  requestedResourcesToQuantity_from identifier (e :: rest) m =
    match addResourceEntryToMap identifier e m with
    | inl err => inl err
    | inr m' =>
        if match core.Resources_ResourceEntry.Name e with
           | core.Resources_GPU =>
               negb (isWholeNumber
                       (default resource.Quantity_zero (m' !! core.Resources_GPU)))
           | _ => false
           end
        then inl (ErrGpuNotWhole identifier (core.Resources_ResourceEntry.Value e))
        else requestedResourcesToQuantity_from identifier rest m'
    end.
Proof.
  intros Ht. cbn [requestedResourcesToQuantity_from].
  destruct (core.Resources_ResourceEntry.Name e); try discriminate Ht; reflexivity.
Qed.

Lemma requestedResourcesToQuantity_from_skip identifier e rest m :
  tracked (core.Resources_ResourceEntry.Name e) = false ->
  requestedResourcesToQuantity_from identifier (e :: rest) m =
    requestedResourcesToQuantity_from identifier rest m.
Proof.
  intros Ht. cbn [requestedResourcesToQuantity_from].
  destruct (core.Resources_ResourceEntry.Name e); try discriminate Ht; reflexivity.
Qed.

(** What the loop has done when it returns a map. *)
Lemma requestedResourcesToQuantity_from_inr identifier resources m0 m :
  requestedResourcesToQuantity_from identifier resources m0 = inr m ->
  (forall e, In e resources -> tracked (core.Resources_ResourceEntry.Name e) = true ->
             m0 !! core.Resources_ResourceEntry.Name e = None) /\
  List.NoDup (List.map core.Resources_ResourceEntry.Name
                (List.filter (fun e => tracked (core.Resources_ResourceEntry.Name e))
                   resources)) /\
  (forall k q, m !! k = Some q <->
     m0 !! k = Some q \/
     (tracked k = true /\
      exists e, In e resources /\ core.Resources_ResourceEntry.Name e = k /\
                resource.ParseQuantity (core.Resources_ResourceEntry.Value e) = Ok q)) /\
  (forall q, m !! core.Resources_GPU = Some q ->
             m0 !! core.Resources_GPU = Some q \/ isWholeNumber q = true).
Proof.
  revert m0. induction resources as [|e rest IH]; intros m0 Hr.
  - cbn in Hr. injection Hr as <-. split; [intros e []|]. split; [constructor|].
    split; [|intros q Hq; left; exact Hq].
    intros k q. split; [intros Hq; left; exact Hq|].
    intros [Hq|(_ & e & [] & _)]. exact Hq.
  - destruct (tracked (core.Resources_ResourceEntry.Name e)) eqn:Ht.
    2:{ rewrite requestedResourcesToQuantity_from_skip in Hr by exact Ht.
        destruct (IH _ Hr) as (Hfree & Hnd & Hlk & Hgpu).
        split; [|split; [|split]].
        - intros e' [<-|Hin] Ht'; [congruence|exact (Hfree _ Hin Ht')].
        - cbn [List.filter]. rewrite Ht. exact Hnd.
        - intros k q. rewrite Hlk. split.
          + intros [Hq|(Hk & e' & Hin & Hn & Hp)]; [left; exact Hq|].
            right. split; [exact Hk|]. exists e'. split; [right; exact Hin|split; assumption].
          + intros [Hq|(Hk & e' & [<-|Hin] & Hn & Hp)]; [left; exact Hq| |].
            * congruence.
            * right. split; [exact Hk|]. exists e'. split; [exact Hin|split; assumption].
        - exact Hgpu. }
    rewrite requestedResourcesToQuantity_from_step in Hr by exact Ht.
    destruct (addResourceEntryToMap identifier e m0) as [err|m1] eqn:Ha; [discriminate|].
    apply addResourceEntryToMap_inr in Ha as (Hnone & q0 & Hparse & ->).
    set (k0 := core.Resources_ResourceEntry.Name e) in *.
    match type of Hr with (if ?c then _ else _) = _ => destruct c eqn:Hw end; [discriminate|].
    destruct (IH _ Hr) as (Hfree & Hnd & Hlk & Hgpu).
    assert (Hfresh : forall e', In e' rest ->
              tracked (core.Resources_ResourceEntry.Name e') = true ->
              core.Resources_ResourceEntry.Name e' <> k0 /\
              m0 !! core.Resources_ResourceEntry.Name e' = None).
    { intros e' Hin Ht'. specialize (Hfree _ Hin Ht').
      destruct (decide (core.Resources_ResourceEntry.Name e' = k0)) as [Heq|Hne].
      - rewrite Heq, lookup_insert_eq in Hfree. discriminate.
      - rewrite lookup_insert_ne in Hfree by congruence. split; assumption. }
    split; [|split; [|split]].
    + intros e' [<-|Hin] Ht'; [exact Hnone|]. exact (proj2 (Hfresh _ Hin Ht')).
    + cbn [List.filter]. fold k0. rewrite Ht. cbn [List.map]. fold k0.
      constructor; [|exact Hnd].
      intros Hin. apply in_map_iff in Hin as (e' & Hn & Hin).
      apply filter_In in Hin as [Hin Ht'].
      exact (proj1 (Hfresh _ Hin Ht') Hn).
    + intros k q. rewrite Hlk. split.
      * intros [Hq|(Hk & e' & Hin & Hn & Hp)].
        -- destruct (decide (k0 = k)) as [<-|Hne].
           ++ rewrite lookup_insert_eq in Hq. injection Hq as <-.
              right. split; [exact Ht|]. exists e.
              split; [left; reflexivity|split; [reflexivity|exact Hparse]].
           ++ rewrite lookup_insert_ne in Hq by exact Hne. left. exact Hq.
        -- right. split; [exact Hk|]. exists e'. split; [right; exact Hin|split; assumption].
      * intros [Hq|(Hk & e' & [<-|Hin] & Hn & Hp)].
        -- left. rewrite lookup_insert_ne; [exact Hq|]. intros <-. congruence.
        -- left. fold k0 in Hn. subst k. rewrite lookup_insert_eq. congruence.
        -- right. split; [exact Hk|]. exists e'. split; [exact Hin|split; assumption].
    + intros q Hq. destruct (Hgpu _ Hq) as [Hq1|Hq1]; [|right; exact Hq1].
      destruct (decide (k0 = core.Resources_GPU)) as [Heq|Hne].
      * right. rewrite Heq in Hq1, Hw. rewrite lookup_insert_eq in Hq1, Hw.
        injection Hq1 as <-. cbn [default from_option] in Hw.
        apply negb_false_iff in Hw. exact Hw.
      * left. rewrite lookup_insert_ne in Hq1 by exact Hne. exact Hq1.
Qed.

(** The loop returns a map whenever nothing stands in its way. *)
Lemma requestedResourcesToQuantity_from_complete identifier resources m0 :
  (forall e, In e resources -> tracked (core.Resources_ResourceEntry.Name e) = true ->
             m0 !! core.Resources_ResourceEntry.Name e = None) ->
  List.NoDup (List.map core.Resources_ResourceEntry.Name
                (List.filter (fun e => tracked (core.Resources_ResourceEntry.Name e))
                   resources)) ->
  (forall e, In e resources -> tracked (core.Resources_ResourceEntry.Name e) = true ->
     exists q, resource.ParseQuantity (core.Resources_ResourceEntry.Value e) = Ok q /\
               (core.Resources_ResourceEntry.Name e = core.Resources_GPU ->
                isWholeNumber q = true)) ->
  exists m, requestedResourcesToQuantity_from identifier resources m0 = inr m.
Proof.
  revert m0. induction resources as [|e rest IH]; intros m0 Hfree Hnd Hok.
  - exists m0. reflexivity.
  - destruct (tracked (core.Resources_ResourceEntry.Name e)) eqn:Ht.
    2:{ rewrite requestedResourcesToQuantity_from_skip by exact Ht.
        cbn [List.filter] in Hnd. rewrite Ht in Hnd.
        apply IH; [|exact Hnd|]; intros e' Hin; [apply Hfree|apply Hok]; right; exact Hin. }
    rewrite requestedResourcesToQuantity_from_step by exact Ht.
    cbn [List.filter] in Hnd. rewrite Ht in Hnd. cbn [List.map] in Hnd.
    apply List.NoDup_cons_iff in Hnd as [Hnotin Hnd].
    destruct (Hok e (or_introl eq_refl) Ht) as (q0 & Hparse & Hwhole).
    unfold addResourceEntryToMap.
    rewrite (Hfree e (or_introl eq_refl) Ht), Hparse.
    assert (Hw : match core.Resources_ResourceEntry.Name e with
                 | core.Resources_GPU =>
                     negb (isWholeNumber
                             (default resource.Quantity_zero
                                (<[core.Resources_ResourceEntry.Name e:=q0]> m0
                                   !! core.Resources_GPU)))
                 | _ => false
                 end = false).
    { destruct (core.Resources_ResourceEntry.Name e) eqn:Hk; try reflexivity.
      rewrite lookup_insert_eq. change (negb (isWholeNumber q0) = false).
      rewrite (Hwhole eq_refl). reflexivity. }
    rewrite Hw. apply IH; [|exact Hnd|].
    + intros e' Hin Ht'. rewrite lookup_insert_ne.
      * apply Hfree; [right; exact Hin|exact Ht'].
      * intros Heq. apply Hnotin. apply in_map_iff. exists e'.
        split; [symmetry; exact Heq|]. apply filter_In. split; assumption.
    + intros e' Hin. apply Hok. right. exact Hin.
Qed.

(** X2: [requestedResourcesToQuantity] returns a map exactly when no
    tracked resource name (CPU, GPU, MEMORY, EPHEMERAL_STORAGE) occurs
    twice in the list, every entry under a tracked name parses as a
    quantity, and the GPU quantity, if any, is a whole number; it returns
    an error in every other case. *)
Theorem requestedResourcesToQuantity_succeeds identifier
    (resources : list core.Resources_ResourceEntry.t) :
  (exists m, requestedResourcesToQuantity identifier resources = inr m) <->
  (List.NoDup (List.map core.Resources_ResourceEntry.Name
                 (List.filter (fun e => tracked (core.Resources_ResourceEntry.Name e))
                    resources)) /\
   forall e, In e resources -> tracked (core.Resources_ResourceEntry.Name e) = true ->
     exists q, resource.ParseQuantity (core.Resources_ResourceEntry.Value e) = Ok q /\
               (core.Resources_ResourceEntry.Name e = core.Resources_GPU ->
                isWholeNumber q = true)).
Proof.
  unfold requestedResourcesToQuantity. split.
  - intros [m Hm].
    destruct (requestedResourcesToQuantity_from_inr _ _ _ _ Hm) as (_ & Hnd & Hlk & Hgpu).
    split; [exact Hnd|]. intros e Hin Ht.
    assert (Hq : exists q, resource.ParseQuantity (core.Resources_ResourceEntry.Value e) = Ok q).
    { clear Hlk Hgpu Hnd. revert Hm. generalize (∅ : gmap core.Resources_ResourceName resource.Quantity).
      induction resources as [|e' rest IH]; intros m0 Hm; [destruct Hin|].
      destruct (tracked (core.Resources_ResourceEntry.Name e')) eqn:Ht'.
      - rewrite requestedResourcesToQuantity_from_step in Hm by exact Ht'.
        destruct (addResourceEntryToMap identifier e' m0) as [err|m1] eqn:Ha; [discriminate|].
        pose proof (addResourceEntryToMap_inr _ _ _ _ Ha) as (_ & q0 & Hp & _).
        destruct Hin as [<-|Hin]; [exists q0; exact Hp|].
        match type of Hm with (if ?c then _ else _) = _ => destruct c end; [discriminate|].
        exact (IH Hin _ Hm).
      - rewrite requestedResourcesToQuantity_from_skip in Hm by exact Ht'.
        destruct Hin as [<-|Hin]; [congruence|]. exact (IH Hin _ Hm). }
    destruct Hq as [q Hq]. exists q. split; [exact Hq|]. intros Hg.
    assert (Hmq : m !! core.Resources_GPU = Some q).
    { apply Hlk. right. split; [reflexivity|]. exists e. split; [exact Hin|split; assumption]. }
    destruct (Hgpu _ Hmq) as [He|Hw]; [rewrite lookup_empty in He; discriminate|exact Hw].
  - intros [Hnd Hok]. apply requestedResourcesToQuantity_from_complete.
    + intros e _ _. apply lookup_empty.
    + exact Hnd.
    + exact Hok.
Qed.

(** X3: the map [requestedResourcesToQuantity] returns holds, under each
    tracked name that occurs in the list, the quantity parsed from that
    entry, and nothing else; its GPU quantity is a whole number. *)
Theorem requestedResourcesToQuantity_content identifier
    (resources : list core.Resources_ResourceEntry.t) m :
  requestedResourcesToQuantity identifier resources = inr m ->
  (forall k q, m !! k = Some q <->
     tracked k = true /\
     exists e, In e resources /\ core.Resources_ResourceEntry.Name e = k /\
               resource.ParseQuantity (core.Resources_ResourceEntry.Value e) = Ok q) /\
  (forall q, m !! core.Resources_GPU = Some q -> isWholeNumber q = true).
Proof.
  intros Hm. unfold requestedResourcesToQuantity in Hm.
  destruct (requestedResourcesToQuantity_from_inr _ _ _ _ Hm) as (_ & _ & Hlk & Hgpu).
  split.
  - intros k q. rewrite Hlk, lookup_empty. split; [intros [[=]|H]; exact H|intros H; right; exact H].
  - intros q Hq. destruct (Hgpu _ Hq) as [He|Hw]; [|exact Hw].
    rewrite lookup_empty in He. discriminate.
Qed.

(** The map of platform limits holds the non-zero limits, under their
    names. *)
Lemma taskResourceSetToMap_lookup (resourceSet : runtimeInterfaces.TaskResourceSet)
    (name : core.Resources_ResourceName) :
  taskResourceSetToMap resourceSet !! name = platformLimitOf resourceSet name.
Proof.
  unfold taskResourceSetToMap, platformLimitOf.
  destruct (resource.IsZero (runtimeInterfaces.CPU resourceSet)),
           (resource.IsZero (runtimeInterfaces.Memory resourceSet)),
           (resource.IsZero (runtimeInterfaces.GPU resourceSet)),
           (resource.IsZero (runtimeInterfaces.EphemeralStorage resourceSet));
    destruct name; cbn [negb]; simplify_map_eq; reflexivity.
Qed.

(** One requested default passes the loop body exactly when it is within
    the limits. *)
Lemma checkDefault_spec identifier
    (limits platform : gmap core.Resources_ResourceName resource.Quantity)
    (name : core.Resources_ResourceName) (defaultQuantity : resource.Quantity) :
  checkDefault identifier limits platform name defaultQuantity = None <->
  withinLimits name defaultQuantity (limits !! name) (platform !! name).
Proof.
  unfold checkDefault, withinLimits, orElse.
  destruct name; try (split; [intros _; exact I|reflexivity]);
    destruct (limits !! _) as [l|], (platform !! _) as [p|];
    repeat match goal with
    | |- context [(?a <? ?b)%Z] => destruct (Z.ltb_spec a b)
    | |- context [(?a >? ?b)%Z] => rewrite (Z.gtb_ltb a b)
    | |- context [(?a =? ?b)%Z] => destruct (Z.eqb_spec a b)
    end; cbn [negb];
    (split;
     [ try discriminate; intros _; repeat split; intros; simplify_eq; lia
     | try reflexivity; intros Hwithin; exfalso;
       repeat match type of Hwithin with _ /\ _ => destruct Hwithin as [? Hwithin] end;
       repeat match goal with
       | Hx : forall l0, Some ?l = Some l0 -> _ |- _ => specialize (Hx _ eq_refl)
       | Hx : forall l0 p0, Some ?l = Some l0 -> Some ?p = Some p0 -> _ |- _ =>
           specialize (Hx _ _ eq_refl eq_refl)
       end; lia ]).
Qed.

Lemma checkDefaults_spec identifier
    (limits platform : gmap core.Resources_ResourceName resource.Quantity)
    (ranged : list (core.Resources_ResourceName * resource.Quantity)) :
  checkDefaults identifier limits platform ranged = None <->
  forall name q, In (name, q) ranged ->
    checkDefault identifier limits platform name q = None.
Proof.
  induction ranged as [|[name q] rest IH]; cbn [checkDefaults].
  - split; [intros _ ? ? []|reflexivity].
  - unfold orElse. destruct (checkDefault identifier limits platform name q) eqn:Hc.
    + split; [discriminate|]. intros Hall.
      rewrite (Hall name q (or_introl eq_refl)) in Hc. discriminate.
    + rewrite IH. split.
      * intros Hall n' q' [[= <- <-]|Hin]; [exact Hc|exact (Hall _ _ Hin)].
      * intros Hall n' q' Hin. apply Hall. right. exact Hin.
Qed.

(** X5: in whatever order the runtime ranges over the requested
    defaults, [validateTaskResources] accepts exactly when both lists
    convert to maps and every requested default is within limits: for CPU,
    memory and ephemeral storage, not above the requested limit of the
    same resource, not above the platform limit, and the requested limit
    not above the platform limit; for GPU, equal to the requested limit
    and not above the platform limit. Values are compared as [Value()]
    gives them, and a zero platform limit sets no limit. *)
Theorem validateTaskResources_accepts identifier
    (taskResourceLimits : runtimeInterfaces.TaskResourceSet)
    (requestedTaskResourceDefaults requestedTaskResourceLimits :
       list core.Resources_ResourceEntry.t) :
  (forall m, range m ≡ₚ map_to_list m) ->
  (validateTaskResources identifier taskResourceLimits
     requestedTaskResourceDefaults requestedTaskResourceLimits = None <->
   exists defaults limits,
     requestedResourcesToQuantity identifier requestedTaskResourceDefaults = inr defaults /\
     requestedResourcesToQuantity identifier requestedTaskResourceLimits = inr limits /\
     forall name q, defaults !! name = Some q ->
       withinLimits name q (limits !! name) (platformLimitOf taskResourceLimits name)).
Proof.
  intros Hrange. unfold validateTaskResources.
  destruct (requestedResourcesToQuantity identifier requestedTaskResourceDefaults)
    as [err|defaults].
  { split; [discriminate|]. intros (? & ? & [=] & _). }
  destruct (requestedResourcesToQuantity identifier requestedTaskResourceLimits)
    as [err|limits].
  { split; [discriminate|]. intros (? & ? & _ & [=] & _). }
  rewrite checkDefaults_spec.
  assert (Hin : forall name q, In (name, q) (range defaults) <-> defaults !! name = Some q).
  { intros name q. rewrite <- list_elem_of_In, (Hrange defaults).
    apply elem_of_map_to_list. }
  split.
  - intros Hall. exists defaults, limits. split; [reflexivity|]. split; [reflexivity|].
    intros name q Hq. rewrite <- taskResourceSetToMap_lookup.
    apply (proj1 (checkDefault_spec identifier limits _ name q)).
    apply Hall, Hin, Hq.
  - intros (? & ? & [= <-] & [= <-] & Hall) name q Hq.
    apply (proj2 (checkDefault_spec identifier limits _ name q)).
    rewrite taskResourceSetToMap_lookup. apply Hall, Hin, Hq.
Qed.

(** X6: a requested limit is compared with the platform limit only for a
    resource that also has a requested default: when the requested
    defaults name no tracked resource, [validateTaskResources] accepts
    every list of limits that converts to a map, whatever the platform
    limits. *)
Theorem validateTaskResources_limits_alone identifier
    (taskResourceLimits : runtimeInterfaces.TaskResourceSet)
    (requestedTaskResourceDefaults requestedTaskResourceLimits :
       list core.Resources_ResourceEntry.t)
    (limits : gmap core.Resources_ResourceName resource.Quantity) :
  (forall m, range m ≡ₚ map_to_list m) ->
  (forall e, In e requestedTaskResourceDefaults ->
             tracked (core.Resources_ResourceEntry.Name e) = false) ->
  requestedResourcesToQuantity identifier requestedTaskResourceLimits = inr limits ->
  validateTaskResources identifier taskResourceLimits
    requestedTaskResourceDefaults requestedTaskResourceLimits = None.
Proof.
  intros Hrange Hnone Hlimits. unfold validateTaskResources.
  unfold requestedResourcesToQuantity at 1.
  rewrite requestedResourcesToQuantity_from_filter.
  assert (Hf : List.filter (fun e => tracked (core.Resources_ResourceEntry.Name e))
                 requestedTaskResourceDefaults = []).
  { clear -Hnone. induction requestedTaskResourceDefaults as [|e rest IH]; [reflexivity|].
    cbn [List.filter]. rewrite (Hnone e (or_introl eq_refl)).
    apply IH. intros e' Hin. apply Hnone. right. exact Hin. }
  rewrite Hf. cbn [requestedResourcesToQuantity_from].
  rewrite Hlimits.
  assert (Hempty : range (∅ : gmap core.Resources_ResourceName resource.Quantity) = []).
  { apply Permutation_nil_r. rewrite (Hrange ∅), map_to_list_empty. reflexivity. }
  rewrite Hempty. reflexivity.
Qed.

(** The one containerless task type. *)
Lemma containerless_sidecar (taskType : string) :
  default false (containerlessTaskTypes !! taskType) = true <-> taskType = "sidecar".
Proof.
  unfold containerlessTaskTypes. destruct (decide ("sidecar" = taskType)) as [<-|Hne].
  - rewrite lookup_singleton_eq. split; reflexivity.
  - rewrite lookup_singleton_ne by exact Hne. split; [discriminate|congruence].
Qed.

(** Closes the conjuncts of an accepted template that hold by the path
    taken. *)
Ltac accepted metadata Hrt :=
  split; [reflexivity|]; split; [reflexivity|];
  split; [exists metadata; split; [reflexivity|apply Hrt; reflexivity]|];
  split; [discriminate|].

(** When [validateTaskTemplate] accepts. *)
Lemma validateTaskTemplate_accepts (taskID : core.Identifier) (task : core.TaskTemplate)
    (taskConfig : runtimeInterfaces.TaskResourceConfiguration)
    (whitelistConfig : runtimeInterfaces.WhitelistConfiguration) :
  validateTaskTemplate taskID task taskConfig whitelistConfig = Done None <->
  ValidateEmptyStringField (core.Type_ task) shared_Type = None /\
  validateTaskType taskID (core.Type_ task) whitelistConfig = None /\
  (exists metadata, core.Metadata task = Some metadata /\
     forall runtime, core.Runtime metadata = Some runtime ->
       ValidateEmptyStringField (core.RuntimeMetadata.Version runtime)
         shared_RuntimeVersion = None) /\
  core.Interface task <> None /\
  (core.Type_ task = "sidecar" \/
   forall container, core.GetContainer task = Some container ->
     ValidateEmptyStringField (core.Container.Image container) shared_Image = None /\
     forall resources, core.Container.Resources container = Some resources ->
       validateTaskResources (core.Id task) (runtimeInterfaces.GetLimits taskConfig)
         (core.Requests resources) (core.Limits resources) = None).
Proof.
  unfold validateTaskTemplate.
  destruct (ValidateEmptyStringField (core.Type_ task) shared_Type) as [err|].
  { split; [discriminate|]. intros ([=] & _). }
  destruct (validateTaskType taskID (core.Type_ task) whitelistConfig) as [err|].
  { split; [discriminate|]. intros (_ & [=] & _). }
  destruct (core.Metadata task) as [metadata|].
  2:{ split; [discriminate|]. intros (_ & _ & (? & [=] & _) & _). }
  assert (Hrt : match core.Runtime metadata with
                | Some runtime => validateRuntimeMetadata runtime
                | None => None
                end = None <->
                forall runtime, core.Runtime metadata = Some runtime ->
                  ValidateEmptyStringField (core.RuntimeMetadata.Version runtime)
                    shared_RuntimeVersion = None).
  { destruct (core.Runtime metadata) as [rt|].
    - unfold validateRuntimeMetadata, orElse.
      destruct (ValidateEmptyStringField _ _) eqn:Hv.
      + split; [discriminate|]. intros Hall. rewrite (Hall rt eq_refl) in Hv. discriminate.
      + split; [|reflexivity]. intros _ ? [= <-]. exact Hv.
    - split; [|reflexivity]. intros _ ? [=]. }
  destruct (match core.Runtime metadata with
            | Some runtime => validateRuntimeMetadata runtime
            | None => None
            end) as [err|].
  { split; [discriminate|]. intros (_ & _ & (? & [= <-] & Hall) & _).
    apply Hrt in Hall. discriminate. }
  destruct (core.Interface task) as [i|].
  2:{ split; [discriminate|]. intros (_ & _ & _ & Hi & _). contradiction. }
  pose proof (containerless_sidecar (core.Type_ task)) as Hside.
  destruct (default false (containerlessTaskTypes !! core.Type_ task)).
  { split; [|reflexivity]. intros _. accepted metadata Hrt.
    left. apply Hside. reflexivity. }
  assert (Hns : core.Type_ task <> "sidecar").
  { intros Hs. apply Hside in Hs. discriminate. }
  unfold validateContainer.
  destruct (core.GetContainer task) as [container|].
  2:{ split; [|reflexivity]. intros _. accepted metadata Hrt.
      right. intros ? [=]. }
  unfold orElse.
  destruct (ValidateEmptyStringField (core.Container.Image container) shared_Image) eqn:Hi.
  { split; [discriminate|]. intros (_ & _ & _ & _ & [Hs|Hc]); [contradiction|].
    destruct (Hc _ eq_refl) as [Hx _]. rewrite Hi in Hx. discriminate. }
  destruct (core.Container.Resources container) as [resources|] eqn:Hres.
  - destruct (validateTaskResources _ _ _ _) eqn:Hv.
    + split; [discriminate|]. intros (_ & _ & _ & _ & [Hs|Hc]); [contradiction|].
      destruct (Hc _ eq_refl) as [_ Hr]. specialize (Hr _ Hres).
      rewrite Hv in Hr. discriminate.
    + split; [|reflexivity]. intros _. accepted metadata Hrt.
      right. intros ? [= <-]. split; [exact Hi|].
      intros r Hr. rewrite Hres in Hr. injection Hr as <-. exact Hv.
  - split; [|reflexivity]. intros _. accepted metadata Hrt.
    right. intros ? [= <-]. split; [exact Hi|].
    intros r Hr. rewrite Hres in Hr. discriminate.
Qed.

(** X7: [validateTaskTemplate] never reaches the nil dereference of
    [validateContainer], and [ValidateTask] panics exactly when the
    request has no identifier and [ValidateIdentifier] lets that pass. *)
Theorem ValidateTask_panics (request : admin.TaskCreateRequest)
    (db : RepositoryInterface)
    (taskConfig : runtimeInterfaces.TaskResourceConfiguration)
    (whitelistConfig : runtimeInterfaces.WhitelistConfiguration)
    (applicationConfig : ApplicationConfiguration) :
  (forall taskID task,
     exists r, validateTaskTemplate taskID task taskConfig whitelistConfig = Done r) /\
  ((exists msg, ValidateTask request db taskConfig whitelistConfig applicationConfig
                = Panic msg) <->
   admin.Id request = None /\ ValidateIdentifier None common_Task = None).
Proof.
  assert (Htotal : forall taskID task,
            exists r, validateTaskTemplate taskID task taskConfig whitelistConfig = Done r).
  { intros taskID task. unfold validateTaskTemplate, validateContainer.
    repeat match goal with
    | |- exists r, match ?x with _ => _ end = _ => destruct x
    | |- exists r, (if ?x then _ else _) = _ => destruct x
    end; eexists; reflexivity. }
  split; [exact Htotal|]. unfold ValidateTask.
  destruct (admin.Id request) as [id|].
  - split; [|intros [[=] _]]. intros [msg Hp]. exfalso.
    destruct (ValidateIdentifier (Some id) common_Task); [discriminate|].
    destruct (ValidateProjectAndDomain _ _ _ _); [discriminate|].
    destruct (admin.Spec request) as [spec|]; [|discriminate].
    destruct (admin.Template spec) as [template|]; [|discriminate].
    destruct (Htotal id template) as [r Hr]. rewrite Hr in Hp. discriminate.
  - destruct (ValidateIdentifier None common_Task).
    + split; [intros [msg [=]]|intros [_ [=]]].
    + split; [intros _; split; reflexivity|]. intros _. eexists. reflexivity.
Qed.

(** X8: [ValidateTask] accepts a request exactly when it has an
    identifier that [ValidateIdentifier] and [ValidateProjectAndDomain]
    accept, a spec and a template whose type is not empty and is allowed
    by the whitelist, whose metadata is present with a runtime version
    that is not empty when a runtime is given, whose interface is present,
    and which is of type [sidecar] or else has no container or a container
    with an image and resources that [validateTaskResources] accepts. *)
Theorem ValidateTask_accepts (request : admin.TaskCreateRequest)
    (db : RepositoryInterface)
    (taskConfig : runtimeInterfaces.TaskResourceConfiguration)
    (whitelistConfig : runtimeInterfaces.WhitelistConfiguration)
    (applicationConfig : ApplicationConfiguration) :
  ValidateTask request db taskConfig whitelistConfig applicationConfig = Done None <->
  exists id spec template metadata,
    admin.Id request = Some id /\
    ValidateIdentifier (Some id) common_Task = None /\
    ValidateProjectAndDomain db applicationConfig (core.Project id) (core.Domain id) = None /\
    admin.Spec request = Some spec /\
    admin.Template spec = Some template /\
    ValidateEmptyStringField (core.Type_ template) shared_Type = None /\
    validateTaskType id (core.Type_ template) whitelistConfig = None /\
    core.Metadata template = Some metadata /\
    (forall runtime, core.Runtime metadata = Some runtime ->
       ValidateEmptyStringField (core.RuntimeMetadata.Version runtime)
         shared_RuntimeVersion = None) /\
    core.Interface template <> None /\
    (core.Type_ template = "sidecar" \/
     forall container, core.GetContainer template = Some container ->
       ValidateEmptyStringField (core.Container.Image container) shared_Image = None /\
       forall resources, core.Container.Resources container = Some resources ->
         validateTaskResources (core.Id template) (runtimeInterfaces.GetLimits taskConfig)
           (core.Requests resources) (core.Limits resources) = None).
Proof.
  unfold ValidateTask. split.
  - intros Hv.
    destruct (admin.Id request) as [id|].
    2:{ destruct (ValidateIdentifier None common_Task); discriminate. }
    destruct (ValidateIdentifier (Some id) common_Task) eqn:Hid; [discriminate|].
    destruct (ValidateProjectAndDomain _ _ _ _) eqn:Hpd; [discriminate|].
    destruct (admin.Spec request) as [spec|]; [|discriminate].
    destruct (admin.Template spec) as [template|] eqn:Ht; [|discriminate].
    apply validateTaskTemplate_accepts in Hv
      as (Hty & Hwl & (metadata & Hmd & Hrt) & Hi & Hc).
    exists id, spec, template, metadata. repeat split; assumption.
  - intros (id & spec & template & metadata & -> & -> & -> & -> & -> & Hty & Hwl & Hmd & Hrt & Hi & Hc).
    apply validateTaskTemplate_accepts.
    split; [exact Hty|]. split; [exact Hwl|]. split; [exists metadata; split; assumption|].
    split; assumption.
Qed.

End Validation.

(** ** The task validator on the concrete validator *)
Section OnSampleValidation.
Import validation sample_validation.

(** Decides an equation between closed terms by evaluating both sides. *)
Ltac by_evaluation :=
  match goal with |- _ = ?rhs => vm_cast_no_check (eq_refl rhs) end.

Lemma requestedResourcesToQuantity_content_sample :
  exists m,
    requestedResourcesToQuantity (R := Quantities) None
      [entry core.Resources_CPU "500m"; entry core.Resources_STORAGE "20";
       entry core.Resources_GPU "1"] = inr m /\
    (forall k q, m !! k = Some q <->
       tracked k = true /\
       exists e, In e [entry core.Resources_CPU "500m"; entry core.Resources_STORAGE "20";
                       entry core.Resources_GPU "1"] /\
                 core.Resources_ResourceEntry.Name e = k /\
                 parse (core.Resources_ResourceEntry.Value e) = Ok q) /\
    (forall q, m !! core.Resources_GPU = Some q -> isWholeNumber (R := Quantities) q = true).
Proof.
  assert (Hm : exists m,
            requestedResourcesToQuantity (R := Quantities) None
              [entry core.Resources_CPU "500m"; entry core.Resources_STORAGE "20";
               entry core.Resources_GPU "1"] = inr m)
    by (exists (<[core.Resources_GPU := 1000%Z]> (<[core.Resources_CPU := 500%Z]> ∅));
        by_evaluation).
  destruct Hm as [m Hm]. exists m. split; [exact Hm|].
  exact (@requestedResourcesToQuantity_content Quantities None _ m Hm).
Defined.

Lemma validateTaskResources_accepts_sample :
  (forall m, validation.range (Decls := Decls) m ≡ₚ map_to_list m) /\
  (validateTaskResources (D := Decls) None platform
     [entry core.Resources_CPU "500m"; entry core.Resources_GPU "1"]
     [entry core.Resources_CPU "2"; entry core.Resources_GPU "1"] = None <->
   exists defaults limits,
     requestedResourcesToQuantity (R := Quantities) None
       [entry core.Resources_CPU "500m"; entry core.Resources_GPU "1"] = inr defaults /\
     requestedResourcesToQuantity (R := Quantities) None
       [entry core.Resources_CPU "2"; entry core.Resources_GPU "1"] = inr limits /\
     forall name q, defaults !! name = Some q ->
       withinLimits name q (limits !! name) (platformLimitOf platform name)).
Proof.
  split; [intros m; reflexivity|].
  exact (@validateTaskResources_accepts Quantities Decls None platform
           [entry core.Resources_CPU "500m"; entry core.Resources_GPU "1"]
           [entry core.Resources_CPU "2"; entry core.Resources_GPU "1"]
           (fun m => reflexivity (R := Permutation) _)).
Defined.

(** A limit of 64 CPUs on a platform that allows two, with no CPU
    default requested. *)
Lemma validateTaskResources_limits_alone_sample :
  (forall m, validation.range (Decls := Decls) m ≡ₚ map_to_list m) /\
  (forall e, In e [entry core.Resources_STORAGE "10"] ->
             tracked (core.Resources_ResourceEntry.Name e) = false) /\
  (exists limits,
     requestedResourcesToQuantity (R := Quantities) None [entry core.Resources_CPU "64"]
       = inr limits) /\
  validateTaskResources (D := Decls) None platform
    [entry core.Resources_STORAGE "10"] [entry core.Resources_CPU "64"] = None.
Proof.
  assert (Hl : exists limits,
            requestedResourcesToQuantity (R := Quantities) None
              [entry core.Resources_CPU "64"] = inr limits)
    by (exists (<[core.Resources_CPU := 64000%Z]> ∅); by_evaluation).
  assert (Hd : forall e, In e [entry core.Resources_STORAGE "10"] ->
                 tracked (core.Resources_ResourceEntry.Name e) = false).
  { intros e [<-|[]]. reflexivity. }
  split; [intros m; reflexivity|]. split; [exact Hd|]. split; [exact Hl|].
  destruct Hl as [limits Hl].
  exact (@validateTaskResources_limits_alone Quantities Decls None platform
           [entry core.Resources_STORAGE "10"] [entry core.Resources_CPU "64"] limits
           (fun m => reflexivity (R := Permutation) _) Hd Hl).
Defined.

(** A spark task of project [flytesnacks] in domain [development] is not
    covered by the whitelist; one of project [analytics] is. *)
Example validateTaskType_rejects_sample :
  validateTaskType (R := Quantities) taskID "spark" whitelist = Some whitelistedTaskErr /\
  validateTaskType (R := Quantities)
    {| core.ResourceType := 1; core.Project := "analytics"; core.Domain := "staging";
       core.Name := "etl"; core.Version := "v2" |} "spark" whitelist = None /\
  validateTaskType (R := Quantities) taskID "python" whitelist = None.
Proof. split; [|split]; by_evaluation. Qed.

(** A resource named twice, a fractional GPU and a quantity that does
    not parse are refused. *)
Example requestedResourcesToQuantity_refuses_sample :
  requestedResourcesToQuantity (R := Quantities) None
    [entry core.Resources_CPU "1"; entry core.Resources_CPU "2"]
    = inl (ErrSpecifiedMultipleTimes core.Resources_CPU None) /\
  requestedResourcesToQuantity (R := Quantities) None [entry core.Resources_GPU "500m"]
    = inl (ErrGpuNotWhole None "500m") /\
  requestedResourcesToQuantity (R := Quantities) None [entry core.Resources_MEMORY "lots"]
    = inl (ErrParsingFailed core.Resources_MEMORY "lots"
             "quantities must match the regular expression").
Proof. split; [|split]; by_evaluation. Qed.

(** A default of four CPUs on a platform that allows two is refused, and
    so is a default above its own limit. *)
Example validateTaskResources_refuses_sample :
  validateTaskResources (D := Decls) None platform [entry core.Resources_CPU "4"] []
    = Some (ErrDefaultAbovePlatform core.Resources_CPU
              (4000%Z : @resource.Quantity Quantities) 2000%Z) /\
  validateTaskResources (D := Decls) None platform
    [entry core.Resources_MEMORY "2"] [entry core.Resources_MEMORY "1"]
    = Some (ErrDefaultAboveLimit core.Resources_MEMORY
              (2000%Z : @resource.Quantity Quantities) 1000%Z).
Proof. split; by_evaluation. Qed.

(** A sidecar task is accepted whatever its container; the same
    container on a task of another type is refused. *)
Example ValidateTask_sidecar_sample :
  ValidateTask (D := Decls)
    {| admin.Id := Some taskID;
       admin.Spec := Some {| admin.Template :=
         Some (template "sidecar" (Some (container [entry core.Resources_CPU "64"] []))) |} |}
    tt {| runtimeInterfaces.GetLimits := platform |} whitelist tt = Done None /\
  ValidateTask (D := Decls)
    {| admin.Id := Some taskID;
       admin.Spec := Some {| admin.Template :=
         Some (template "python" (Some (container [entry core.Resources_CPU "64"] []))) |} |}
    tt {| runtimeInterfaces.GetLimits := platform |} whitelist tt
    = Done (Some (ErrDefaultAbovePlatform core.Resources_CPU
                    (64000%Z : @resource.Quantity Quantities) 2000%Z)).
Proof. split; by_evaluation. Qed.

End OnSampleValidation.

(** ** Startup: panics and wiring *)
Section Startup.
Context {U : url.Lib} {O : entrypoints.Opaque} {W : entrypoints.World}.
Import entrypoints.
Implicit Types (cfg : ServerConfig) (authContext : AuthContextRef).

(** A registration panics only on an empty or an already registered
    pattern. *)
Lemma Handle_Panic {H : Type} (mux : http.ServeMux H) (pat : string) (hd : H) msg :
  http.Handle mux pat hd = Panic msg ->
  pat = "" \/ exists e, http.m mux !! pat = Some e.
Proof.
  unfold http.Handle. destruct (String.eqb_spec pat ""); [intros _; left; assumption|].
  destruct (http.m mux !! pat) as [e|]; [|discriminate].
  intros _. right. exists e. reflexivity.
Qed.

(** Traces a lookup back through the registrations made so far. *)
Ltac walk_back Hk :=
  repeat match goal with
  | Hh : http.Handle ?m0 ?pat ?hd = Done ?m1 |- _ =>
      match type of Hk with
      | http.m m1 !! _ = Some _ =>
          apply (Handle_lookup_inv _ _ _ _ _ _ Hh) in Hk;
          destruct Hk as [[? ?]|Hk]
      end
  end.

(** Refutes a panic of a registration whose pattern is fresh. *)
Ltac no_panic Hp :=
  exfalso;
  let Hk := fresh "Hk" in
  apply Handle_Panic in Hp as [Hp|[? Hk]];
  [ congruence
  | walk_back Hk;
    first [ congruence | cbn in Hk; rewrite lookup_empty in Hk; discriminate ] ].

(** What [newHTTPServer] returns, by the answer to the registration of
    the admin service on the gateway mux it has built. *)
Lemma newHTTPServer_outcome cfg authContext grpcAddress opts :
  ~ In MetadataEndpoint
       [""; "/healthcheck"; "/api/v1/openapi"; "/login"; "/callback"; "/me"; "/"] ->
  (UseAuth (Security cfg) = true -> authContext <> None) ->
  match RegisterAdminServiceHandlerFromEndpoint (gatewayMux cfg authContext)
          grpcAddress opts with
  | Some err =>
      newHTTPServer cfg authContext grpcAddress opts
        = Done (Err (Wrap err "error registering admin service"))
  | None => exists mux, newHTTPServer cfg authContext grpcAddress opts = Done (Ok mux)
  end.
Proof.
  intros Hfresh Hctx. unfold gatewayMux.
  assert (N0 : MetadataEndpoint <> "") by (intros He; apply Hfresh; rewrite He; cbn; tauto).
  assert (N1 : MetadataEndpoint <> "/healthcheck")
    by (intros He; apply Hfresh; rewrite He; cbn; tauto).
  assert (N2 : MetadataEndpoint <> "/api/v1/openapi")
    by (intros He; apply Hfresh; rewrite He; cbn; tauto).
  assert (N3 : MetadataEndpoint <> "/login")
    by (intros He; apply Hfresh; rewrite He; cbn; tauto).
  assert (N4 : MetadataEndpoint <> "/callback")
    by (intros He; apply Hfresh; rewrite He; cbn; tauto).
  assert (N5 : MetadataEndpoint <> "/me")
    by (intros He; apply Hfresh; rewrite He; cbn; tauto).
  assert (N6 : MetadataEndpoint <> "/")
    by (intros He; apply Hfresh; rewrite He; cbn; tauto).
  clear Hfresh. unfold newHTTPServer.
  destruct (http.Handle http.NewServeMux "/healthcheck" healthCheckFunc)
    as [mux1|msg] eqn:H1; [|no_panic H1].
  cbn [Outcome_bind].
  destruct (http.Handle mux1 "/api/v1/openapi" GetHandleOpenapiSpec)
    as [mux2|msg] eqn:H2; [|no_panic H2].
  cbn [Outcome_bind].
  destruct (UseAuth (Security cfg)).
  - destruct authContext as [a|]; [|exfalso; exact (Hctx eq_refl eq_refl)].
    destruct (http.Handle mux2 "/login" _) as [m3|msg] eqn:H3; [|no_panic H3].
    cbn [Outcome_bind].
    destruct (http.Handle m3 "/callback" _) as [m4|msg] eqn:H4; [|no_panic H4].
    cbn [Outcome_bind].
    destruct (hasUserInfoUrl a).
    + destruct (http.Handle m4 "/me" _) as [m5|msg] eqn:H5; [|no_panic H5].
      cbn [Outcome_bind].
      destruct (http.Handle m5 MetadataEndpoint _) as [mux3|msg] eqn:H6; [|no_panic H6].
      cbn [Outcome_bind].
      destruct (RegisterAdminServiceHandlerFromEndpoint _ _ _); [reflexivity|].
      destruct (http.Handle mux3 "/" _) as [mux|msg] eqn:H7; [|no_panic H7].
      eexists. reflexivity.
    + cbn [Outcome_bind].
      destruct (http.Handle m4 MetadataEndpoint _) as [mux3|msg] eqn:H6; [|no_panic H6].
      cbn [Outcome_bind].
      destruct (RegisterAdminServiceHandlerFromEndpoint _ _ _); [reflexivity|].
      destruct (http.Handle mux3 "/" _) as [mux|msg] eqn:H7; [|no_panic H7].
      eexists. reflexivity.
  - cbn [Outcome_bind].
    destruct (RegisterAdminServiceHandlerFromEndpoint _ _ _); [reflexivity|].
    destruct (http.Handle mux2 "/" _) as [mux|msg] eqn:H7; [|no_panic H7].
    eexists. reflexivity.
Qed.

(** The gateway a router was built around: the one [newHTTPServer] had
    built, with the admin service registered on it. *)
Lemma newHTTPServer_gateway cfg authContext grpcAddress opts mux :
  newHTTPServer cfg authContext grpcAddress opts = Done (Ok mux) ->
  http.m mux !! "/"
    = Some {| http.h := gwmux_handler
                          (registered (gatewayMux cfg authContext) grpcAddress opts);
              http.pattern := "/" |}.
Proof.
  intros (mux1 & mux2 & mux3 & gwopts & _ & _ & Hauth & H7)%newHTTPServer_inv.
  rewrite (Handle_lookup _ _ _ _ H7). unfold gatewayMux.
  destruct (UseAuth (Security cfg)).
  - destruct Hauth as (a & m3 & m4 & m5 & _ & _ & _ & _ & _ & ->). reflexivity.
  - destruct Hauth as [_ ->]. reflexivity.
Qed.

(** X9: when the metadata endpoint is a pattern of its own (not empty
    and none of the six paths the router registers) and an
    authentication context is given whenever authentication is enabled,
    the result of [newHTTPServer] is decided by the registration of the
    admin service on the gateway mux it has built: when that fails,
    [newHTTPServer] returns its error wrapped with
    [error registering admin service]; when it succeeds, [newHTTPServer]
    returns a router with that gateway, the admin service registered on
    it, at the root. In neither case does it panic. *)
Theorem newHTTPServer_result cfg authContext grpcAddress opts :
  ~ In MetadataEndpoint
       [""; "/healthcheck"; "/api/v1/openapi"; "/login"; "/callback"; "/me"; "/"] ->
  (UseAuth (Security cfg) = true -> authContext <> None) ->
  (forall err,
     RegisterAdminServiceHandlerFromEndpoint (gatewayMux cfg authContext)
       grpcAddress opts = Some err ->
     newHTTPServer cfg authContext grpcAddress opts
       = Done (Err (Wrap err "error registering admin service"))) /\
  (RegisterAdminServiceHandlerFromEndpoint (gatewayMux cfg authContext)
     grpcAddress opts = None ->
   exists mux,
     newHTTPServer cfg authContext grpcAddress opts = Done (Ok mux) /\
     http.m mux !! "/"
       = Some {| http.h := gwmux_handler
                             (registered (gatewayMux cfg authContext) grpcAddress opts);
                 http.pattern := "/" |}) /\
  (forall msg, newHTTPServer cfg authContext grpcAddress opts <> Panic msg).
Proof.
  intros Hfresh Hctx.
  pose proof (newHTTPServer_outcome cfg authContext grpcAddress opts Hfresh Hctx) as Ho.
  destruct (RegisterAdminServiceHandlerFromEndpoint _ grpcAddress opts) as [err|] eqn:Hr.
  - split; [|split].
    + intros err' [= <-]. exact Ho.
    + discriminate.
    + rewrite Ho. discriminate.
  - destruct Ho as [mux Ho]. split; [|split].
    + discriminate.
    + intros _. exists mux. split; [exact Ho|]. exact (newHTTPServer_gateway _ _ _ _ _ Ho).
    + rewrite Ho. discriminate.
Qed.

(** The serve functions pass an authentication context whenever
    authentication is enabled. *)
Lemma authContextFor_Some cfg authContext :
  authContextFor cfg = Ok authContext ->
  UseAuth (Security cfg) = true -> authContext <> None.
Proof.
  unfold authContextFor. intros Ha Hu. rewrite Hu in Ha.
  destruct (NewAuthenticationContext _); [|discriminate].
  injection Ha as <-. discriminate.
Qed.

(** X10: when the metadata endpoint is a pattern of its own, insecure
    startup never panics, and secure startup panics only with the error
    of binding its listener. *)
Theorem serve_panics cfg :
  ~ In MetadataEndpoint
       [""; "/healthcheck"; "/api/v1/openapi"; "/login"; "/callback"; "/me"; "/"] ->
  (forall msg, snd (serveGatewayInsecure cfg) <> Panicked msg) /\
  (forall msg, snd (serveGatewaySecure cfg) = Panicked msg ->
               net_Listen "tcp" (GetHostAddress cfg) = Some msg).
Proof.
  intros Hfresh. split; intros msg.
  - unfold serveGatewayInsecure, ListenAndServe, Listen.
    destruct (authContextFor cfg) as [authContext|err] eqn:Ha; [|discriminate].
    destruct (newGRPCServer cfg authContext []) as [grpcServer|err]; [|discriminate].
    destruct (net_Listen "tcp" (GetGrpcHostAddress cfg)); [discriminate|].
    pose proof (newHTTPServer_outcome cfg authContext (GetGrpcHostAddress cfg)
                  [WithInsecure] Hfresh (authContextFor_Some _ _ Ha)) as Ho.
    destruct (RegisterAdminServiceHandlerFromEndpoint _ _ _).
    + rewrite Ho. discriminate.
    + destruct Ho as [mux ->].
      destruct (net_Listen "tcp" (GetHostAddress cfg)); discriminate.
  - unfold serveGatewaySecure, Listen.
    destruct (GetSslCredentials _ _) as [[certPool cert]|err]; [|discriminate].
    destruct (authContextFor cfg) as [authContext|err] eqn:Ha; [|discriminate].
    destruct (newGRPCServer cfg authContext [Creds cert]) as [grpcServer|err];
      [|discriminate].
    pose proof (newHTTPServer_outcome cfg authContext (GetHostAddress cfg)
                  [WithTransportCredentials (GetHostAddress cfg) certPool]
                  Hfresh (authContextFor_Some _ _ Ha)) as Ho.
    destruct (RegisterAdminServiceHandlerFromEndpoint _ _ _).
    + rewrite Ho. discriminate.
    + destruct Ho as [mux ->].
      destruct (net_Listen "tcp" (GetHostAddress cfg)) as [err|]; [|discriminate].
      intros [= <-]. reflexivity.
Qed.

(** X11: when startup reaches its serve loops, the transcoding gateway
    mounted at the root of the router dials the address the gRPC side
    listens on: in insecure mode the gRPC host address, without transport
    security; in secure mode the one host address, with the certificate
    pool that was loaded, while the gRPC server and the TLS listener
    present the loaded certificate. In both modes the first handler of
    the gateway is the CORS handler, under OPTIONS and the pattern that
    matches every path, and the handlers after it are the routes of the
    admin service. *)
Theorem serve_wiring cfg :
  (snd (serveGatewayInsecure cfg) = Running ->
   exists grpcServer httpServer gwmux,
     fst (serveGatewayInsecure cfg) =
       [ Bound {| network := "tcp"; address := GetGrpcHostAddress cfg |};
         GoServe grpcServer {| network := "tcp"; address := GetGrpcHostAddress cfg |};
         Bound {| network := "tcp"; address := GetHostAddress cfg |};
         Serve {| network := "tcp"; address := GetHostAddress cfg |} None
               (mux_Handler httpServer) ] /\
     http.m httpServer !! "/"
       = Some {| http.h := gwmux_handler gwmux; http.pattern := "/" |} /\
     endpoint gwmux = Some (GetGrpcHostAddress cfg, [WithInsecure]) /\
     handlers gwmux =
       (http.MethodOptions, noopPattern, CorsDecorated_healthCheckFunc)
         :: AdminService_handlers) /\
  (snd (serveGatewaySecure cfg) = Running ->
   exists certPool cert grpcServer httpServer gwmux,
     GetSslCredentials (CertificateFile (Ssl (Security cfg)))
                       (KeyFile (Ssl (Security cfg))) = Ok (certPool, cert) /\
     fst (serveGatewaySecure cfg) =
       [ Bound {| network := "tcp"; address := GetHostAddress cfg |};
         Serve {| network := "tcp"; address := GetHostAddress cfg |}
               (Some {| Certificates := [cert]; NextProtos := ["h2"] |})
               (grpcHandlerFunc grpcServer httpServer) ] /\
     In (Creds cert) (entrypoints.opts grpcServer) /\
     http.m httpServer !! "/"
       = Some {| http.h := gwmux_handler gwmux; http.pattern := "/" |} /\
     endpoint gwmux
       = Some (GetHostAddress cfg, [WithTransportCredentials (GetHostAddress cfg) certPool]) /\
     handlers gwmux =
       (http.MethodOptions, noopPattern, CorsDecorated_healthCheckFunc)
         :: AdminService_handlers).
Proof.
  split.
  - intros Hrun.
    destruct (serveGatewayInsecure_cases cfg)
      as [(ex & Hex & He & _)|(a & g & Ha & Hg & Hl & Hcase)].
    { rewrite He in Hrun. cbn in Hrun. contradiction. }
    destruct (newHTTPServer cfg a (GetGrpcHostAddress cfg) [WithInsecure])
      as [[httpServer|err]|msg] eqn:Hh;
      try (rewrite Hcase in Hrun; discriminate Hrun).
    destruct (net_Listen "tcp" (GetHostAddress cfg));
      [rewrite Hcase in Hrun; discriminate Hrun|].
    pose proof (newHTTPServer_gateway _ _ _ _ _ Hh) as Hroot.
    exists g, httpServer. eexists. rewrite Hcase.
    split; [reflexivity|]. split; [exact Hroot|].
    rewrite registered_eq. split; reflexivity.
  - intros Hrun.
    destruct (serveGatewaySecure_cases cfg)
      as [(cp & cert & a & g & h & Hc & Ha & Hg & Hh & Hl & Hs)|(ex & Hex & He)].
    2:{ rewrite He in Hrun. cbn in Hrun. contradiction. }
    pose proof (newHTTPServer_gateway _ _ _ _ _ Hh) as Hroot.
    exists cp, cert, g, h. eexists. rewrite Hs.
    split; [exact Hc|]. split; [reflexivity|]. split.
    { unfold newGRPCServer in Hg. injection Hg as <-. cbn. right. right. left. reflexivity. }
    split; [exact Hroot|]. rewrite registered_eq. split; reflexivity.
Qed.

End Startup.

(** ** Startup on the concrete deployment *)
Section OnSampleStartup.
Import entrypoints.

Lemma newHTTPServer_result_sample :
  ~ In (@MetadataEndpoint sample.Url sample.Opaque (sample.unreachable [] None))
       [""; "/healthcheck"; "/api/v1/openapi"; "/login"; "/callback"; "/me"; "/"] /\
  (UseAuth (Security (sample.serverConfig false true)) = true ->
   Some {| GetUserInfoUrl := None : option (@url.URL sample.Url) |} <> None) /\
  RegisterAdminServiceHandlerFromEndpoint (World := sample.unreachable [] None)
    (gatewayMux (sample.serverConfig false true) (Some {| GetUserInfoUrl := None |}))
    ":8089" [WithInsecure] = Some "context deadline exceeded" /\
  newHTTPServer (W := sample.unreachable [] None) (sample.serverConfig false true)
    (Some {| GetUserInfoUrl := None |}) ":8089" [WithInsecure]
    = Done (Err "error registering admin service: context deadline exceeded").
Proof.
  assert (Hfresh :
    ~ In (@MetadataEndpoint sample.Url sample.Opaque (sample.unreachable [] None))
         [""; "/healthcheck"; "/api/v1/openapi"; "/login"; "/callback"; "/me"; "/"]).
  { cbn. intros [H|[H|[H|[H|[H|[H|[H|[]]]]]]]]; discriminate H. }
  assert (Hctx :
    UseAuth (Security (sample.serverConfig false true)) = true ->
    Some {| GetUserInfoUrl := None : option (@url.URL sample.Url) |} <> None)
    by (intros _; discriminate).
  split; [exact Hfresh|]. split; [exact Hctx|]. split; [reflexivity|].
  exact (proj1 (@newHTTPServer_result sample.Url sample.Opaque (sample.unreachable [] None)
                  (sample.serverConfig false true) (Some {| GetUserInfoUrl := None |})
                  ":8089" [WithInsecure] Hfresh Hctx)
           "context deadline exceeded" eq_refl).
Defined.

(** On a host where the endpoint can be dialled the router is returned,
    with the gateway at its root holding the CORS handler and, behind it,
    the routes of the admin service. *)
Example newHTTPServer_registers_routes :
  match newHTTPServer (W := sample.world [] None) (sample.serverConfig false false)
          None ":8089" [WithInsecure] with
  | Done (Ok mux) => http.h <$> http.m mux !! "/"
  | _ => None
  end
  = Some (gwmux_handler
            {| options := [WithMarshalerOption "application/octet-stream" ProtoMarshaller];
               handlers :=
                 [ ("OPTIONS", noopPattern, CorsDecorated_healthCheckFunc);
                   ("POST",
                    {| version := 1; ops := [2; 0; 2; 1; 2; 2]%Z;
                       pool := ["api"; "v1"; "tasks"]; verb := "" |},
                    AdminService_request "CreateTask");
                   ("GET",
                    {| version := 1; ops := [2; 0; 2; 1; 2; 2]%Z;
                       pool := ["api"; "v1"; "projects"]; verb := "" |},
                    AdminService_request "ListProjects") ];
               endpoint := Some (":8089", [WithInsecure]) |}).
Proof. vm_compute. reflexivity. Qed.

Lemma serve_panics_sample :
  ~ In (@MetadataEndpoint sample.Url sample.Opaque (sample.world [":8088"] None))
       [""; "/healthcheck"; "/api/v1/openapi"; "/login"; "/callback"; "/me"; "/"] /\
  (forall msg,
     snd (serveGatewayInsecure (W := sample.world [":8088"] None)
            (sample.serverConfig false true)) <> Panicked msg) /\
  (forall msg,
     snd (serveGatewaySecure (W := sample.world [":8088"] None)
            (sample.serverConfig true true)) = Panicked msg ->
     net_Listen (World := sample.world [":8088"] None) "tcp"
       (GetHostAddress (sample.serverConfig true true)) = Some msg).
Proof.
  assert (Hfresh :
    ~ In (@MetadataEndpoint sample.Url sample.Opaque (sample.world [":8088"] None))
         [""; "/healthcheck"; "/api/v1/openapi"; "/login"; "/callback"; "/me"; "/"]).
  { cbn. intros [H|[H|[H|[H|[H|[H|[H|[]]]]]]]]; discriminate H. }
  split; [exact Hfresh|].
  split.
  - exact (proj1 (@serve_panics sample.Url sample.Opaque (sample.world [":8088"] None)
                    (sample.serverConfig false true) Hfresh)).
  - exact (proj2 (@serve_panics sample.Url sample.Opaque (sample.world [":8088"] None)
                    (sample.serverConfig true true) Hfresh)).
Defined.

End OnSampleStartup.
